(** * piNAS dashboard: a shallow embedding of the rendering and input core

    Sources embedded here:
      - docs/masterpiece-dashboard.py  (the main model, top level of this file)
      - docs/redesigned-dashboard.py   (module [Redesigned])
      - docs/new-dashboard.py          (module [NewDashboard])

    Modelling conventions.
      - Python [int] is [Z]; Python [float] is a rational [Q]; [int(x)]
        truncates toward zero. Arithmetic on floats is exact, except in the
        main loop's animation phase and in the shutdown animation, where
        the rounding of binary64 decides what is stored or drawn: there
        each operation is the exact one followed by [Float64.round].
      - A Python [str] is a [string] of characters with code points below
        256.
      - An expression that may raise is a [result]; [try: ... except:] is
        [try_except].
      - A [collections.deque(maxlen=n)] is a record holding [maxlen] and the
        items, oldest first.
      - Drawing on a PIL [ImageDraw] is modelled by the list of draw calls
        issued, in order (the display list of the frame).
      - What a renderer reads from outside its arguments (wall clock,
        [smbstatus], [findmnt]) is a [World]; library functions the code
        calls but does not define (math.sin, font metrics, float formatting)
        are section variables. *)

From Stdlib Require Import ZArith QArith Qround Lqa String Ascii List Bool Lia.
Import ListNotations.
Open Scope Z_scope.

(* ================================================================== *)
(** * Python values and exceptions *)

Module Py.

Inductive exn : Type :=
| UnboundLocalError
| TypeError
| ValueError
| OSError.

Inductive result (A : Type) : Type :=
| Ok (a : A)
| Raise (e : exn).
Arguments Ok {A} a.
Arguments Raise {A} e.

Definition bind {A B} (m : result A) (k : A -> result B) : result B :=
match m with
| Ok a => k a
| Raise e => Raise e
end.

(** [try: body  except: handler] with a bare [except]. *)
Definition try_except {A} (body : result A) (handler : A) : A :=
match body with
| Ok a => a
| Raise _ => handler
end.

Definition raises {A} (m : result A) : Prop := exists e, m = Raise e.

(** [int(x)] on a float: truncation toward zero. *)
Definition int (x : Q) : Z := Z.quot (Qnum x) (Zpos (Qden x)).

Definition ltb (a b : Q) : bool :=
match Qcompare a b with Lt => true | _ => false end.
Definition gtb (a b : Q) : bool := ltb b a.
Definition geb (a b : Q) : bool := negb (ltb a b).

(** [min(a, b)] returns [b] only when [b < a]; [max(a, b)] returns [b]
only when [b > a]. *)
Definition min (a b : Q) : Q := if ltb b a then b else a.
Definition max (a b : Q) : Q := if gtb b a then b else a.

Definition minZ (a b : Z) : Z := if b <? a then b else a.
Definition maxZ (a b : Z) : Z := if b >? a then b else a.

End Py.

Notation "x <- m ;; k" := (Py.bind m (fun x => k))
  (at level 61, m at next level, right associativity).

(* ================================================================== *)
(** * Bounded history buffer: [collections.deque(maxlen=n)] *)

Module Deque.

Section Deque.
Context {A : Type}.

Record t : Type := mk { maxlen : nat; items : list A }.

(** [deque(maxlen=n)] *)
Definition new (n : nat) : t := {| maxlen := n; items := [] |}.

(** [d.append(v)]: the item is added on the right and, when the deque
is then longer than [maxlen], one item is discarded on the left. *)
Definition append (d : t) (v : A) : t :=
let l := items d ++ [v] in
{| maxlen := maxlen d;
items := if (maxlen d <? length l)%nat then tl l else l |}.

(** [list(d)], oldest first. *)
Definition snapshot (d : t) : list A := items d.

(** [d[-1]] *)
Definition last_item (d : t) : option A :=
match rev (items d) with
| [] => None
| x :: _ => Some x
end.

(** pushes in order, as the main loop does tick after tick *)
Definition push_all (d : t) (vs : list A) : t := fold_left append vs d.

End Deque.
Arguments t A : clear implicits.

End Deque.

(** the most recent [k] elements of [l], in order *)
Definition most_recent {A} (k : nat) (l : list A) : list A :=
  skipn (length l - k) l.

Coercion inject_Z : Z >-> Q.

(* ================================================================== *)
(** * Configuration and UI state (module-level globals) *)

Definition WIDTH : Z := 320.
Definition HEIGHT : Z := 240.
Definition HISTORY_SIZE : nat := 100.

(** The globals under "UI State". [handle_touch] and [main] declare
    [current_screen], [last_touch_time] and [animation_phase] global and
    assign them; [max_screens] and [touch_debounce] are only read. *)
Record UIState : Type := {
  current_screen : Z;
  max_screens : Z;
  last_touch_time : Q;
  touch_debounce : Q;
  animation_phase : Q
}.

Definition initial_ui : UIState :=
  {| current_screen := 0;
     max_screens := 3;
     last_touch_time := 0;
     touch_debounce := 2 # 10;
     animation_phase := 0 |}.

(* ================================================================== *)
(** * Touch calibration: [map_touch] *)

(** The touch object as one call of [map_touch] sees it. Attribute reads
    and method calls go to the sensor bus and may raise. [touch_point] is a
    property read again at each use: [touch_point k] is the outcome of the
    [k]-th read within the call; it yields [None] or a tuple of numbers. *)
Record TouchDevice : Type := {
  touched : Py.result bool;
  read_data : Py.result (list Q);
  touch_point : nat -> Py.result (option (list Q))
}.

(** truth value of [None] or a tuple *)
Definition truthy (v : option (list Q)) : bool :=
  match v with
  | Some (_ :: _) => true
  | _ => false
  end.

(** [a, b, c = v] *)
Definition unpack3 (v : list Q) : Py.result (Q * Q * Q) :=
  match v with
  | [a; b; c] => Py.Ok (a, b, c)
  | _ => Py.Raise Py.ValueError
  end.

(** [a, b = v] where [v] may be [None] *)
Definition unpack2 (v : option (list Q)) : Py.result (Q * Q) :=
  match v with
  | None => Py.Raise Py.TypeError
  | Some [a; b] => Py.Ok (a, b)
  | Some _ => Py.Raise Py.ValueError
  end.

(** The four assignments shared by both driver branches. *)
Definition calibrate (MIN_X MAX_X MIN_Y MAX_Y : Z) (x_raw y_raw : Q) : Z * Z :=
  let x_norm := Py.max 0 (Py.min 1 ((x_raw - MIN_X) / (MAX_X - MIN_X))) in
  let y_norm := Py.max 0 (Py.min 1 ((y_raw - MIN_Y) / (MAX_Y - MIN_Y))) in
  let screen_x := Py.int (y_norm * WIDTH) in
  let screen_y := Py.int ((1 - x_norm) * HEIGHT) in
  (screen_x, screen_y).

(** Where control is after the [if]/[elif]: an early [return None], or
    falling through with the locals [screen_x], [screen_y] assigned or not. *)
Inductive Flow : Type :=
| Return (r : option (Z * Z))
| Fallthrough (screen_xy : option (Z * Z)).

(** reading a local that was never assigned *)
Definition read_local {A} (v : option A) : Py.result A :=
  match v with
  | Some a => Py.Ok a
  | None => Py.Raise Py.UnboundLocalError
  end.

Definition driver_is (driver : option string) (tag : string) : bool :=
  match driver with
  | Some d => String.eqb d tag
  | None => false
  end.

(** the body of the [try] in [map_touch]; the function has the same text
    in docs/redesigned-dashboard.py *)
Definition map_touch_body (touch : TouchDevice) (driver : option string)
  : Py.result (option (Z * Z)) :=
  flow <-
    (if driver_is driver "STMPE610" then
       t <- touched touch ;;
       if negb t then Py.Ok (Return None)
       else
         d <- read_data touch ;;
         xyz <- unpack3 d ;;
         let '(x_raw, y_raw, _) := xyz in
         Py.Ok (Fallthrough (Some (calibrate 200 3800 200 3800 x_raw y_raw)))
     else if driver_is driver "XPT2046" then
       p <- touch_point touch 0%nat ;;
       if negb (truthy p) then Py.Ok (Return None)
       else
         p' <- touch_point touch 1%nat ;;
         xy <- unpack2 p' ;;
         let '(x_raw, y_raw) := xy in
         Py.Ok (Fallthrough (Some (calibrate 300 3800 300 3800 x_raw y_raw)))
     else Py.Ok (Fallthrough None)) ;;
  match flow with
  | Return r => Py.Ok r
  | Fallthrough locals =>
      xy <- read_local locals ;;
      let screen_x := Py.maxZ 0 (Py.minZ (WIDTH - 1) (fst xy)) in
      let screen_y := Py.maxZ 0 (Py.minZ (HEIGHT - 1) (snd xy)) in
      Py.Ok (Some (screen_x, screen_y))
  end.

Definition map_touch (touch : TouchDevice) (driver : option string)
  : option (Z * Z) :=
  Py.try_except (map_touch_body touch driver) None.

(** what it means for the sensor to report contact, per driver profile *)
Definition reports_contact (touch : TouchDevice) (driver : option string) : Prop :=
  (driver = Some "STMPE610"%string /\ touched touch = Py.Ok true) \/
  (driver = Some "XPT2046"%string /\
   exists p, touch_point touch 0%nat = Py.Ok p /\ truthy p = true).

Definition reports_no_contact (touch : TouchDevice) (driver : option string) : Prop :=
  (driver = Some "STMPE610"%string /\ touched touch = Py.Ok false) \/
  (driver = Some "XPT2046"%string /\
   exists p, touch_point touch 0%nat = Py.Ok p /\ truthy p = false).

(** a sensor access raises *)
Definition read_error (touch : TouchDevice) (driver : option string) : Prop :=
  (driver = Some "STMPE610"%string /\
   (Py.raises (touched touch) \/ Py.raises (read_data touch))) \/
  (driver = Some "XPT2046"%string /\
   (Py.raises (touch_point touch 0%nat) \/ Py.raises (touch_point touch 1%nat))).

(* ================================================================== *)
(** * Touch handling: [handle_touch] *)

(** [handle_touch(x, y, drives)]; [current_time] is what [time.time()]
    returns inside the call. The drive list is not used by this variant. *)
Definition handle_touch {D : Type} (current_time : Q) (x y : Z) (drives : list D)
    (s : UIState) : UIState :=
  if Py.ltb (current_time - last_touch_time s) (touch_debounce s) then s
  else
    {| current_screen := (current_screen s + 1) mod (max_screens s);
       max_screens := max_screens s;
       last_touch_time := current_time;
       touch_debounce := touch_debounce s;
       animation_phase := animation_phase s |}.

(** a touch is accepted when the guard of [handle_touch] lets it through *)
Definition accepted (current_time : Q) (s : UIState) : bool :=
  negb (Py.ltb (current_time - last_touch_time s) (touch_debounce s)).

(** a run of touches at the given times, none hit-tested *)
Fixpoint touches (times : list Q) (s : UIState) : UIState :=
  match times with
  | [] => s
  | t :: rest => touches rest (handle_touch (D := unit) t 0 0 [] s)
  end.

(** every touch of the run comes at least the debounce interval after the
    one before it (the first, after the last touch accepted so far) *)
Fixpoint well_spaced (last debounce : Q) (times : list Q) : Prop :=
  match times with
  | [] => True
  | t :: rest => (debounce <= t - last)%Q /\ well_spaced t debounce rest
  end.

(* ================================================================== *)
(** * Colours *)

Definition Color : Type := (Z * Z * Z)%type.
Definition Color4 : Type := (Z * Z * Z * Z)%type.

Definition BG_DARK : Color := (10, 10, 15).
Definition BG_CARD : Color := (20, 22, 30).

Definition GRADIENT_PRIMARY : Color * Color := ((100, 40, 240), (180, 100, 255)).
Definition GRADIENT_SUCCESS : Color * Color := ((0, 200, 120), (0, 255, 180)).
Definition GRADIENT_WARNING : Color * Color := ((255, 150, 0), (255, 200, 60)).
Definition GRADIENT_ERROR : Color * Color := ((255, 50, 80), (255, 120, 140)).
Definition GRADIENT_INFO : Color * Color := ((30, 150, 255), (100, 200, 255)).

Definition TEXT_PRIMARY : Color := (255, 255, 255).
Definition TEXT_SECONDARY : Color := (160, 165, 180).
Definition TEXT_MUTED : Color := (100, 105, 120).

Definition COLOR_CPU : Color := (255, 90, 120).
Definition COLOR_CPU_GLOW : Color4 := (255, 90, 120, 80).
Definition COLOR_MEM : Color := (100, 220, 255).
Definition COLOR_MEM_GLOW : Color4 := (100, 220, 255, 80).
Definition COLOR_DISK : Color := (160, 100, 255).
Definition COLOR_DISK_GLOW : Color4 := (160, 100, 255, 80).
Definition COLOR_NET : Color := (255, 200, 80).
Definition COLOR_NET_GLOW : Color4 := (255, 200, 80, 80).

Definition STATUS_ONLINE : Color := (0, 255, 150).
Definition STATUS_WARNING : Color := (255, 180, 0).
Definition STATUS_ERROR : Color := (255, 60, 80).

(** [tuple(f(c) for c in color)] *)
Definition map_color (f : Z -> Z) (c : Color) : Color :=
  let '(r, g, b) := c in (f r, f g, f b).

(** [tuple(int(c * k) for c in color)] *)
Definition scale_color (k : Q) (c : Color) : Color :=
  map_color (fun v => Py.int (v * k)) c.

(** [color[:3]] *)
Definition rgb_of (c : Color4) : Color :=
  let '(r, g, b, _) := c in (r, g, b).

(** [interpolate_color(color1, color2, factor)] *)
Definition interpolate_color (color1 color2 : Color) (factor : Q) : Color :=
  let '(r1, g1, b1) := color1 in
  let '(r2, g2, b2) := color2 in
  (Py.int (r1 + (r2 - r1) * factor),
   Py.int (g1 + (g2 - g1) * factor),
   Py.int (b1 + (b2 - b1) * factor)).

(** The usage-bar fill colour, as written at each of its two uses
    ([draw_overview_screen], [draw_drives_screen]):
    [STATUS_ERROR if p > 90 else STATUS_WARNING if p > 75 else GRADIENT_INFO[1]] *)
Definition bar_color (used_percent : Q) : Color :=
  if Py.gtb used_percent 90 then STATUS_ERROR
  else if Py.gtb used_percent 75 then STATUS_WARNING
  else snd GRADIENT_INFO.

(** The temperature colour, as written in the overview and stats screens. *)
Definition temp_color (temperature : Q) : Color :=
  if Py.gtb temperature 75 then STATUS_ERROR
  else if Py.gtb temperature 65 then STATUS_WARNING
  else STATUS_ONLINE.

(* ================================================================== *)
(** * Strings *)

(** [needle in hay] *)
Definition contains (needle hay : string) : bool :=
  match String.index 0 needle hay with
  | Some _ => true
  | None => false
  end.

(** [str.isspace] of one character, for the characters a [string] can
    hold (code points below 256): tab, newline, vertical tab, form feed,
    carriage return (9-13), the four separators 28-31, space (32), next
    line (133) and no-break space (160) *)
Definition is_space (c : ascii) : bool :=
  let n := nat_of_ascii c in
  ((n =? 32) || ((9 <=? n) && (n <=? 13)) || ((28 <=? n) && (n <=? 31)) ||
   (n =? 133) || (n =? 160))%nat.

Fixpoint lstrip (s : string) : string :=
  match s with
  | String c s' => if is_space c then lstrip s' else s
  | EmptyString => EmptyString
  end.

Fixpoint string_rev_onto (s acc : string) : string :=
  match s with
  | String c s' => string_rev_onto s' (String c acc)
  | EmptyString => acc
  end.

Definition string_rev (s : string) : string := string_rev_onto s EmptyString.

(** [s.strip()] *)
Definition strip (s : string) : string :=
  string_rev (lstrip (string_rev (lstrip s))).

Definition upper_ascii (c : ascii) : ascii :=
  let n := nat_of_ascii c in
  if ((97 <=? n) && (n <=? 122))%nat then ascii_of_nat (n - 32) else c.

(** [s.upper()] on ASCII text *)
Fixpoint upper (s : string) : string :=
  match s with
  | String c s' => String (upper_ascii c) (upper s')
  | EmptyString => EmptyString
  end.

(** [s[:n]] *)
Definition take (n : nat) (s : string) : string := String.substring 0 n s.

Fixpoint digits_of (fuel n : nat) (acc : string) : string :=
  match fuel with
  | O => acc
  | S fuel' =>
      let acc' := String (ascii_of_nat (48 + n mod 10)) acc in
      if (n / 10 =? 0)%nat then acc' else digits_of fuel' (n / 10) acc'
  end.

(** [str(n)] for a natural number, e.g. [f"{len(drives)}"] *)
Definition str_nat (n : nat) : string := digits_of (S n) n EmptyString.

(** [str(n)] for an integer *)
Definition str_int (n : Z) : string :=
  if n <? 0 then String "-" (str_nat (Z.to_nat (- n))) else str_nat (Z.to_nat n).

(** two digits, zero padded: [%H], [%M], [%d] *)
Definition two_digits (n : nat) : string :=
  if (n <? 10)%nat then String "0" (str_nat n) else str_nat n.

(* ================================================================== *)
(** * The world outside the renderer's arguments *)

Record datetime : Type := {
  year : nat; month : nat; day : nat;
  hour : nat; minute : nat; second : nat; microsecond : nat
}.

Definition month_abbr (m : nat) : string :=
  nth (m - 1) ["Jan"; "Feb"; "Mar"; "Apr"; "May"; "Jun";
               "Jul"; "Aug"; "Sep"; "Oct"; "Nov"; "Dec"]%string ""%string.

(** [now.strftime("%H:%M")] *)
Definition strftime_HM (now : datetime) : string :=
  (two_digits (hour now) ++ ":" ++ two_digits (minute now))%string.

(** [now.strftime("%d %b")] (C locale) *)
Definition strftime_d_b (now : datetime) : string :=
  (two_digits (day now) ++ " " ++ month_abbr (month now))%string.

(** What one frame reads from outside its arguments.
    [clock] is the reading of [datetime.now()];
    [smbstatus k] is what the [k]-th run of [smbstatus -S] prints, or the
    failure of that run; [findmnt k path] likewise for the [k]-th run of
    [findmnt -n -o FSTYPE path]. *)
Record World : Type := {
  clock : datetime;
  smbstatus : nat -> Py.result string;
  findmnt : nat -> string -> Py.result string
}.

(* ================================================================== *)
(** * USB drives *)

Record USBDrive : Type := {
  mount_path : string;
  name : string;
  total_bytes : Z;
  free_bytes : Z;
  used_bytes : Z;
  used_percent : Q
}.

(** [USBDrive.is_shared], at its [k]-th run of [smbstatus] *)
Definition is_shared (w : World) (k : nat) (d : USBDrive) : bool :=
  Py.try_except (output <- smbstatus w k ;; Py.Ok (contains (name d) output)) false.

(** [USBDrive.get_filesystem_type], at its [k]-th run of [findmnt] *)
Definition get_filesystem_type (w : World) (k : nat) (d : USBDrive) : string :=
  Py.try_except
    (stdout <- findmnt w k (mount_path d) ;;
     Py.Ok (let s := strip stdout in
            match s with EmptyString => "unknown"%string | _ => s end))
    "unknown"%string.


(** [USBDrive.format_size]: the loop over the units, then the [PB] case;
    [fmt1 v] is [f"{v:.1f}"]. *)
Fixpoint format_size_units (fmt1 : Q -> string) (units : list string)
    (bytes_val : Q) : string :=
  match units with
  | [] => (fmt1 bytes_val ++ "PB")%string
  | unit :: rest =>
      if Py.ltb bytes_val 1024 then (fmt1 bytes_val ++ unit)%string
      else format_size_units fmt1 rest (bytes_val / 1024)
  end.

(* ================================================================== *)
(** * Metric samples and histories *)

(** the dict returned by [get_system_stats] *)
Record Stats : Type := {
  cpu_percent : Q;
  temperature : option Q;
  memory_percent : Q;
  memory_used_gb : Q;
  memory_total_gb : Q;
  disk_percent : Q;
  disk_used_gb : Q;
  disk_total_gb : Q;
  net_speed_kb : Q;
  ip_address : string
}.

(** the four module-level deques *)
Record Histories : Type := {
  cpu_history : Deque.t Q;
  memory_history : Deque.t Q;
  disk_history : Deque.t Q;
  network_history : Deque.t Q
}.

Definition initial_histories : Histories :=
  {| cpu_history := Deque.new HISTORY_SIZE;
     memory_history := Deque.new HISTORY_SIZE;
     disk_history := Deque.new HISTORY_SIZE;
     network_history := Deque.new HISTORY_SIZE |}.

(** "Update histories" in [main] *)
Definition update_histories (stats : Stats) (h : Histories) : Histories :=
  {| cpu_history := Deque.append (cpu_history h) (cpu_percent stats);
     memory_history := Deque.append (memory_history h) (memory_percent stats);
     disk_history := Deque.append (disk_history h) (disk_percent stats);
     network_history :=
       Deque.append (network_history h) (Py.min 100 (net_speed_kb stats / 10)) |}.

(** the histories after a run of poll ticks *)
Definition poll_ticks (samples : list Stats) (h : Histories) : Histories :=
  fold_left (fun acc s => update_histories s acc) samples h.

(** truth value of [stats['temperature']]: [None] and [0.0] are false *)
Definition temperature_shown (stats : Stats) : option Q :=
  match temperature stats with
  | Some t => if Qeq_bool t 0 then None else Some t
  | None => None
  end.

(** [range(n)] *)
Definition range (n : Z) : list Z := map Z.of_nat (seq 0 (Z.to_nat n)).

(** [enumerate(l)] *)
Definition enumerate {A} (l : list A) : list (Z * A) :=
  combine (range (Z.of_nat (length l))) l.

(** consecutive pairs [(l[i], l[i + 1])] for [i in range(len(l) - 1)] *)
Fixpoint segments {A} (l : list A) : list (A * A) :=
  match l with
  | a :: (b :: _) as rest => (a, b) :: segments rest
  | _ => []
  end.

(* ================================================================== *)
(** * Drawing primitives *)

Definition Point : Type := (Q * Q)%type.
Definition Box : Type := (Q * Q * Q * Q)%type.

Definition ipt (x y : Z) : Point := (inject_Z x, inject_Z y).
Definition ibox (x0 y0 x1 y1 : Z) : Box :=
  (inject_Z x0, inject_Z y0, inject_Z x1, inject_Z y1).
Definition qbox (x0 y0 x1 y1 : Q) : Box := (x0, y0, x1, y1).

Section Rendering.

(** Library collaborators: a PIL font object, its [getbbox], Python's
fixed-precision float formatting [f"{v:.Nf}"], and [math.sin]. *)
Variable Font : Type.
Variable getbbox : Font -> string -> Z * Z * Z * Z.
Variable format_float : nat -> Q -> string.
Variable sin : Q -> Q.

(** One call on the [ImageDraw] object. Angles are in degrees, measured
from 3 o'clock and increasing clockwise, as PIL defines them. *)
Inductive DrawCmd : Type :=
| Line (xy : list Point) (fill : Color) (width : Z)
| Rectangle (box : Box) (fill : option Color) (outline : option Color)
| Pieslice (box : Box) (start stop : Z) (fill : Color)
| Arc (box : Box) (start stop : Z) (fill : Color) (width : Z)
| Ellipse (box : Box) (fill : option Color) (outline : option Color)
| Polygon (xy : list Point) (fill : Color)
| Text (xy : Point) (text : string) (font : Font) (fill : Color).

(** the tuple returned by [load_fonts] *)
Record Fonts : Type := {
font_title : Font;
font_big : Font;
font_medium : Font;
font_regular : Font;
font_small : Font;
font_tiny : Font
}.

Definition text_width (font : Font) (text : string) : Z :=
let '(b0, _, b2, _) := getbbox font text in b2 - b0.

Definition draw_rounded_rect (x y width height radius : Z) (fill : Color)
(outline : option Color) (width_outline : Z) : list DrawCmd :=
let radius := Z.min (Z.min radius (width / 2)) (height / 2) in
(if width >? radius * 2
then [Rectangle (ibox (x + radius) y (x + width - radius) (y + height))
               (Some fill) None]
else []) ++
(if height >? radius * 2
then [Rectangle (ibox x (y + radius) (x + width) (y + height - radius))
               (Some fill) None]
else []) ++
(if radius >? 0
then [Pieslice (ibox x y (x + radius * 2) (y + radius * 2)) 180 270 fill;
     Pieslice (ibox (x + width - radius * 2) y (x + width) (y + radius * 2))
              270 360 fill;
     Pieslice (ibox x (y + height - radius * 2) (x + radius * 2) (y + height))
              90 180 fill;
     Pieslice (ibox (x + width - radius * 2) (y + height - radius * 2)
                    (x + width) (y + height)) 0 90 fill]
else []) ++
match outline with
| Some outline =>
  [Arc (ibox x y (x + radius * 2) (y + radius * 2)) 180 270 outline width_outline;
   Arc (ibox (x + width - radius * 2) y (x + width) (y + radius * 2))
       270 360 outline width_outline;
   Arc (ibox x (y + height - radius * 2) (x + radius * 2) (y + height))
       90 180 outline width_outline;
   Arc (ibox (x + width - radius * 2) (y + height - radius * 2)
             (x + width) (y + height)) 0 90 outline width_outline;
   Line [ipt (x + radius) y; ipt (x + width - radius) y] outline width_outline;
   Line [ipt (x + radius) (y + height); ipt (x + width - radius) (y + height)]
        outline width_outline;
   Line [ipt x (y + radius); ipt x (y + height - radius)] outline width_outline;
   Line [ipt (x + width) (y + radius); ipt (x + width) (y + height - radius)]
        outline width_outline]
| None => []
end.

Definition sparkline_points (x y width height : Z) (data : list Q) : list Point :=
let step : Q := (width / (Z.of_nat (length data) - 1)%Z)%Q in
map (fun iv : Z * Q =>
     let (i, val) := iv in
     ((x + i * step)%Q, (y + height - (val / 100 * height))%Q))
  (enumerate data).

Definition draw_sparkline (x y width height : Z) (data : list Q) (color : Color)
(glow_color : option Color4) (fill : bool) : list DrawCmd :=
if (length data <? 2)%nat then []
else
let points := sparkline_points x y width height data in
(match glow_color with
 | Some glow =>
     if (1 <? length points)%nat
     then map (fun s => Line [fst s; snd s] (rgb_of glow) 3) (segments points)
     else []
 | None => []
 end) ++
(if fill && (1 <? length points)%nat
 then
   let fill_points := [ipt x (y + height)] ++ points ++ [ipt (x + width) (y + height)] in
   let fill_color := scale_color (3 # 10) color in
   [Polygon fill_points fill_color]
 else []) ++
map (fun s => Line [fst s; snd s] color 2) (segments points) ++
match rev points with
| (px, py) :: _ => [Ellipse (qbox (px - 2) (py - 2) (px + 2) (py + 2)) (Some color) None]
| [] => []
end.

(** the sweep of the progress arc: [int(360 * percent / 100)] *)
Definition progress_angle (percent : Q) : Z := Py.int (360 * percent / 100).

Definition draw_circular_progress (cx cy radius : Z) (percent : Q)
(color bg_color : Color) (thickness : Z) : list DrawCmd :=
[Arc (ibox (cx - radius) (cy - radius) (cx + radius) (cy + radius)) 0 360
   bg_color thickness] ++
(if Py.gtb percent 0
then
 let angle := progress_angle percent in
 [Arc (ibox (cx - radius) (cy - radius) (cx + radius) (cy + radius))
      (-90) (-90 + angle) color thickness]
else []).

(** returns the draw calls and the badge width *)
Definition draw_status_badge (x y : Z) (text : string) (color : Color)
(font : Font) : list DrawCmd * Z :=
let width := text_width font text + 12 in
let height := 16 in
(draw_rounded_rect x y width height 8 color None 1 ++
[Text (ipt (x + 6) (y + 2)) text font TEXT_PRIMARY],
width).

(** [USBDrive.format_size] *)
Definition format_size (bytes_val : Z) : string :=
format_size_units (format_float 1) ["B"; "KB"; "MB"; "GB"; "TB"]%string bytes_val.

(** the "Screen indicators" loop, the same in the three screens *)
Definition screen_indicators (ui : UIState) : list DrawCmd :=
flat_map
(fun i : Z =>
   let ind_x := 140 + i * 15 in
   let ind_y := 235 in
   if i =? current_screen ui
   then draw_rounded_rect ind_x ind_y 10 3 1 TEXT_PRIMARY None 1
   else [Ellipse (ibox (ind_x + 3) ind_y (ind_x + 6) (ind_y + 3))
                 (Some (60, 60, 70)) None])
(range (max_screens ui)).

(** the background loop of the drives and stats screens *)
Definition plain_background : list DrawCmd :=
map (fun y : Z =>
     let factor : Q := (y / HEIGHT)%Q in
     Line [ipt 0 y; ipt WIDTH y]
          (interpolate_color (5, 5, 10) (15, 10, 25) factor) 0)
  (range HEIGHT).

Definition deg_C : string := String "194" (String "176" "C").

(** [draw_overview_screen]; it also reads the history deques, the UI
globals, the clock and the share status of the first drive. *)
Definition draw_overview_screen (w : World) (hist : Histories) (ui : UIState)
(fonts : Fonts) (stats : Stats) (version : string) (is_latest : bool)
(drives : list USBDrive) (phase : Q) : list DrawCmd :=
(* animated background gradient *)
let gradient_offset := Py.int (20 * sin (phase * (1 # 10))) in
map (fun y : Z =>
     let factor : Q := ((y + gradient_offset)%Z / HEIGHT)%Q in
     Line [ipt 0 y; ipt WIDTH y]
          (interpolate_color (5, 5, 10) (15, 10, 25) factor) 0)
  (range HEIGHT) ++
(* header card *)
draw_rounded_rect 5 5 310 42 8 BG_CARD (Some (50, 50, 70)) 1 ++
(let dot_x := 15 in
let dot_y := 15 in
let pulse : Q := ((5 # 10) + (5 # 10) * sin (phase * (3 # 10)))%Q in
let dot_color := interpolate_color (0, 200, 100) (0, 255, 150) pulse in
[Ellipse (ibox dot_x dot_y (dot_x + 8) (dot_y + 8)) (Some dot_color) None;
Ellipse (ibox (dot_x - 2) (dot_y - 2) (dot_x + 10) (dot_y + 10)) None (Some dot_color)]) ++
[Text (ipt 28 8) "piNAS" (font_big fonts) TEXT_PRIMARY] ++
(* version badge and update indicator *)
(let version_color := if is_latest then snd GRADIENT_SUCCESS else snd GRADIENT_WARNING in
let version_x := 100 in
let version_y := 10 in
let badge := draw_status_badge version_x version_y ("v" ++ version)
                              version_color (font_small fonts) in
let badge_width := snd badge in
fst badge ++
(if negb is_latest
then
  let update_x := version_x + badge_width + 5 in
  [Ellipse (ibox update_x (version_y + 4) (update_x + 8) (version_y + 12))
           (Some (snd GRADIENT_WARNING)) None;
   Text (ipt (update_x + 12) (version_y + 1)) "UPDATE" (font_tiny fonts)
        (snd GRADIENT_WARNING)]
else [])) ++
(* time, date and IP *)
(let now := clock w in
let time_str := strftime_HM now in
let date_str := strftime_d_b now in
[Text (ipt 250 8) time_str (font_big fonts) TEXT_PRIMARY;
Text (ipt 252 26) date_str (font_tiny fonts) TEXT_SECONDARY;
Text (ipt 28 28) ("IP " ++ ip_address stats) (font_tiny fonts) TEXT_SECONDARY]) ++
(let card_width := 150 in
let card_height := 64 in
let cards_start_y := 52 in
(* CPU card *)
(let cpu_x := 5 in
let cpu_y := cards_start_y in
let cpu_center_x := cpu_x + 30 in
let cpu_center_y := cpu_y + 38 in
draw_rounded_rect cpu_x cpu_y card_width card_height 6 BG_CARD None 1 ++
[Text (ipt (cpu_x + 8) (cpu_y + 6)) "CPU" (font_small fonts) TEXT_SECONDARY] ++
draw_circular_progress cpu_center_x cpu_center_y 20 (cpu_percent stats)
                       COLOR_CPU (30, 30, 40) 4 ++
[Text (ipt (cpu_center_x - 10) (cpu_center_y - 6))
      (format_float 0 (cpu_percent stats)) (font_medium fonts) COLOR_CPU] ++
draw_sparkline (cpu_x + 65) (cpu_y + 15) 80 40 (Deque.snapshot (cpu_history hist))
               COLOR_CPU (Some COLOR_CPU_GLOW) true ++
match temperature_shown stats with
| Some t =>
    [Text (ipt (cpu_x + 65) (cpu_y + 6)) (format_float 0 t ++ deg_C)
          (font_tiny fonts) (temp_color t)]
| None => []
end) ++
(* memory card *)
(let mem_x := 160 in
let mem_y := cards_start_y in
let mem_center_x := mem_x + 30 in
let mem_center_y := mem_y + 38 in
draw_rounded_rect mem_x mem_y card_width card_height 6 BG_CARD None 1 ++
[Text (ipt (mem_x + 8) (mem_y + 6)) "MEMORY" (font_small fonts) TEXT_SECONDARY] ++
draw_circular_progress mem_center_x mem_center_y 20 (memory_percent stats)
                       COLOR_MEM (30, 30, 40) 4 ++
[Text (ipt (mem_center_x - 10) (mem_center_y - 6))
      (format_float 0 (memory_percent stats)) (font_medium fonts) COLOR_MEM] ++
draw_sparkline (mem_x + 65) (mem_y + 15) 80 40 (Deque.snapshot (memory_history hist))
               COLOR_MEM (Some COLOR_MEM_GLOW) true ++
[Text (ipt (mem_x + 65) (mem_y + 6)) (format_float 1 (memory_used_gb stats) ++ "GB")
      (font_tiny fonts) TEXT_SECONDARY]) ++
(* disk card *)
(let disk_x := 5 in
let disk_y := cards_start_y + card_height + 5 in
let disk_center_x := disk_x + 30 in
let disk_center_y := disk_y + 38 in
draw_rounded_rect disk_x disk_y card_width card_height 6 BG_CARD None 1 ++
[Text (ipt (disk_x + 8) (disk_y + 6)) "STORAGE" (font_small fonts) TEXT_SECONDARY] ++
draw_circular_progress disk_center_x disk_center_y 20 (disk_percent stats)
                       COLOR_DISK (30, 30, 40) 4 ++
[Text (ipt (disk_center_x - 10) (disk_center_y - 6))
      (format_float 0 (disk_percent stats)) (font_medium fonts) COLOR_DISK] ++
draw_sparkline (disk_x + 65) (disk_y + 15) 80 40 (Deque.snapshot (disk_history hist))
               COLOR_DISK (Some COLOR_DISK_GLOW) true ++
[Text (ipt (disk_x + 65) (disk_y + 6)) (format_float 0 (disk_used_gb stats) ++ "GB")
      (font_tiny fonts) TEXT_SECONDARY]) ++
(* network card *)
(let net_x := 160 in
let net_y := cards_start_y + card_height + 5 in
let net_center_x := net_x + 30 in
let net_center_y := net_y + 38 in
let net_scaled := Py.min 100 (net_speed_kb stats / 10) in
let speed_text :=
  if Py.ltb (net_speed_kb stats) 1000
  then (format_float 0 (net_speed_kb stats) ++ "KB/s")%string
  else (format_float 1 (net_speed_kb stats / 1024) ++ "MB/s")%string in
draw_rounded_rect net_x net_y card_width card_height 6 BG_CARD None 1 ++
[Text (ipt (net_x + 8) (net_y + 6)) "NETWORK" (font_small fonts) TEXT_SECONDARY] ++
draw_circular_progress net_center_x net_center_y 20 net_scaled
                       COLOR_NET (30, 30, 40) 4 ++
[Text (ipt (net_center_x - 15) (net_center_y - 6)) (take 4 speed_text)
      (font_tiny fonts) COLOR_NET] ++
draw_sparkline (net_x + 65) (net_y + 15) 80 40 (Deque.snapshot (network_history hist))
               COLOR_NET (Some COLOR_NET_GLOW) true)) ++
(* USB drives section *)
(let drives_y := 191 in
draw_rounded_rect 5 drives_y 310 42 6 BG_CARD None 1 ++
[Text (ipt 12 (drives_y + 6)) "USB DRIVES" (font_small fonts) TEXT_SECONDARY] ++
match drives with
| drive :: _ =>
   let drive_count_text := str_nat (length drives) in
   let drive_x := 12 in
   let drive_y := drives_y + 22 in
   let status_color := if is_shared w 0 drive then snd GRADIENT_SUCCESS
                       else (60, 60, 70) in
   let drive_name := take 20 (name drive) in
   let bar_x := drive_x + 10 in
   let bar_y := drive_y + 12 in
   let bar_width := 180 in
   let bar_height := 4 in
   fst (draw_status_badge 85 (drives_y + 4) drive_count_text (snd GRADIENT_INFO)
                          (font_tiny fonts)) ++
   [Rectangle (ibox drive_x drive_y (drive_x + 6) (drive_y + 6))
              (Some status_color) None;
    Text (ipt (drive_x + 10) (drive_y - 2)) drive_name (font_regular fonts)
         TEXT_PRIMARY] ++
   draw_rounded_rect bar_x bar_y bar_width bar_height 2 (30, 30, 40) None 1 ++
   (if Py.gtb (used_percent drive) 0
    then
      let fill_width := Py.int (bar_width * used_percent drive / 100) in
      draw_rounded_rect bar_x bar_y fill_width bar_height 2
                        (bar_color (used_percent drive)) None 1
    else []) ++
   (let size_text := (format_size (used_bytes drive) ++ " / " ++
                      format_size (total_bytes drive))%string in
    [Text (ipt (bar_x + bar_width + 5) (drive_y + 10)) size_text
          (font_tiny fonts) TEXT_SECONDARY]) ++
   (if (1 <? length drives)%nat
    then [Text (ipt 280 (drives_y + 24))
               ("+" ++ str_nat (length drives - 1)) (font_tiny fonts) TEXT_MUTED]
    else [])
| [] =>
   [Text (ipt 12 (drives_y + 20)) "No drives connected" (font_small fonts)
         TEXT_MUTED]
end) ++
screen_indicators ui.

(** The body of the drives loop for the drive at index [i], drawn at [y]. *)
Definition drive_card (w : World) (fonts : Fonts) (i : nat) (y : Z)
(drive : USBDrive) : list DrawCmd :=
let card_height := 50 in
let shared := is_shared w i drive in
let status_color := if shared then snd GRADIENT_SUCCESS else STATUS_ERROR in
let status_text := if shared then "SHARED"%string else "PRIVATE"%string in
let badge_x := 26 in
let badge_y := y + 24 in
let fs_type := upper (get_filesystem_type w i drive) in
let bar_x := 180 in
let bar_y := y + 15 in
let bar_width := 120 in
let bar_height := 20 in
draw_rounded_rect 5 y 310 card_height 6 BG_CARD None 1 ++
[Rectangle (ibox 12 (y + 8) 20 (y + 16)) (Some status_color) None;
Text (ipt 26 (y + 6)) (take 25 (name drive)) (font_medium fonts) TEXT_PRIMARY] ++
fst (draw_status_badge badge_x badge_y status_text status_color (font_tiny fonts)) ++
[Text (ipt (badge_x + 65) (badge_y + 2)) fs_type (font_tiny fonts) TEXT_MUTED] ++
draw_rounded_rect bar_x bar_y bar_width bar_height 4 (25, 25, 35) None 1 ++
(if Py.gtb (used_percent drive) 0
then
 let fill_width := Py.int (bar_width * used_percent drive / 100) in
 draw_rounded_rect bar_x bar_y fill_width bar_height 4
                   (bar_color (used_percent drive)) None 1
else []) ++
(let percent_text := (format_float 0 (used_percent drive) ++ "%")%string in
let text_width := text_width (font_small fonts) percent_text in
[Text (ipt (bar_x + (bar_width - text_width) / 2) (bar_y + 5)) percent_text
     (font_small fonts) TEXT_PRIMARY]).

(** [for i, drive in enumerate(drives[:3])], with its [break]; returns
the draw calls and the final [y]. *)
Fixpoint drive_cards (w : World) (fonts : Fonts) (i : nat) (y : Z)
(shown : list USBDrive) : list DrawCmd * Z :=
match shown with
| [] => ([], y)
| drive :: rest =>
  if y >? HEIGHT - 60 then ([], y)
  else
    let card_height := 50 in
    let r := drive_cards w fonts (S i) (y + (card_height + 6)) rest in
    (drive_card w fonts i y drive ++ fst r, snd r)
end.

(** [draw_drives_screen]; [phase] is accepted and not used. *)
Definition draw_drives_screen (w : World) (ui : UIState) (fonts : Fonts)
(drives : list USBDrive) (phase : Q) : list DrawCmd :=
plain_background ++
draw_rounded_rect 5 5 310 30 6 BG_CARD None 1 ++
[Text (ipt 12 10) "USB DRIVE MANAGER" (font_medium fonts) TEXT_PRIMARY] ++
match drives with
| [] =>
  let empty_y := 100 in
  [Text (ipt (WIDTH / 2 - 60) empty_y) "No USB drives" (font_big fonts) TEXT_MUTED;
   Text (ipt (WIDTH / 2 - 80) (empty_y + 25)) "Insert a drive to get started"
        (font_small fonts) TEXT_MUTED]
| _ :: _ =>
  let cards := drive_cards w fonts 0 42 (firstn 3 drives) in
  let y := snd cards in
  fst cards ++
  (if (3 <? length drives)%nat
   then [Text (ipt 12 y) ("+ " ++ str_nat (length drives - 3) ++ " more drives")
              (font_small fonts) TEXT_MUTED]
   else []) ++
  screen_indicators ui
end.

(** [draw_stats_screen]; [phase] is accepted and not used. *)
Definition draw_stats_screen (ui : UIState) (fonts : Fonts) (stats : Stats)
(phase : Q) : list DrawCmd :=
plain_background ++
draw_rounded_rect 5 5 310 30 6 BG_CARD None 1 ++
[Text (ipt 12 10) "SYSTEM STATISTICS" (font_medium fonts) TEXT_PRIMARY] ++
(let y := 42 in
(* CPU details *)
draw_rounded_rect 5 y 152 60 6 BG_CARD None 1 ++
[Text (ipt 12 (y + 6)) "CPU" (font_small fonts) TEXT_SECONDARY;
Text (ipt 12 (y + 22)) (format_float 1 (cpu_percent stats) ++ "%")
     (font_big fonts) COLOR_CPU] ++
match temperature_shown stats with
| Some t =>
   [Text (ipt 12 (y + 42)) (format_float 1 t ++ deg_C) (font_small fonts)
         (temp_color t)]
| None => []
end ++
(* memory details *)
draw_rounded_rect 163 y 152 60 6 BG_CARD None 1 ++
[Text (ipt 170 (y + 6)) "MEMORY" (font_small fonts) TEXT_SECONDARY;
Text (ipt 170 (y + 22)) (format_float 1 (memory_percent stats) ++ "%")
     (font_big fonts) COLOR_MEM;
Text (ipt 170 (y + 42))
     (format_float 2 (memory_used_gb stats) ++ " / " ++
      format_float 1 (memory_total_gb stats) ++ " GB")
     (font_tiny fonts) TEXT_SECONDARY]) ++
(let y := 42 + 68 in
(* disk details *)
draw_rounded_rect 5 y 152 60 6 BG_CARD None 1 ++
[Text (ipt 12 (y + 6)) "STORAGE" (font_small fonts) TEXT_SECONDARY;
Text (ipt 12 (y + 22)) (format_float 1 (disk_percent stats) ++ "%")
     (font_big fonts) COLOR_DISK;
Text (ipt 12 (y + 42))
     (format_float 1 (disk_used_gb stats) ++ " / " ++
      format_float 1 (disk_total_gb stats) ++ " GB")
     (font_tiny fonts) TEXT_SECONDARY] ++
(* network details *)
draw_rounded_rect 163 y 152 60 6 BG_CARD None 1 ++
[Text (ipt 170 (y + 6)) "NETWORK" (font_small fonts) TEXT_SECONDARY] ++
(let speed_text :=
  if Py.ltb (net_speed_kb stats) 1000
  then format_float 0 (net_speed_kb stats)
  else format_float 1 (net_speed_kb stats / 1024) in
let unit :=
  if Py.ltb (net_speed_kb stats) 1000 then "KB/s"%string else "MB/s"%string in
[Text (ipt 170 (y + 22)) speed_text (font_big fonts) COLOR_NET;
 Text (ipt 170 (y + 42)) unit (font_tiny fonts) TEXT_SECONDARY])) ++
(let y := 42 + 68 + 68 in
(* system info card *)
draw_rounded_rect 5 y 310 40 6 BG_CARD None 1 ++
[Text (ipt 12 (y + 6)) "IP ADDRESS" (font_tiny fonts) TEXT_SECONDARY;
Text (ipt 12 (y + 18)) (ip_address stats) (font_medium fonts) TEXT_PRIMARY]) ++
screen_indicators ui.

(** What the frame compositor is given. *)
Record FrameInput : Type := {
in_stats : Stats;
in_histories : Histories;
in_drives : list USBDrive;
in_ui : UIState;
in_version : string;
in_is_latest : bool
}.

(** A frame: the background colour of [Image.new] and the draw calls. *)
Record Frame : Type := { background : Color; calls : list DrawCmd }.

(** "Create frame" and "Draw current screen" in [main]; the animation
phase is the global [animation_phase]. *)
Definition compose_frame (w : World) (fonts : Fonts) (i : FrameInput) : Frame :=
let ui := in_ui i in
{| background := BG_DARK;
 calls :=
   if current_screen ui =? 0
   then draw_overview_screen w (in_histories i) ui fonts (in_stats i)
                             (in_version i) (in_is_latest i) (in_drives i)
                             (animation_phase ui)
   else if current_screen ui =? 1
   then draw_drives_screen w ui fonts (in_drives i) (animation_phase ui)
   else draw_stats_screen ui fonts (in_stats i) (animation_phase ui) |}.

End Rendering.

Arguments Line {Font}.
Arguments Rectangle {Font}.
Arguments Pieslice {Font}.
Arguments Arc {Font}.
Arguments Ellipse {Font}.
Arguments Polygon {Font}.
Arguments Text {Font}.


(* ================================================================== *)
(** * Boot animation: the per-frame parameters of [draw_boot_animation] *)

Module Boot.

Definition frames : Z := 90.
Definition render_width : Z := 160.
Definition render_height : Z := 120.
Definition num_blobs : Z := 4.
Definition blob_colors : list Color :=
[fst GRADIENT_PRIMARY; COLOR_CPU; fst GRADIENT_SUCCESS; COLOR_NET].

(** [t = frame / frames] *)
Definition progress (frame : Z) : Q := (frame / frames)%Q.

(** the values of [t] the loop [for frame in range(frames)] goes through *)
Definition progress_values : list Q := map progress (range frames).

Record Phase : Type := { orbit_radius : Q; blob_size : Q; explosion : Q }.

(** the three-way [if t < 0.4 / elif t < 0.7 / else] of the loop body *)
Definition phase (t : Q) : Phase :=
if Py.ltb t (4 # 10) then
let phase_t := (t / (4 # 10))%Q in
{| orbit_radius := 80 * (1 - phase_t);
   blob_size := 8 * phase_t;
   explosion := 0 |}
else if Py.ltb t (7 # 10) then
let phase_t := ((t - (4 # 10)) / (3 # 10))%Q in
{| orbit_radius := 25;
   blob_size := 8 + 8 * phase_t;
   explosion := 0 |}
else
let phase_t := ((t - (7 # 10)) / (3 # 10))%Q in
{| orbit_radius := 25 * (1 - phase_t * (8 # 10));
   blob_size := 16 + 30 * phase_t;
   explosion := phase_t |}.

(** "Text fade in": [text_alpha] when the label is drawn ([t > 0.5]) *)
Definition text_alpha (t : Q) : option Q :=
if Py.gtb t (5 # 10) then Some ((t - (5 # 10)) / (5 # 10))%Q else None.

(** the label's fill colour and the colour of its glow strokes *)
Definition text_color (alpha : Q) : Color :=
map_color (fun c => Py.int (c * alpha)) (snd GRADIENT_PRIMARY).
Definition text_glow_color (alpha : Q) : Color :=
map_color (fun c => Py.int (c * alpha * (3 # 10))) (fst GRADIENT_PRIMARY).

(** the stroke widths of the glow: [range(3, 0, -1)] *)
Definition glow_offsets : list Z := [3; 2; 1].

Section Blobs.
(** [math.cos], [math.sin], [math.pi] *)
Variables cos sin : Q -> Q.
Variable pi : Q.

Record Blob : Type := {
bx : Z; by_ : Z; current_size : Z; color : Color
}.

(** the body of "Draw each blob" up to the main ellipse, for blob [i] *)
Definition blob (t : Q) (i : Z) : Blob :=
let angle := (t * pi * 6)%Q in
let cx := render_width / 2 in
let cy := render_height / 2 in
let p := phase t in
let blob_angle := (angle + (i * pi * 2 / num_blobs))%Q in
let pulse := (1 + (2 # 10) * sin (angle * 2 + i))%Q in
{| bx := Py.int (cx + cos blob_angle * orbit_radius p);
by_ := Py.int (cy + sin blob_angle * orbit_radius p);
current_size := Py.int (blob_size p * pulse);
color := nth (Z.to_nat i) blob_colors (0, 0, 0) |}.

Definition blobs (t : Q) : list Blob := map (blob t) (range num_blobs).
End Blobs.

End Boot.

(* ================================================================== *)
(** * docs/redesigned-dashboard.py *)

Module Redesigned.

Definition COLOR_SUBTEXT : Color := (180, 180, 180).
Definition COLOR_WARNING : Color := (255, 200, 0).
Definition COLOR_ERROR : Color := (255, 50, 50).
Definition COLOR_INFO : Color := (100, 150, 255).

(** the fill colour of the usage bars of both screens:
[COLOR_ERROR if p > 90 else COLOR_WARNING if p > 75 else COLOR_INFO] *)
Definition bar_color (used_percent : Q) : Color :=
if Py.gtb used_percent 90 then COLOR_ERROR
else if Py.gtb used_percent 75 then COLOR_WARNING
else COLOR_INFO.

(** "Usage bar" of [draw_overview_screen], for a drive drawn at [y] *)
Definition usage_bar {Font : Type} (y : Z) (drive : USBDrive) : list (DrawCmd Font) :=
let bar_width := 120 in
let bar_x := 170 in
[Rectangle (ibox bar_x (y + 3) (bar_x + bar_width) (y + 11)) None (Some COLOR_SUBTEXT)] ++
(if Py.gtb (used_percent drive) 0
then
 let fill_width := Py.int (bar_width * used_percent drive / 100) in
 [Rectangle (ibox (bar_x + 1) (y + 4) (bar_x + fill_width) (y + 10))
            (Some (bar_color (used_percent drive))) None]
else []).

(** the append to [network_history] in [main] *)
Definition update_network (stats : Stats) (network_history : Deque.t Q) : Deque.t Q :=
Deque.append network_history (Py.min 100 (net_speed_kb stats / 10)).

End Redesigned.

(* ================================================================== *)
(** * docs/new-dashboard.py *)

Module NewDashboard.

Definition UPDATE_INTERVAL : Q := 5 # 10.
Definition HISTORY_SIZE : nat := 60.

(** The "Network" block of [get_system_stats]. [net_io] is the outcome
of [psutil.net_io_counters()]: [(bytes_sent, bytes_recv)]. *)
Definition update_network (net_io : Py.result (Z * Z)) (network_history : Deque.t Q)
: Deque.t Q :=
Py.try_except
(io <- net_io ;;
 let current_bytes := fst io + snd io in
 match Deque.last_item network_history with
 | Some last_bytes =>
     let bytes_per_sec := ((current_bytes - last_bytes) / UPDATE_INTERVAL)%Q in
     Py.Ok (Deque.append network_history (bytes_per_sec / 1024)%Q)
 | None => Py.Ok (Deque.append network_history 0)
 end)
(Deque.append network_history 0).

Definition poll_ticks (readings : list (Py.result (Z * Z))) (h : Deque.t Q) : Deque.t Q :=
fold_left (fun acc r => update_network r acc) readings h.

End NewDashboard.

(* ================================================================== *)
(** * Sample inputs used in the examples below *)

Module Sample.

Definition stats (net : Q) : Stats :=
{| cpu_percent := 25;
 temperature := Some (48 # 1);
 memory_percent := 40;
 memory_used_gb := 16 # 10;
 memory_total_gb := 4;
 disk_percent := 67;
 disk_used_gb := 20;
 disk_total_gb := 30;
 net_speed_kb := net;
 ip_address := "192.168.1.10" |}.

Definition drive : USBDrive :=
{| mount_path := "/srv/usb-shares/usb1";
 name := "usb1";
 total_bytes := 4096000;
 free_bytes := 1024000;
 used_bytes := 3072000;
 used_percent := 75 |}.

Definition at_time (h m s : nat) : datetime :=
{| year := 2024; month := 3; day := 5;
 hour := h; minute := m; second := s; microsecond := 0 |}.

(** a world in which [smbstatus] prints [shares] and [findmnt] prints
"ext4" followed by a newline *)
Definition world (now : datetime) (shares : string) : World :=
{| clock := now;
 smbstatus := fun _ => Py.Ok shares;
 findmnt := fun _ _ => Py.Ok (String "e" (String "x" (String "t" (String "4"
                                (String "010" EmptyString))))) |}.

(** stand-ins for the library collaborators: a font six pixels wide per
character, a formatter printing the integer part only, a flat sine *)
Definition getbbox (_ : unit) (text : string) : Z * Z * Z * Z :=
(0, 0, 6 * Z.of_nat (String.length text), 8).
Definition format_float (_ : nat) (v : Q) : string := str_int (Py.int v).
Definition sin (_ : Q) : Q := 0.

Definition fonts : Fonts unit :=
{| font_title := tt; font_big := tt; font_medium := tt;
 font_regular := tt; font_small := tt; font_tiny := tt |}.



End Sample.

(* ================================================================== *)
(** * Further definitions used by the properties of the second part *)

(** a run of touch events [(time, x, y)], each handed to [handle_touch]
    with the drive list of that moment *)
Fixpoint handle_touches {D : Type} (events : list (Q * Z * Z)) (drives : list D)
    (s : UIState) : UIState :=
  match events with
  | [] => s
  | (t, x, y) :: rest => handle_touches rest drives (handle_touch t x y drives s)
  end.

(** the screen index is one of [0 .. max_screens - 1] *)
Definition screen_in_range (s : UIState) : Prop :=
  0 <= current_screen s < max_screens s.

(** a pressed STMPE610 panel reporting [(x_raw, y_raw, z)], and a pressed
    XPT2046 panel reporting [(x_raw, y_raw)] at both reads *)
Definition stmpe610_reading (x_raw y_raw z : Q) : TouchDevice :=
  {| touched := Py.Ok true;
     read_data := Py.Ok [x_raw; y_raw; z];
     touch_point := fun _ => Py.Ok None |}.

Definition xpt2046_reading (x_raw y_raw : Q) : TouchDevice :=
  {| touched := Py.Ok false;
     read_data := Py.Ok [];
     touch_point := fun _ => Py.Ok (Some [x_raw; y_raw]) |}.

(** The screen column and the screen row [map_touch] computes, each from
    the one raw axis it depends on, for a calibration range [lo .. hi]. *)
Definition touch_column (lo hi : Z) (y_raw : Q) : Z :=
  Py.maxZ 0 (Py.minZ (WIDTH - 1)
    (Py.int (Py.max 0 (Py.min 1 ((y_raw - lo) / (hi - lo))) * WIDTH))).

Definition touch_row (lo hi : Z) (x_raw : Q) : Z :=
  Py.maxZ 0 (Py.minZ (HEIGHT - 1)
    (Py.int ((1 - Py.max 0 (Py.min 1 ((x_raw - lo) / (hi - lo)))) * HEIGHT))).

(** Geometry of draw calls. A box is well formed when its second corner is
    not above or left of its first (PIL refuses other boxes); a point or a
    box is inside [outer] when it does not leave it. *)
Definition box_ok (b : Box) : Prop :=
  let '(x0, y0, x1, y1) := b in (x0 <= x1)%Q /\ (y0 <= y1)%Q.

Definition point_inside (outer : Box) (p : Point) : Prop :=
  let '(x0, y0, x1, y1) := outer in
  let '(px, py) := p in
  (x0 <= px)%Q /\ (px <= x1)%Q /\ (y0 <= py)%Q /\ (py <= y1)%Q.

Definition box_inside (outer b : Box) : Prop :=
  let '(x0, y0, x1, y1) := b in
  point_inside outer (x0, y0) /\ point_inside outer (x1, y1).

(** a draw call with a box has a well-formed box inside [outer]; a line or
    polygon has all its points inside [outer]; text is not constrained *)
Definition call_inside {Font : Type} (outer : Box) (c : DrawCmd Font) : Prop :=
  match c with
  | Rectangle b _ _ | Pieslice b _ _ _ | Arc b _ _ _ _ | Ellipse b _ _ =>
      box_ok b /\ box_inside outer b
  | Line xy _ _ | Polygon xy _ => Forall (point_inside outer) xy
  | Text _ _ _ _ => True
  end.

(** every channel of a colour lies in [lo .. hi] *)
Definition channels_within (lo hi : Z) (c : Color) : Prop :=
  let '(r, g, b) := c in
  lo <= r <= hi /\ lo <= g <= hi /\ lo <= b <= hi.

(** the units of [format_size], the last one being the fall-through case *)
Definition size_units : list string := ["B"; "KB"; "MB"; "GB"; "TB"; "PB"]%string.

(** strings made of white space only; first and last character *)
Fixpoint all_space (s : string) : bool :=
  match s with
  | EmptyString => true
  | String c s' => is_space c && all_space s'
  end.

Definition first_char (s : string) : option ascii :=
  match s with
  | String c _ => Some c
  | EmptyString => None
  end.

Fixpoint last_char (s : string) : option ascii :=
  match s with
  | EmptyString => None
  | String c EmptyString => Some c
  | String _ s' => last_char s'
  end.

(** a non-empty string that neither starts nor ends with white space *)
Definition trimmed (s : string) : Prop :=
  (exists a, first_char s = Some a /\ is_space a = false) /\
  (exists b, last_char s = Some b /\ is_space b = false).

(* ================================================================== *)
(** * Drive discovery: [USBDrive.__init__] and [get_usb_drives] *)

Definition MOUNT_ROOT : string := "/srv/usb-shares".

Fixpoint has_slash (s : string) : bool :=
  match s with
  | EmptyString => false
  | String c s' => Ascii.eqb c "/" || has_slash s'
  end.

(** [os.path.basename]: what follows the last slash *)
Fixpoint basename (path : string) : string :=
  match path with
  | EmptyString => EmptyString
  | String c rest =>
      if has_slash rest then basename rest
      else if Ascii.eqb c "/" then rest else path
  end.

(** [os.path.join(a, b)] *)
Definition path_join (a b : string) : string :=
  match first_char b with
  | Some "/"%char => b
  | _ =>
      match last_char a with
      | None | Some "/"%char => (a ++ b)%string
      | Some _ => (a ++ "/" ++ b)%string
      end
  end.

(** the fields of [os.statvfs] the constructor reads *)
Record statvfs_result : Type := { f_blocks : Z; f_bavail : Z; f_frsize : Z }.

(** [USBDrive(mount_path)]; [stat] is the outcome of [os.statvfs(mount_path)] *)
Definition USBDrive_init (mount_path : string) (stat : Py.result statvfs_result)
  : USBDrive :=
  let name := basename mount_path in
  Py.try_except
    (stat <- stat ;;
     let total_bytes := f_blocks stat * f_frsize stat in
     let free_bytes := f_bavail stat * f_frsize stat in
     let used_bytes := total_bytes - free_bytes in
     Py.Ok {| mount_path := mount_path;
              name := name;
              total_bytes := total_bytes;
              free_bytes := free_bytes;
              used_bytes := used_bytes;
              used_percent := if total_bytes >? 0
                              then (used_bytes / total_bytes * 100)%Q
                              else 0 |})
    {| mount_path := mount_path;
       name := name;
       total_bytes := 0;
       free_bytes := 0;
       used_bytes := 0;
       used_percent := 0 |}.

(** The part of the file system [get_usb_drives] looks at. [os.path.exists]
    and [os.path.ismount] answer [False] rather than raise; [os.listdir]
    may raise. *)
Record FileSystem : Type := {
  path_exists : string -> bool;
  listdir : string -> Py.result (list string);
  ismount : string -> bool;
  statvfs : string -> Py.result statvfs_result
}.

(** [get_usb_drives()]; a failure of [os.listdir] is not caught *)
Definition get_usb_drives (fs : FileSystem) : Py.result (list USBDrive) :=
  if path_exists fs MOUNT_ROOT then
    names <- listdir fs MOUNT_ROOT ;;
    Py.Ok (flat_map
             (fun name =>
                let path := path_join MOUNT_ROOT name in
                if ismount fs path then [USBDrive_init path (statvfs fs path)] else [])
             names)
  else Py.Ok [].

(* ================================================================== *)
(** * Version check: [check_for_updates], [get_version_info] *)

(** [s.lstrip('v')] *)
Fixpoint lstrip_v (s : string) : string :=
  match s with
  | String c s' => if Ascii.eqb c "v" then lstrip_v s' else s
  | EmptyString => EmptyString
  end.

(** [a >= b] on strings: character by character, a proper prefix being
    smaller *)
Fixpoint str_geb (a b : string) : bool :=
  match a, b with
  | _, EmptyString => true
  | EmptyString, String _ _ => false
  | String x a', String y b' =>
      if (nat_of_ascii y <? nat_of_ascii x)%nat then true
      else if (nat_of_ascii x <? nat_of_ascii y)%nat then false
      else str_geb a' b'
  end.

(** [check_for_updates(current_version)]; [latest_tag] is the outcome of
    fetching the latest release and reading [data.get("tag_name", "")] *)
Definition check_for_updates (current_version : string)
    (latest_tag : Py.result string) : bool :=
  Py.try_except
    (latest_version <- latest_tag ;;
     Py.Ok (str_geb current_version (lstrip_v latest_version)))
    true.

(** [get_version_info()]; [version_file] is the outcome of reading
    [VERSION_FILE] *)
Definition get_version_info (version_file : Py.result string)
    (latest_tag : Py.result string) : string * bool :=
  let current_version :=
    Py.try_except (content <- version_file ;; Py.Ok (strip content)) "unknown"%string in
  (current_version, check_for_updates current_version latest_tag).

(* ================================================================== *)
(** * Metrics: [get_system_stats] *)

(** What one call of [get_system_stats] reads. [psutil_temps] maps a
    sensor name to the [current] values of its entries; memory and disk are
    [(percent, used, total)]; [psutil_net] is [(bytes_sent, bytes_recv)];
    [clock_time k] is the [k]-th reading of [time.time()] in the call;
    [socket_ip] is the outcome of the UDP socket probe. *)
Record Readings : Type := {
  psutil_cpu_percent : Q;
  psutil_temps : Py.result (list (string * list Q));
  psutil_mem : Q * Z * Z;
  psutil_disk : Q * Z * Z;
  psutil_net : Z * Z;
  clock_time : nat -> Q;
  socket_ip : Py.result string
}.

(** [d.get(key)] on a dict given as its items *)
Fixpoint dict_get {V : Type} (key : string) (items : list (string * V)) : option V :=
  match items with
  | [] => None
  | (k, v) :: rest => if String.eqb k key then Some v else dict_get key rest
  end.

(** The "temperature" block: the first entry of the [cpu_thermal] sensor;
    [None] when the sensor is missing (the default object), when its list
    is empty (the index raises, which is caught) and when the read raises. *)
Definition read_temperature (temps : Py.result (list (string * list Q))) : option Q :=
  match temps with
  | Py.Ok t =>
      match dict_get "cpu_thermal" t with
      | Some (entry :: _) => Some entry
      | Some [] => None
      | None => None
      end
  | Py.Raise _ => None
  end.

(** the function attribute [get_system_stats.last_net]: absent before the
    first call, then [(bytes_sent, bytes_recv, time)] *)
Definition NetState : Type := option (Z * Z * Q).

(** The "net" block: the speed in KB/s and the new [last_net]. *)
Definition net_speed (net : Z * Z) (time : nat -> Q) (last_net : NetState)
  : Q * NetState :=
  let '(bytes_sent, bytes_recv) := net in
  match last_net with
  | None => (0%Q, Some (bytes_sent, bytes_recv, time 0%nat))
  | Some (last_sent, last_recv, last_time) =>
      let time_delta := (time 0%nat - last_time)%Q in
      let speed :=
        if Py.gtb time_delta 0
        then (((bytes_sent - last_sent) + (bytes_recv - last_recv))%Z
              / time_delta / 1024)%Q
        else 0%Q in
      (speed, Some (bytes_sent, bytes_recv, time 1%nat))
  end.

Definition GiB : Q := inject_Z (1024 ^ 3).

(** [get_system_stats()] with its function attribute made explicit *)
Definition get_system_stats (r : Readings) (last_net : NetState) : Stats * NetState :=
  let '(mem_percent, mem_used, mem_total) := psutil_mem r in
  let '(disk_percent, disk_used, disk_total) := psutil_disk r in
  let net := net_speed (psutil_net r) (clock_time r) last_net in
  ({| cpu_percent := psutil_cpu_percent r;
      temperature := read_temperature (psutil_temps r);
      memory_percent := mem_percent;
      memory_used_gb := (mem_used / GiB)%Q;
      memory_total_gb := (mem_total / GiB)%Q;
      disk_percent := disk_percent;
      disk_used_gb := (disk_used / GiB)%Q;
      disk_total_gb := (disk_total / GiB)%Q;
      net_speed_kb := fst net;
      ip_address := Py.try_except (socket_ip r) "N/A"%string |},
   snd net).

(** the samples of a run of calls, the first with no [last_net] yet *)
Fixpoint sample_run (rs : list Readings) (last_net : NetState) : list Stats :=
  match rs with
  | [] => []
  | r :: rest =>
      let '(stats, last_net') := get_system_stats r last_net in
      stats :: sample_run rest last_net'
  end.

(** along the run the byte counters never go back *)
Fixpoint counters_monotone (rs : list Readings) (last_net : NetState) : Prop :=
  match rs with
  | [] => True
  | r :: rest =>
      match last_net with
      | None => True
      | Some (last_sent, last_recv, _) =>
          last_sent <= fst (psutil_net r) /\ last_recv <= snd (psutil_net r)
      end /\
      counters_monotone rest (snd (get_system_stats r last_net))
  end.

(** sample readings for the examples: counters [sent], [recv] read at
    second [t] *)
Definition sample_readings (sent recv : Z) (t : Q) : Readings :=
  {| psutil_cpu_percent := 12;
     psutil_temps := Py.Ok [("cpu_thermal"%string, [51%Q])];
     psutil_mem := (40%Q, 1717986918, 4294967296);
     psutil_disk := (50%Q, 16106127360, 32212254720);
     psutil_net := (sent, recv);
     clock_time := fun _ => t;
     socket_ip := Py.Ok "192.168.1.10"%string |}.

(* ================================================================== *)
(** * Binary64 arithmetic *)

(** A finite Python float is the rational it denotes. An operation on
    floats is the exact operation followed by [round], which picks the
    nearest binary64 value, ties going to the even significand (53 bits,
    gradual underflow below [2^-1022]). Results beyond the largest finite
    float are not given their infinity; nothing here comes near. *)
Module Float64.

(** [n / d] for [n >= 0], [d > 0], to the nearest integer, ties to even *)
Definition round_half_even (n d : Z) : Z :=
let q := n / d in
let r := n mod d in
match 2 * r ?= d with
| Lt => q
| Gt => q + 1
| Eq => if Z.even q then q else q + 1
end.

Definition pow2 (e : Z) : Q :=
if 0 <=? e then inject_Z (2 ^ e) else 1 # Z.to_pos (2 ^ (- e)).

(** the largest [e] with [2^e <= n / d], for [n, d > 0] *)
Definition floor_log2 (n d : Z) : Z :=
let e := Z.log2 n - Z.log2 d in
if n * 2 ^ Z.max 0 (- e) <? d * 2 ^ Z.max 0 e then e - 1 else e.

(** the float nearest to [n / d], for [n, d > 0]: a multiple of [2^e]
  where [e] is the exponent of the last of the 53 bits *)
Definition round_pos (n d : Z) : Q :=
let e := Z.max (floor_log2 n d - 52) (-1074) in
let m := round_half_even (n * 2 ^ Z.max 0 (- e)) (d * 2 ^ Z.max 0 e) in
Qred (inject_Z m * pow2 e).

Definition round (q : Q) : Q :=
match Qnum q with
| Z0 => 0%Q
| Zpos n => round_pos (Zpos n) (Zpos (Qden q))
| Zneg n => (- round_pos (Zpos n) (Zpos (Qden q)))%Q
end.

(** a decimal literal such as [0.1], and [a / b] of two integers *)
Definition lit (q : Q) : Q := round q.

Definition add (a b : Q) : Q := round (a + b).
Definition sub (a b : Q) : Q := round (a - b).
Definition mul (a b : Q) : Q := round (a * b).
Definition div (a b : Q) : Q := round (a / b).

(** [tuple(int(c * alpha) for c in color)] *)
Definition scale_color (alpha : Q) (c : Color) : Color :=
map_color (fun v => Py.int (mul v alpha)) c.

End Float64.

(* ================================================================== *)
(** * The main loop *)

Definition UPDATE_INTERVAL : Q := 3 # 10.

(** What persists from one iteration to the next: the module globals, the
    local [last_update] and the function attribute of [get_system_stats]. *)
Record LoopState : Type := {
  loop_ui : UIState;
  loop_histories : Histories;
  last_update : Q;
  loop_last_net : NetState
}.

Definition initial_loop : LoopState :=
  {| loop_ui := initial_ui;
     loop_histories := initial_histories;
     last_update := 0;
     loop_last_net := None |}.

(** What one iteration reads, in the order it reads it: the clock at the
    top of the loop; the touch controller, if one was detected at start-up;
    the file system and the clock at the moment the touch is handled; then,
    for an update, the metrics, the version file and release lookup, the
    file system again and the world the renderer looks at. *)
Record Tick : Type := {
  tick_time : Q;
  tick_touch : option TouchDevice;
  tick_touch_fs : FileSystem;
  tick_touch_time : Q;
  tick_readings : Readings;
  tick_version_file : Py.result string;
  tick_latest_tag : Py.result string;
  tick_fs : FileSystem;
  tick_world : World
}.

Definition set_ui (st : LoopState) (ui : UIState) : LoopState :=
  {| loop_ui := ui;
     loop_histories := loop_histories st;
     last_update := last_update st;
     loop_last_net := loop_last_net st |}.

(** [animation_phase += 0.1] *)
Definition advance_phase (ui : UIState) : UIState :=
  {| current_screen := current_screen ui;
     max_screens := max_screens ui;
     last_touch_time := last_touch_time ui;
     touch_debounce := touch_debounce ui;
     animation_phase := Float64.add (animation_phase ui) (Float64.lit (1 # 10)) |}.

Section MainLoop.
Variable Font : Type.
Variable getbbox : Font -> string -> Z * Z * Z * Z.
Variable format_float : nat -> Q -> string.
Variable sin : Q -> Q.
Variable fonts : Fonts Font.
(** the driver tag found by [init_display_and_touch] *)
Variable driver : option string.

(** The "Touch input" block. A failure of [get_usb_drives] is not caught. *)
Definition touch_input (st : LoopState) (tick : Tick) : Py.result LoopState :=
match tick_touch tick with
| Some touch =>
  match map_touch touch driver with
  | Some (x, y) =>
      drives <- get_usb_drives (tick_touch_fs tick) ;;
      Py.Ok (set_ui st (handle_touch (tick_touch_time tick) x y drives (loop_ui st)))
  | None => Py.Ok st
  end
| None => Py.Ok st
end.

(** The "Update display" block: the new state and the frame handed to
[display.image]. *)
Definition update_display (st : LoopState) (tick : Tick)
: Py.result (LoopState * Frame Font) :=
let '(stats, last_net) := get_system_stats (tick_readings tick) (loop_last_net st) in
let '(version, is_latest) :=
get_version_info (tick_version_file tick) (tick_latest_tag tick) in
drives <- get_usb_drives (tick_fs tick) ;;
let histories := update_histories stats (loop_histories st) in
let frame :=
compose_frame Font getbbox format_float sin (tick_world tick) fonts
  {| in_stats := stats;
     in_histories := histories;
     in_drives := drives;
     in_ui := loop_ui st;
     in_version := version;
     in_is_latest := is_latest |} in
Py.Ok ({| loop_ui := loop_ui st;
        loop_histories := histories;
        last_update := tick_time tick;
        loop_last_net := last_net |},
     frame).

(** One iteration of [while True] in [main], up to the sleep: the new state
and the frame displayed, if any. *)
Definition main_iteration (st : LoopState) (tick : Tick)
: Py.result (LoopState * option (Frame Font)) :=
let current_time := tick_time tick in
let st := set_ui st (advance_phase (loop_ui st)) in
st <- touch_input st tick ;;
if Py.geb (current_time - last_update st) UPDATE_INTERVAL then
r <- update_display st tick ;;
Py.Ok (fst r, Some (snd r))
else Py.Ok (st, None).

(** a run of iterations: the final state and the frames displayed, with the
time of the iteration that displayed each *)
Fixpoint main_loop (st : LoopState) (ticks : list Tick)
: Py.result (LoopState * list (Q * Frame Font)) :=
match ticks with
| [] => Py.Ok (st, [])
| tick :: rest =>
  r <- main_iteration st tick ;;
  r' <- main_loop (fst r) rest ;;
  Py.Ok (fst r',
         match snd r with
         | Some frame => (tick_time tick, frame) :: snd r'
         | None => snd r'
         end)
end.

End MainLoop.

(** every one of the four series holds [n] values, in a deque of capacity
    [HISTORY_SIZE] *)
Definition histories_hold (n : nat) (h : Histories) : Prop :=
  Forall (fun d : Deque.t Q =>
            Deque.maxlen d = HISTORY_SIZE /\ length (Deque.snapshot d) = n)
         [cpu_history h; memory_history h; disk_history h; network_history h].

(** a file system with one mounted drive under the mount root, and a sample
    iteration at time [t] with the given touch controller answers *)
Definition sample_fs : FileSystem :=
  {| path_exists := fun _ => true;
     listdir := fun _ => Py.Ok ["usb1"%string];
     ismount := fun _ => true;
     statvfs := fun _ => Py.Ok {| f_blocks := 1000; f_bavail := 250; f_frsize := 4096 |} |}.

Definition sample_tick (t : Q) (touch : option TouchDevice) : Tick :=
  {| tick_time := t;
     tick_touch := touch;
     tick_touch_fs := sample_fs;
     tick_touch_time := t;
     tick_readings := sample_readings 1000 2000 t;
     tick_version_file := Py.Ok (String "1" (String "." (String "2" (String "010" ""))));
     tick_latest_tag := Py.Ok "v1.2"%string;
     tick_fs := sample_fs;
     tick_world := Sample.world (Sample.at_time 9 7 0) "usb1" |}.

Definition sample_loop (ticks : list Tick)
  : Py.result (LoopState * list (Q * Frame unit)) :=
  main_loop unit Sample.getbbox Sample.format_float Sample.sin Sample.fonts
            (Some "STMPE610"%string) initial_loop ticks.

(* ================================================================== *)
(** * More of the boot animation, and the shutdown animation *)

(** [range(start, 0, -step)]: [start], [start - step], ... while positive *)
Fixpoint range_down_fuel (fuel : nat) (start step : Z) : list Z :=
  match fuel with
  | O => []
  | S fuel' =>
      if start >? 0 then start :: range_down_fuel fuel' (start - step) step else []
  end.

Definition range_down (start step : Z) : list Z :=
  range_down_fuel (Z.to_nat start) start step.

Module BootEffects.

(** "Draw connecting tendrils": [tendril_alpha] when they are drawn *)
Definition tendril_alpha (t : Q) : option Q :=
if Py.gtb t (6 # 10) then Some ((t - (6 # 10)) / (4 # 10))%Q else None.

(** the line widths [w] of one tendril and, for each, the colour of the
line between blobs of colours [color1] and [color2] *)
Definition tendril_lines (tendril_alpha : Q) (color1 color2 : Color)
: list (Z * Color) :=
map (fun w : Z =>
     let alpha := (w / (8 * tendril_alpha))%Q in
     let '(r1, g1, b1) := color1 in
     let '(r2, g2, b2) := color2 in
     (w, (Py.int ((r1 + r2)%Z / 2 * alpha),
          Py.int ((g1 + g2)%Z / 2 * alpha),
          Py.int ((b1 + b2)%Z / 2 * alpha))))
  (range_down (Py.int (8 * tendril_alpha)) 2).

(** "Explosion particles": how many, and their shade and size *)
Definition num_particles (explosion : Q) : Z :=
if Py.gtb explosion (5 # 10) then Py.int ((explosion - (5 # 10)) * 80) else 0.

Definition particle_alpha (explosion : Q) : Q := (1 - (explosion - (5 # 10)) * 2)%Q.
Definition particle_size (explosion : Q) : Z := 2 + Py.int (explosion * 2).

End BootEffects.

Module Shutdown.

Definition frames : Z := 60.
Definition render_width : Z := 160.
Definition render_height : Z := 120.
Definition num_rings : Z := 15.
Definition colors : list Color :=
[fst GRADIENT_PRIMARY; COLOR_CPU; fst GRADIENT_SUCCESS; COLOR_NET].

(** [t = frame / frames] *)
Definition progress (frame : Z) : Q := Float64.div frame frames.

Record Ring : Type := { radius : Z; color : Color }.

(** the body of the rings loop for ring [i]: the ring drawn, if any *)
Definition ring (t : Q) (i : Z) : option Ring :=
let ring_t := Float64.div i num_rings in
let ring_progress := Float64.add t ring_t in
if Py.ltb ring_progress 1 then
let radius :=
  Py.int (Float64.mul (Float64.sub 1 ring_progress)
                      (Z.max render_width render_height)) in
let color_idx :=
  Py.int (Float64.mul (Float64.add (Float64.mul ring_t 4) t)
                      (Z.of_nat (length colors))) in
let color := nth (Z.to_nat (color_idx mod Z.of_nat (length colors))) colors (0, 0, 0) in
let alpha := Float64.sub 1 ring_progress in
Some {| radius := radius; color := Float64.scale_color alpha color |}
else None.

(** the rings of one frame, outermost first *)
Definition rings (t : Q) : list (option Ring) := map (ring t) (range num_rings).

(** "Text fade out": the label colour while the label is drawn *)
Definition text_color (t : Q) : option Color :=
if Py.ltb t (Float64.lit (6 # 10))
then Some (Float64.scale_color
           (Float64.sub 1 (Float64.div t (Float64.lit (6 # 10)))) (150, 150, 150))
else None.

(** the distance of the spiralling particles from the centre, and their
shade *)
Definition spiral_radius (t : Q) : Q := Float64.mul (Float64.sub 1 t) 60.
Definition particle_alpha (t : Q) : Q := Float64.sub 1 t.

End Shutdown.

(* ================================================================== *)
(** * docs/redesigned-dashboard.py: touch handling *)

Module RedesignedNav.

(** the globals [handle_touch] reads and assigns *)
Record State : Type := {
current_screen : Z;
last_touch_time : Q;
touch_debounce : Q
}.

Definition initial : State :=
{| current_screen := 0; last_touch_time := 0; touch_debounce := 3 # 10 |}.

(** [handle_touch(x, y, drives)] *)
Definition handle_touch {D : Type} (current_time : Q) (x y : Z) (drives : list D)
(s : State) : State :=
if Py.ltb (current_time - last_touch_time s) (touch_debounce s) then s
else
let s := {| current_screen := current_screen s;
            last_touch_time := current_time;
            touch_debounce := touch_debounce s |} in
if current_screen s =? 0 then
  {| current_screen := 1;
     last_touch_time := last_touch_time s;
     touch_debounce := touch_debounce s |}
else if current_screen s =? 1 then
  if x <? 160 then
    {| current_screen := 0;
       last_touch_time := last_touch_time s;
       touch_debounce := touch_debounce s |}
  else s
else s.

End RedesignedNav.

(* ================================================================== *)
(** * docs/new-dashboard.py: touch mapping, charts, drives screen *)

Module NewDashboardUI.

(** The touch object as one call of [map_touch] sees it: whether it has a
[touched] attribute or a [tirq_touched] method, what they answer, and
what [touch_point] yields. *)
Record Touch : Type := {
has_touched : bool;
touched : Py.result bool;
has_tirq_touched : bool;
tirq_touched : Py.result bool;
touch_point : Py.result (option (list Q))
}.

(** [x_raw, y_raw, *_ = p] *)
Definition unpack_first_two (p : list Q) : Py.result (Q * Q) :=
match p with
| x_raw :: y_raw :: _ => Py.Ok (x_raw, y_raw)
| _ => Py.Raise Py.ValueError
end.

(** the body of the [try] in [map_touch] *)
Definition map_touch_body (touch : Touch) (driver : option string)
: Py.result (option (Z * Z)) :=
released <-
(if has_touched touch then
   t <- touched touch ;; Py.Ok (negb t)
 else if has_tirq_touched touch then
   t <- tirq_touched touch ;; Py.Ok (negb t)
 else Py.Ok false) ;;
if released then Py.Ok None
else
p <- touch_point touch ;;
match p with
| None => Py.Ok None
| Some p =>
    xy <- unpack_first_two p ;;
    let '(x_raw, y_raw) := xy in
    let '(screen_x, screen_y) :=
      if driver_is driver "xpt2046" then
        (Py.int ((y_raw - 143) * WIDTH / (3715 - 143)),
         Py.int ((3786 - x_raw) * HEIGHT / (3786 - 216)))
      else calibrate 200 3800 200 3800 x_raw y_raw in
    let screen_x := Py.maxZ 0 (Py.minZ (WIDTH - 1) screen_x) in
    let screen_y := Py.maxZ 0 (Py.minZ (HEIGHT - 1) screen_y) in
    Py.Ok (Some (screen_x, screen_y))
end.

(** [map_touch(touch, driver)]; [touch] is [None] when no controller was
found *)
Definition map_touch (touch : option Touch) (driver : option string)
: option (Z * Z) :=
match touch with
| None => None
| Some touch => Py.try_except (map_touch_body touch driver) None
end.

(** [max(data)] and [min(data)] of a non-empty list: the first largest and
the first smallest element *)
Definition list_max (first : Q) (rest : list Q) : Q := fold_left Py.max rest first.
Definition list_min (first : Q) (rest : list Q) : Q := fold_left Py.min rest first.

(** the scale of [draw_chart]: [(min_val, max_val)], with [max_val] moved
up by 1 when all values are equal *)
Definition chart_scale (data : list Q) : Q * Q :=
match data with
| [] => (0%Q, 100%Q)
| first :: rest =>
  let max_val := list_max first rest in
  let min_val := list_min first rest in
  (min_val, if Qeq_bool max_val min_val then (min_val + 1)%Q else max_val)
end.

(** the points of [draw_chart] *)
Definition chart_points (x y width height : Z) (data : list Q) : list (Z * Z) :=
let '(min_val, max_val) := chart_scale data in
map (fun iv : Z * Q =>
     let (i, value) := iv in
     (x + (i * width) / Z.of_nat (length data),
      y + height - Py.int ((value - min_val) * height / (max_val - min_val))))
  (enumerate data).

(** [draw_chart(draw, x, y, width, height, data, color, title, font)];
[fmt1 v] is [f"{v:.1f}"] *)
Definition draw_chart {Font : Type} (fmt1 : Q -> string) (x y width height : Z)
(data : list Q) (color : Color) (title : string) (font : Font)
: list (DrawCmd Font) :=
[Rectangle (ibox x y (x + width) (y + height)) None (Some color);
Text (ipt (x + 2) (y - 15)) title font color] ++
if (length data <? 2)%nat then []
else
let points := chart_points x y width height data in
map (fun s : (Z * Z) * (Z * Z) =>
       Line [ipt (fst (fst s)) (snd (fst s)); ipt (fst (snd s)) (snd (snd s))]
            color 1)
    (segments points) ++
(let current_val := match rev data with v :: _ => v | [] => 0%Q end in
 [Text (ipt (x + width - 30) (y + 2)) (fmt1 current_val ++ "%") font color]).

(** What an accepted touch on the drives screen sets off. *)
Inductive Action : Type :=
| ToggleShare (drive_index : nat)
| FormatDrive (drive_index : nat) (fs_type : string).

Record State : Type := {
current_screen : Z;
last_touch_time : Q;
touch_debounce : Q
}.

Definition initial : State :=
{| current_screen := 0; last_touch_time := 0; touch_debounce := 3 # 10 |}.

(** The hit-test loop of [handle_touch] over the drives from index [i] on,
with the loop variable [y_pos]: the method it calls, if any. *)
Fixpoint hit_test {D : Type} (x y : Z) (i : nat) (y_pos : Z) (drives : list D)
: option Action :=
match drives with
| [] => None
| _ :: rest =>
  if y_pos >? HEIGHT - 60 then None
  else
    let button_y := y_pos + 25 in
    if (5 <=? x) && (x <=? 60) && (button_y <=? y) && (y <=? button_y + 15)
    then Some (ToggleShare i)
    else if (70 <=? x) && (x <=? 125) && (button_y <=? y) && (y <=? button_y + 15)
    then Some (FormatDrive i "exfat")
    else hit_test x y (S i) (y_pos + 50) rest
end.

(** [handle_touch(x, y, drives)]: the new state and the drive method called *)
Definition handle_touch {D : Type} (current_time : Q) (x y : Z) (drives : list D)
(s : State) : State * option Action :=
if Py.ltb (current_time - last_touch_time s) (touch_debounce s) then (s, None)
else
let s := {| current_screen := current_screen s;
            last_touch_time := current_time;
            touch_debounce := touch_debounce s |} in
if current_screen s =? 0 then
  ({| current_screen := 1;
      last_touch_time := last_touch_time s;
      touch_debounce := touch_debounce s |}, None)
else if current_screen s =? 1 then
  match hit_test x y 0 48 drives with
  | Some action => (s, Some action)
  | None =>
      ({| current_screen := 0;
          last_touch_time := last_touch_time s;
          touch_debounce := touch_debounce s |}, None)
  end
else (s, None).

(** What drawing the drives screen reads from outside: [conf_read i k] is
the outcome of the [k]-th read of /etc/samba/usb-shares.conf made for
the drive at index [i], [findmnt_run i] that of the [findmnt] run made
for it. *)
Record Outside : Type := {
conf_read : nat -> nat -> Py.result string;
findmnt_run : nat -> Py.result string
}.

(** [USBDrive.is_shared]: is ["[" + name + "]"] in the file *)
Definition is_shared (o : Outside) (i k : nat) (d : USBDrive) : bool :=
Py.try_except
(content <- conf_read o i k ;;
 Py.Ok (contains ("[" ++ name d ++ "]") content))
false.

(** [USBDrive.get_filesystem_type] *)
Definition get_filesystem_type (o : Outside) (i : nat) : string :=
Py.try_except
(stdout <- findmnt_run o i ;;
 Py.Ok (let s := strip stdout in
        match s with EmptyString => "unknown"%string | _ => s end))
"unknown"%string.

Section DrivesScreen.
Variable Font : Type.
Variable format_float : nat -> Q -> string.
Variables font_big font_medium font_small : Font.

(** the body of the loop of [draw_drives_screen] for the drive at index
[i], entered with [y_pos] *)
Definition drive_rows (o : Outside) (i : nat) (y_pos : Z) (drive : USBDrive)
: list (DrawCmd Font) :=
let share_status := if is_shared o i 0 drive then "SHARED"%string
              else "PRIVATE"%string in
let status_color := if is_shared o i 1 drive then (0, 255, 0) else (255, 100, 100) in
let header := Text (ipt 5 y_pos) (name drive ++ " - " ++ share_status)
             font_medium status_color in
let y_pos := y_pos + 18 in
let fs_type := get_filesystem_type o i in
let button_y := y_pos + 25 in
let share_text := if is_shared o i 2 drive then "Unshare"%string
            else "Share"%string in
[header;
Text (ipt 5 y_pos) ("Type: " ++ fs_type) font_small (200, 200, 200);
Text (ipt 5 (y_pos + 12))
("Size: " ++ format_size format_float (total_bytes drive) ++ " (" ++
 format_float 1%nat (used_percent drive) ++ "% used)")
font_small (200, 200, 200);
Rectangle (ibox 5 button_y 60 (button_y + 15)) None (Some (255, 255, 255));
Text (ipt 8 (button_y + 2)) share_text font_small (255, 255, 255);
Rectangle (ibox 70 button_y 125 (button_y + 15)) None (Some (255, 100, 100));
Text (ipt 73 (button_y + 2)) "Format" font_small (255, 100, 100)].

(** [for i, drive in enumerate(drives)], with its [break] *)
Fixpoint drives_loop (o : Outside) (i : nat) (y_pos : Z) (drives : list USBDrive)
: list (DrawCmd Font) :=
match drives with
| [] => []
| drive :: rest =>
if y_pos >? HEIGHT - 60 then []
else drive_rows o i y_pos drive ++ drives_loop o (S i) (y_pos + 18 + 50) rest
end.

(** [draw_drives_screen] *)
Definition draw_drives_screen (o : Outside) (drives : list USBDrive)
: list (DrawCmd Font) :=
[Text (ipt 5 5) "USB Drive Manager" font_big (255, 255, 255)] ++
match drives with
| [] => [Text (ipt 5 50) "No USB drives connected" font_medium (100, 100, 100)]
| _ :: _ => drives_loop o 0 30 drives
end.

End DrivesScreen.

End NewDashboardUI.

(* ================================================================== *)
(** * Checks over the frames of an animation *)

(** [channels_within] as a test *)
Definition channels_withinb (lo hi : Z) (c : Color) : bool :=
  let '(r, g, b) := c in
  (lo <=? r) && (r <=? hi) && (lo <=? g) && (g <=? hi) && (lo <=? b) && (b <=? hi).

(** ring [i] of frame [frame] of the shutdown animation is drawn exactly
    when [4 * i + frame < 60], and then with a radius in [0, 160] and
    colour channels in [0, 255] *)
Definition shutdown_ring_check (frame i : Z) : bool :=
  match Shutdown.ring (Shutdown.progress frame) i with
  | Some r =>
      (4 * i + frame <? 60) && (0 <=? Shutdown.radius r) && (Shutdown.radius r <=? 160) &&
      channels_withinb 0 255 (Shutdown.color r)
  | None => negb (4 * i + frame <? 60)
  end.

(** the label of frame [frame] of the shutdown animation is drawn exactly
    when [frame < 36], in a grey no brighter than (150, 150, 150) *)
Definition shutdown_text_check (frame : Z) : bool :=
  match Shutdown.text_color (Shutdown.progress frame) with
  | Some c => (frame <? 36) && channels_withinb 0 150 c
  | None => negb (frame <? 36)
  end.

(* ================================================================== *)
(** * Properties *)

(** ** Comparisons *)

Lemma ltb_true_iff (a b : Q) : Py.ltb a b = true <-> (a < b)%Q.
Proof.
  unfold Py.ltb. rewrite Qlt_alt.
  destruct (a ?= b)%Q; split; congruence.
Qed.

Lemma ltb_false_iff (a b : Q) : Py.ltb a b = false <-> (b <= a)%Q.
Proof.
  rewrite <- Bool.not_true_iff_false, ltb_true_iff.
  split; [apply Qnot_lt_le | apply Qle_not_lt].
Qed.

Lemma gtb_true_iff (a b : Q) : Py.gtb a b = true <-> (b < a)%Q.
Proof. apply ltb_true_iff. Qed.

Lemma gtb_false_iff (a b : Q) : Py.gtb a b = false <-> (a <= b)%Q.
Proof. apply ltb_false_iff. Qed.

(** ** The history buffer *)

Section DequeFacts.
Context {A : Type}.
Implicit Types (d : Deque.t A) (v : A) (vs : list A).

Lemma append_maxlen d v : Deque.maxlen (Deque.append d v) = Deque.maxlen d.
Proof. reflexivity. Qed.

Lemma push_all_snoc d vs v :
Deque.push_all d (vs ++ [v]) = Deque.append (Deque.push_all d vs) v.
Proof. unfold Deque.push_all. now rewrite fold_left_app. Qed.

Lemma push_all_maxlen d vs : Deque.maxlen (Deque.push_all d vs) = Deque.maxlen d.
Proof.
induction vs as [|v vs IH] using rev_ind; [reflexivity|].
now rewrite push_all_snoc, append_maxlen.
Qed.

Lemma tl_skipn (k : nat) (l : list A) : tl (skipn k l) = skipn (S k) l.
Proof.
revert l; induction k as [|k IH]; intros [|x l]; try reflexivity.
apply (IH l).
Qed.

Lemma most_recent_length (k : nat) (l : list A) :
(k <= length l)%nat -> length (most_recent k l) = k.
Proof. intros H. unfold most_recent. rewrite length_skipn. lia. Qed.

(** One push on a buffer that holds the most recent values keeps it so. *)
Lemma append_most_recent (c : nat) vs v :
(1 <= c)%nat ->
Deque.items
(Deque.append {| Deque.maxlen := c;
                 Deque.items := most_recent (Nat.min c (length vs)) vs |} v)
= most_recent (Nat.min c (length (vs ++ [v]))) (vs ++ [v]).
Proof.
intros Hc. unfold Deque.append; cbn [Deque.items Deque.maxlen].
rewrite length_app, most_recent_length by lia.
unfold most_recent. rewrite !length_app. cbn [length].
destruct (Nat.ltb_spec c (Nat.min c (length vs) + 1)) as [Hfull|Hroom].
- assert (Hle : (c <= length vs)%nat) by lia.
replace (length vs - Nat.min c (length vs))%nat with (length vs - c)%nat by lia.
replace (length vs + 1 - Nat.min c (length vs + 1))%nat
  with (S (length vs - c)) by lia.
rewrite skipn_app.
replace (S (length vs - c) - length vs)%nat with 0%nat by lia.
rewrite skipn_O, <- tl_skipn.
destruct (skipn (length vs - c) vs) as [|x r] eqn:E; [|reflexivity].
apply (f_equal (@length A)) in E. rewrite length_skipn in E.
cbn in E. lia.
- replace (length vs - Nat.min c (length vs))%nat with 0%nat by lia.
replace (length vs + 1 - Nat.min c (length vs + 1))%nat with 0%nat by lia.
reflexivity.
Qed.

Lemma push_all_most_recent (c : nat) vs :
(1 <= c)%nat ->
Deque.push_all (Deque.new c) vs
= {| Deque.maxlen := c;
   Deque.items := most_recent (Nat.min c (length vs)) vs |}.
Proof.
intros Hc. induction vs as [|v vs IH] using rev_ind; [reflexivity|].
rewrite push_all_snoc, IH.
rewrite <- (append_most_recent c vs v Hc). reflexivity.
Qed.

Lemma in_append d v x :
In x (Deque.items (Deque.append d v)) -> In x (Deque.items d) \/ x = v.
Proof.
unfold Deque.append; cbn [Deque.items Deque.maxlen]. intros H.
assert (H' : In x (Deque.items d ++ [v])).
{ destruct (_ <? _)%nat; [|exact H].
destruct (Deque.items d ++ [v]); [destruct H | now right]. }
apply in_app_or in H'. destruct H' as [H'|[H'|[]]]; auto.
Qed.

End DequeFacts.

(** C1. For every capacity [c >= 1] and every sequence of pushes, the
    snapshot has at most [c] values and holds the most recent
    [min c (number of pushes)] pushed values in push order; pushing 10, 20,
    30 into a buffer of capacity 2 gives [20; 30], and pushing 40 next gives
    [30; 40]. *)
Theorem history_buffer_fifo :
  (forall (A : Type) (c : nat) (vs : list A),
      (1 <= c)%nat ->
      let d := Deque.push_all (Deque.new c) vs in
      (length (Deque.snapshot d) <= c)%nat /\
      Deque.snapshot d = most_recent (Nat.min c (length vs)) vs) /\
  Deque.snapshot (Deque.push_all (Deque.new 2) [10; 20; 30]) = [20; 30] /\
  Deque.snapshot (Deque.append (Deque.push_all (Deque.new 2) [10; 20; 30]) 40)
  = [30; 40].
Proof.
  split; [|split; reflexivity].
  intros A c vs Hc d. subst d.
  rewrite push_all_most_recent by exact Hc.
  unfold Deque.snapshot; cbn [Deque.items]. split; [|reflexivity].
  rewrite most_recent_length; lia.
Qed.

Lemma history_buffer_fifo_witness :
  (1 <= 3)%nat /\
  Deque.snapshot (Deque.push_all (Deque.new 3) [1; 2; 3; 4; 5]) = [3; 4; 5].
Proof.
  split; [lia|].
  exact (proj2 (proj1 history_buffer_fifo Z 3%nat [1; 2; 3; 4; 5] ltac:(lia))).
Defined.

(** The four series of the dashboard are such buffers of capacity
    [HISTORY_SIZE]: after any run of poll ticks the CPU series is the most
    recent [HISTORY_SIZE] CPU readings. *)
Lemma cpu_history_most_recent (samples : list Stats) :
  Deque.snapshot (cpu_history (poll_ticks samples initial_histories))
  = most_recent (Nat.min HISTORY_SIZE (length samples)) (map cpu_percent samples).
Proof.
  assert (H : cpu_history (poll_ticks samples initial_histories)
              = Deque.push_all (Deque.new HISTORY_SIZE) (map cpu_percent samples)).
  { unfold poll_ticks, Deque.push_all.
    change (Deque.new HISTORY_SIZE) with (cpu_history initial_histories).
    generalize initial_histories.
    induction samples as [|s samples IH]; intros h; [reflexivity|].
    cbn [fold_left map]. rewrite IH. reflexivity. }
  rewrite H, push_all_most_recent by (unfold HISTORY_SIZE; lia).
  unfold Deque.snapshot; cbn [Deque.items]. now rewrite length_map.
Qed.

(** ** Touch calibration *)

Lemma driver_is_true (driver : option string) (tag : string) :
  driver_is driver tag = true <-> driver = Some tag.
Proof.
  destruct driver as [d|]; cbn.
  - rewrite String.eqb_eq. split; congruence.
  - split; discriminate.
Qed.

Lemma driver_is_false (driver : option string) (tag : string) :
  driver_is driver tag = false <-> driver <> Some tag.
Proof.
  rewrite <- driver_is_true. destruct (driver_is driver tag); split; congruence.
Qed.

(** what [map_touch] does under the STMPE610 profile *)
Lemma map_touch_stmpe610 (touch : TouchDevice) :
  map_touch touch (Some "STMPE610"%string)
  = match touched touch with
    | Py.Ok true =>
        match read_data touch with
        | Py.Ok [x_raw; y_raw; _] =>
            let xy := calibrate 200 3800 200 3800 x_raw y_raw in
            Some (Py.maxZ 0 (Py.minZ (WIDTH - 1) (fst xy)),
                  Py.maxZ 0 (Py.minZ (HEIGHT - 1) (snd xy)))
        | _ => None
        end
    | _ => None
    end.
Proof.
  unfold map_touch, map_touch_body. cbn [driver_is]. rewrite String.eqb_refl.
  destruct (touched touch) as [[|]|e]; cbn; try reflexivity.
  destruct (read_data touch) as [[|a [|b [|c [|? ?]]]]|e]; reflexivity.
Qed.

(** what [map_touch] does under the XPT2046 profile *)
Lemma map_touch_xpt2046 (touch : TouchDevice) :
  map_touch touch (Some "XPT2046"%string)
  = match touch_point touch 0%nat with
    | Py.Ok p =>
        if truthy p then
          match touch_point touch 1%nat with
          | Py.Ok (Some [x_raw; y_raw]) =>
              let xy := calibrate 300 3800 300 3800 x_raw y_raw in
              Some (Py.maxZ 0 (Py.minZ (WIDTH - 1) (fst xy)),
                    Py.maxZ 0 (Py.minZ (HEIGHT - 1) (snd xy)))
          | _ => None
          end
        else None
    | Py.Raise _ => None
    end.
Proof.
  unfold map_touch, map_touch_body.
  replace (driver_is (Some "XPT2046"%string) "STMPE610") with false by reflexivity.
  cbn [driver_is]. rewrite String.eqb_refl.
  destruct (touch_point touch 0%nat) as [p|e]; cbn; [|reflexivity].
  destruct (truthy p); cbn; [|reflexivity].
  destruct (touch_point touch 1%nat) as [[[|a [|b [|? ?]]]|]|e]; reflexivity.
Qed.

(** under any other driver value the locals are never assigned *)
Lemma map_touch_body_other (touch : TouchDevice) (driver : option string) :
  driver <> Some "STMPE610"%string -> driver <> Some "XPT2046"%string ->
  map_touch_body touch driver = Py.Raise Py.UnboundLocalError.
Proof.
  intros H1 H2. unfold map_touch_body.
  apply driver_is_false in H1, H2. rewrite H1, H2. reflexivity.
Qed.

(** C3. For every driver profile, [map_touch] returns absent when the
    sensor reports no contact and when a sensor read raises; whenever it
    returns a point the sensor did report contact. *)
Theorem map_touch_absent_unless_touched :
  forall (touch : TouchDevice) (driver : option string),
    (reports_no_contact touch driver -> map_touch touch driver = None) /\
    (read_error touch driver -> map_touch touch driver = None) /\
    (forall p, map_touch touch driver = Some p -> reports_contact touch driver).
Proof.
  intros touch driver. split; [|split].
  - intros [[-> Ht]|[-> (p & Hp & Hf)]].
    + now rewrite map_touch_stmpe610, Ht.
    + now rewrite map_touch_xpt2046, Hp, Hf.
  - intros [[-> H]|[-> H]].
    + rewrite map_touch_stmpe610.
      destruct H as [[e He]|[e He]]; rewrite He; [reflexivity|].
      now destruct (touched touch) as [[|]|].
    + rewrite map_touch_xpt2046.
      destruct H as [[e He]|[e He]]; rewrite He; [reflexivity|].
      destruct (touch_point touch 0%nat) as [p|]; [|reflexivity].
      now destruct (truthy p).
  - intros p H.
    destruct (driver_is driver "STMPE610") eqn:E1.
    { apply driver_is_true in E1; subst driver. left. split; [reflexivity|].
      rewrite map_touch_stmpe610 in H.
      now destruct (touched touch) as [[|]|]. }
    destruct (driver_is driver "XPT2046") eqn:E2.
    { apply driver_is_true in E2; subst driver. right. split; [reflexivity|].
      rewrite map_touch_xpt2046 in H.
      destruct (touch_point touch 0%nat) as [q|]; [|discriminate].
      exists q. split; [reflexivity|]. now destruct (truthy q). }
    apply driver_is_false in E1, E2.
    unfold map_touch in H. rewrite (map_touch_body_other _ _ E1 E2) in H.
    discriminate.
Qed.

Lemma map_touch_absent_unless_touched_witness :
  let idle := {| touched := Py.Ok false;
                 read_data := Py.Raise Py.OSError;
                 touch_point := fun _ => Py.Ok None |} in
  reports_no_contact idle (Some "STMPE610"%string) /\
  read_error idle (Some "STMPE610"%string) /\
  map_touch idle (Some "STMPE610"%string) = None.
Proof.
  intros idle.
  assert (Hno : reports_no_contact idle (Some "STMPE610"%string)).
  { left. split; reflexivity. }
  assert (Herr : read_error idle (Some "STMPE610"%string)).
  { left. split; [reflexivity|]. right. exists Py.OSError. reflexivity. }
  split; [exact Hno|]. split; [exact Herr|].
  exact (proj1 (map_touch_absent_unless_touched idle (Some "STMPE610"%string)) Hno).
Defined.

(** A touch at the centre of the panel does come through, under both
    profiles. *)
Example map_touch_centre :
  map_touch {| touched := Py.Ok true;
               read_data := Py.Ok [2000%Q; 2000%Q; 40%Q];
               touch_point := fun _ => Py.Ok None |}
            (Some "STMPE610"%string) = Some (160, 120) /\
  map_touch {| touched := Py.Ok false;
               read_data := Py.Ok [];
               touch_point := fun _ => Py.Ok (Some [2050%Q; 2050%Q]) |}
            (Some "XPT2046"%string) = Some (160, 120).
Proof. split; reflexivity. Qed.

(** C10. [map_touch] is total over its driver argument: with a driver tag
    that is neither "STMPE610" nor "XPT2046" (or no driver at all) the read
    of the unassigned [screen_x] raises inside the [try], and the handler
    turns that into the absent result, whatever the touch object reports. *)
Theorem map_touch_unknown_driver_absent :
  forall (touch : TouchDevice) (driver : option string),
    driver <> Some "STMPE610"%string ->
    driver <> Some "XPT2046"%string ->
    map_touch_body touch driver = Py.Raise Py.UnboundLocalError /\
    map_touch touch driver = None.
Proof.
  intros touch driver H1 H2.
  pose proof (map_touch_body_other touch driver H1 H2) as Hb.
  split; [exact Hb|]. unfold map_touch. now rewrite Hb.
Qed.

Lemma map_touch_unknown_driver_absent_witness :
  let pressed := {| touched := Py.Ok true;
                    read_data := Py.Ok [2000%Q; 2000%Q; 40%Q];
                    touch_point := fun _ => Py.Ok (Some [2000%Q; 2000%Q]) |} in
  map_touch pressed None = None /\
  map_touch pressed (Some "stmpe610"%string) = None.
Proof.
  intros pressed. split.
  - exact (proj2 (map_touch_unknown_driver_absent pressed None
                    ltac:(discriminate) ltac:(discriminate))).
  - exact (proj2 (map_touch_unknown_driver_absent pressed (Some "stmpe610"%string)
                    ltac:(discriminate) ltac:(discriminate))).
Defined.

(** ** Debounce and navigation *)

Lemma handle_touch_dropped {D} (t : Q) (x y : Z) (drives : list D) (s : UIState) :
  (t - last_touch_time s < touch_debounce s)%Q ->
  handle_touch t x y drives s = s.
Proof.
  intros H. unfold handle_touch. apply ltb_true_iff in H. now rewrite H.
Qed.

Lemma handle_touch_accepted {D} (t : Q) (x y : Z) (drives : list D) (s : UIState) :
  (touch_debounce s <= t - last_touch_time s)%Q ->
  handle_touch t x y drives s
  = {| current_screen := (current_screen s + 1) mod (max_screens s);
       max_screens := max_screens s;
       last_touch_time := t;
       touch_debounce := touch_debounce s;
       animation_phase := animation_phase s |}.
Proof.
  intros H. unfold handle_touch. apply ltb_false_iff in H. now rewrite H.
Qed.

Lemma accepted_iff (t : Q) (s : UIState) :
  accepted t s = true <-> (touch_debounce s <= t - last_touch_time s)%Q.
Proof.
  unfold accepted. rewrite Bool.negb_true_iff. apply ltb_false_iff.
Qed.

(** C4, as stated, fails twice. A touch whose elapsed time equals the
    debounce interval (it does not exceed it) is accepted; and of two
    touches 0.10 s apart, the first of which was itself dropped, the second
    is accepted because 0.25 s have passed since the last accepted touch. *)
Lemma debounce_as_stated_fails :
  (let s := initial_ui in
   let t : Q := 2 # 10 in
   ~ (touch_debounce s < t - last_touch_time s)%Q /\
   current_screen (handle_touch (D := unit) t 0 0 [] s) = 1 /\
   current_screen s = 0) /\
  (let s1 := handle_touch (D := unit) 1 0 0 [] initial_ui in
   let t2 : Q := 115 # 100 in
   let t3 : Q := 125 # 100 in
   let s2 := handle_touch (D := unit) t2 0 0 [] s1 in
   let s3 := handle_touch (D := unit) t3 0 0 [] s2 in
   (t3 - t2 < touch_debounce initial_ui)%Q /\
   s2 = s1 /\
   current_screen s2 = 1 /\ current_screen s3 = 2).
Proof.
  split.
  - cbv zeta. split; [|split; reflexivity].
    intros H. vm_compute in H. discriminate H.
  - cbv zeta. repeat split; reflexivity.
Qed.

(** C4, amended. A touch is accepted exactly when the time since the last
    accepted touch is at least the debounce interval. A touch that comes
    sooner is dropped: the handler returns the state as it was (screen and
    last accepted time unchanged, nothing kept of the event). So when a
    touch is accepted and another follows within less than the interval,
    the second leaves the state as the first left it. *)
Theorem debounce_drops_within_window :
  forall (D : Type) (s : UIState) (x y x' y' : Z) (drives drives' : list D) (t t' : Q),
    ((t - last_touch_time s < touch_debounce s)%Q ->
     handle_touch t x y drives s = s) /\
    ((touch_debounce s <= t - last_touch_time s)%Q ->
     last_touch_time (handle_touch t x y drives s) = t /\
     current_screen (handle_touch t x y drives s)
     = (current_screen s + 1) mod (max_screens s)) /\
    ((touch_debounce s <= t - last_touch_time s)%Q ->
     (t' - t < touch_debounce s)%Q ->
     handle_touch t' x' y' drives' (handle_touch t x y drives s)
     = handle_touch t x y drives s).
Proof.
  intros D s x y x' y' drives drives' t t'. split; [|split].
  - apply handle_touch_dropped.
  - intros H. rewrite (handle_touch_accepted _ _ _ _ _ H). split; reflexivity.
  - intros H H'. apply handle_touch_dropped.
    rewrite (handle_touch_accepted _ _ _ _ _ H). exact H'.
Qed.

Lemma debounce_drops_within_window_witness :
  let s1 := handle_touch (D := unit) 1 10 10 [] initial_ui in
  (touch_debounce initial_ui <= 1 - last_touch_time initial_ui)%Q /\
  ((11 # 10) - 1 < touch_debounce initial_ui)%Q /\
  handle_touch (D := unit) (11 # 10) 20 20 [] s1 = s1.
Proof.
  intros s1.
  assert (H1 : (touch_debounce initial_ui <= 1 - last_touch_time initial_ui)%Q)
    by (vm_compute; discriminate).
  assert (H2 : ((11 # 10) - 1 < touch_debounce initial_ui)%Q) by reflexivity.
  split; [exact H1|]. split; [exact H2|].
  exact (proj2 (proj2 (debounce_drops_within_window unit initial_ui
                         10 10 20 20 [] [] 1 (11 # 10))) H1 H2).
Defined.

Lemma touches_advance (times : list Q) :
  forall s : UIState,
    well_spaced (last_touch_time s) (touch_debounce s) times ->
    current_screen (touches times s)
    = (current_screen s + Z.of_nat (length times)) mod (max_screens s)
      \/ times = [].
Proof.
  induction times as [|t rest IH]; intros s Hs; [now right|]. left.
  destruct Hs as [Ht Hrest]. cbn [touches].
  rewrite (handle_touch_accepted _ _ _ _ _ Ht).
  match goal with |- current_screen (touches rest ?s1) = _ => set (s' := s1) end.
  destruct (IH s' Hrest) as [E| ->].
  - rewrite E. subst s'. cbn [current_screen max_screens].
    rewrite Zplus_mod_idemp_l. f_equal. cbn [length]. lia.
  - subst s'. cbn [touches current_screen length]. reflexivity.
Qed.

(** C7. Navigation starts at Overview (index 0); every accepted touch moves
    to [(current + 1) mod screen_count]; with the three screens of this
    configuration three accepted touches lead to Drives (1), Stats (2) and
    back to Overview (0). *)
Theorem navigation_cycles :
  current_screen initial_ui = 0 /\ max_screens initial_ui = 3 /\
  (forall (D : Type) (s : UIState) (t : Q) (x y : Z) (drives : list D),
      accepted t s = true ->
      current_screen (handle_touch t x y drives s)
      = (current_screen s + 1) mod (max_screens s)) /\
  (forall t1 t2 t3 : Q,
      well_spaced (last_touch_time initial_ui) (touch_debounce initial_ui)
                  [t1; t2; t3] ->
      current_screen (touches [t1] initial_ui) = 1 /\
      current_screen (touches [t1; t2] initial_ui) = 2 /\
      current_screen (touches [t1; t2; t3] initial_ui) = 0).
Proof.
  split; [reflexivity|]. split; [reflexivity|]. split.
  - intros D s t x y drives H. apply accepted_iff in H.
    now rewrite (handle_touch_accepted _ _ _ _ _ H).
  - intros t1 t2 t3 (H1 & H2 & H3 & _).
    cbn [touches].
    rewrite (handle_touch_accepted t1 0 0 [] initial_ui H1).
    match goal with |- context [handle_touch t2 0 0 [] ?s] => set (s1 := s) end.
    rewrite (handle_touch_accepted t2 0 0 [] s1 H2).
    match goal with |- context [handle_touch t3 0 0 [] ?s] => set (s2 := s) end.
    rewrite (handle_touch_accepted t3 0 0 [] s2 H3).
    repeat split.
Qed.

Lemma navigation_cycles_witness :
  well_spaced (last_touch_time initial_ui) (touch_debounce initial_ui) [1; 2; 3]%Q /\
  current_screen (touches [1; 2; 3]%Q initial_ui) = 0.
Proof.
  assert (H : well_spaced (last_touch_time initial_ui) (touch_debounce initial_ui)
                          [1; 2; 3]%Q).
  { cbn. repeat split; vm_compute; discriminate. }
  split; [exact H|].
  exact (proj2 (proj2 (proj2 (proj2 (proj2 navigation_cycles)) 1 2 3 H))).
Defined.

(** After any run of [n] accepted touches from the start the screen shown
    is [n mod 3]. *)
Lemma navigation_after_n_touches (times : list Q) :
  well_spaced (last_touch_time initial_ui) (touch_debounce initial_ui) times ->
  current_screen (touches times initial_ui) = Z.of_nat (length times) mod 3.
Proof.
  intros H. destruct (touches_advance times initial_ui H) as [E| ->].
  - exact E.
  - reflexivity.
Qed.

(** ** Truncation *)

Lemma int_nonneg_floor (q : Q) : (0 <= q)%Q -> Py.int q = Qfloor q.
Proof.
  destruct q as [n d]. unfold Qle, Py.int, Qfloor; cbn. intros H.
  apply Z.quot_div_nonneg; lia.
Qed.

Lemma int_nonneg_bounds (q : Q) :
  (0 <= q)%Q -> (inject_Z (Py.int q) <= q < inject_Z (Py.int q) + 1)%Q.
Proof.
  intros H. rewrite (int_nonneg_floor q H). split.
  - apply Qfloor_le.
  - pose proof (Qlt_floor q) as L. rewrite inject_Z_plus in L. exact L.
Qed.

Lemma int_of_integer (q : Q) (k : Z) : (q == inject_Z k)%Q -> Py.int q = k.
Proof.
  destruct q as [n d]. unfold Qeq, Py.int; cbn. intros H.
  rewrite Z.mul_1_r in H. subst n. apply Z.quot_mul. lia.
Qed.

(** ** Usage bar colours *)

(** C5, as stated, fails at the thresholds themselves: a drive at exactly
    90 percent gets the warning colour, not the error colour, and one at
    exactly 75 percent the normal colour, not the warning colour. *)
Lemma usage_bar_color_at_threshold :
  bar_color 90 = STATUS_WARNING /\ STATUS_WARNING <> STATUS_ERROR /\
  bar_color 75 = snd GRADIENT_INFO /\ snd GRADIENT_INFO <> STATUS_WARNING /\
  Redesigned.bar_color 90 = Redesigned.COLOR_WARNING /\
  Redesigned.COLOR_WARNING <> Redesigned.COLOR_ERROR.
Proof. repeat split; (reflexivity || discriminate). Qed.

Lemma bar_color_error (p : Q) :
  (90 < p)%Q -> bar_color p = STATUS_ERROR /\ Redesigned.bar_color p = Redesigned.COLOR_ERROR.
Proof.
  intros H. apply gtb_true_iff in H. unfold bar_color, Redesigned.bar_color.
  now rewrite H.
Qed.

Lemma bar_color_warning (p : Q) :
  (75 < p)%Q -> (p <= 90)%Q ->
  bar_color p = STATUS_WARNING /\ Redesigned.bar_color p = Redesigned.COLOR_WARNING.
Proof.
  intros H1 H2. apply gtb_true_iff in H1. apply gtb_false_iff in H2.
  unfold bar_color, Redesigned.bar_color. now rewrite H1, H2.
Qed.

Lemma bar_color_normal (p : Q) :
  (p <= 75)%Q ->
  bar_color p = snd GRADIENT_INFO /\ Redesigned.bar_color p = Redesigned.COLOR_INFO.
Proof.
  intros H. assert (H' : (p <= 90)%Q) by lra.
  apply gtb_false_iff in H, H'.
  unfold bar_color, Redesigned.bar_color. now rewrite H, H'.
Qed.

(** membership in a concatenation of draw calls, searched left to right *)
Ltac in_calls :=
  match goal with
  | H : In ?c ?l |- In ?c ?l => exact H
  | |- In _ (_ ++ _) => apply in_or_app; ((left; in_calls) || (right; in_calls))
  end.

Section UsageBars.
Variable Font : Type.
Variable getbbox : Font -> string -> Z * Z * Z * Z.
Variable format_float : nat -> Q -> string.
Variable sin : Q -> Q.

(** the fill of the usage bar on a card of the drives screen *)
Lemma drive_card_fill (w : World) (fonts : Fonts Font) (i : nat) (y : Z)
(drive : USBDrive) :
(0 < used_percent drive)%Q ->
incl (draw_rounded_rect Font 180 (y + 15)
      (Py.int (120 * used_percent drive / 100)) 20 4
      (bar_color (used_percent drive)) None 1)
   (drive_card Font getbbox format_float w fonts i y drive).
Proof.
intros H c Hc. apply gtb_true_iff in H.
unfold drive_card. cbv zeta. rewrite H. in_calls.
Qed.

(** the fill of the usage bar of the first drive on the overview screen *)
Lemma overview_fill (w : World) (hist : Histories) (ui : UIState)
(fonts : Fonts Font) (stats : Stats) (version : string) (is_latest : bool)
(drive : USBDrive) (others : list USBDrive) (phase : Q) :
(0 < used_percent drive)%Q ->
incl (draw_rounded_rect Font 22 225
      (Py.int (180 * used_percent drive / 100)) 4 2
      (bar_color (used_percent drive)) None 1)
   (draw_overview_screen Font getbbox format_float sin w hist ui fonts stats
      version is_latest (drive :: others) phase).
Proof.
intros H c Hc. apply gtb_true_iff in H.
unfold draw_overview_screen. cbv zeta. rewrite H.
change (12 + 10) with 22. change (191 + 22 + 12) with 225.
in_calls.
Qed.

(** the fill of the usage bar in the redesigned overview *)
Lemma redesigned_fill (y : Z) (drive : USBDrive) :
(0 < used_percent drive)%Q ->
In (Rectangle (Font := Font)
    (ibox 171 (y + 4) (170 + Py.int (120 * used_percent drive / 100)) (y + 10))
    (Some (Redesigned.bar_color (used_percent drive))) None)
 (Redesigned.usage_bar y drive).
Proof.
intros H. apply gtb_true_iff in H. unfold Redesigned.usage_bar. cbv zeta.
rewrite H. right. left. reflexivity.
Qed.
End UsageBars.

(** C5, amended. The usage-bar fill colour follows one three-tier policy at
    every usage bar (overview and drives screens, and the redesigned
    variant): above 90 percent the error colour, above 75 and up to 90 the
    warning colour, otherwise the normal colour; 92 gives the error tier,
    80 the warning tier, 50 the normal tier. The fill is drawn in that
    colour whenever the drive's used percentage is positive. *)
Theorem usage_bar_color_tiers :
  (forall p : Q,
      ((90 < p)%Q ->
       bar_color p = STATUS_ERROR /\ Redesigned.bar_color p = Redesigned.COLOR_ERROR) /\
      ((75 < p)%Q -> (p <= 90)%Q ->
       bar_color p = STATUS_WARNING /\ Redesigned.bar_color p = Redesigned.COLOR_WARNING) /\
      ((p <= 75)%Q ->
       bar_color p = snd GRADIENT_INFO /\ Redesigned.bar_color p = Redesigned.COLOR_INFO)) /\
  (bar_color 92 = STATUS_ERROR /\ bar_color 80 = STATUS_WARNING /\
   bar_color 50 = snd GRADIENT_INFO) /\
  (forall Font getbbox format_float sin w hist ui fonts stats version is_latest
          (drive : USBDrive) others phase i y,
      (0 < used_percent drive)%Q ->
      incl (draw_rounded_rect Font 180 (y + 15)
              (Py.int (120 * used_percent drive / 100)) 20 4
              (bar_color (used_percent drive)) None 1)
           (drive_card Font getbbox format_float w fonts i y drive) /\
      incl (draw_rounded_rect Font 22 225
              (Py.int (180 * used_percent drive / 100)) 4 2
              (bar_color (used_percent drive)) None 1)
           (draw_overview_screen Font getbbox format_float sin w hist ui fonts stats
              version is_latest (drive :: others) phase) /\
      In (Rectangle (Font := Font)
            (ibox 171 (y + 4) (170 + Py.int (120 * used_percent drive / 100)) (y + 10))
            (Some (Redesigned.bar_color (used_percent drive))) None)
         (Redesigned.usage_bar y drive)).
Proof.
  split; [|split].
  - intros p. split; [apply bar_color_error|]. split;
      [apply bar_color_warning | apply bar_color_normal].
  - repeat split.
  - intros. split; [now apply drive_card_fill|].
    split; [now apply overview_fill | now apply redesigned_fill].
Qed.

Lemma usage_bar_color_tiers_witness :
  (90 < 92)%Q /\ bar_color 92 = STATUS_ERROR /\
  (75 < 80)%Q /\ (80 <= 90)%Q /\ bar_color 80 = STATUS_WARNING /\
  (50 <= 75)%Q /\ bar_color 50 = snd GRADIENT_INFO.
Proof.
  assert (H92 : (90 < 92)%Q) by reflexivity.
  assert (H80 : (75 < 80)%Q) by reflexivity.
  assert (H80' : (80 <= 90)%Q) by (vm_compute; discriminate).
  assert (H50 : (50 <= 75)%Q) by (vm_compute; discriminate).
  split; [exact H92|].
  split; [exact (proj1 (proj1 (proj1 usage_bar_color_tiers 92%Q) H92))|].
  split; [exact H80|]. split; [exact H80'|].
  split; [exact (proj1 (proj1 (proj2 (proj1 usage_bar_color_tiers 80%Q)) H80 H80'))|].
  split; [exact H50|].
  exact (proj1 (proj2 (proj2 (proj1 usage_bar_color_tiers 50%Q)) H50)).
Defined.

(** ** Circular progress *)






(** ** Boot animation *)

Ltac q_consts :=
  unfold Qdiv;
  change (/ (4 # 10))%Q with (10 # 4)%Q;
  change (/ (3 # 10))%Q with (10 # 3)%Q;
  change (/ (5 # 10))%Q with (10 # 5)%Q.

(** the three cases of [Boot.phase] *)
Lemma phase_cases (t : Q) (P : Boot.Phase -> Prop) :
  ((t < 4 # 10)%Q ->
   P {| Boot.orbit_radius := 80 * (1 - t / (4 # 10));
        Boot.blob_size := 8 * (t / (4 # 10));
        Boot.explosion := 0 |}) ->
  ((4 # 10 <= t)%Q -> (t < 7 # 10)%Q ->
   P {| Boot.orbit_radius := 25;
        Boot.blob_size := 8 + 8 * ((t - (4 # 10)) / (3 # 10));
        Boot.explosion := 0 |}) ->
  ((7 # 10 <= t)%Q ->
   P {| Boot.orbit_radius := 25 * (1 - (t - (7 # 10)) / (3 # 10) * (8 # 10));
        Boot.blob_size := 16 + 30 * ((t - (7 # 10)) / (3 # 10));
        Boot.explosion := (t - (7 # 10)) / (3 # 10) |}) ->
  P (Boot.phase t).
Proof.
  intros H1 H2 H3. unfold Boot.phase.
  destruct (Py.ltb t (4 # 10)) eqn:E1.
  - apply H1. now apply ltb_true_iff.
  - apply ltb_false_iff in E1.
    destruct (Py.ltb t (7 # 10)) eqn:E2.
    + apply H2; [exact E1 | now apply ltb_true_iff].
    + apply H3. now apply ltb_false_iff.
Qed.

Lemma orbit_radius_max (t : Q) :
  (0 <= t)%Q -> (Boot.orbit_radius (Boot.phase t) <= 80)%Q.
Proof.
  intros H. apply phase_cases; intros; cbn [Boot.orbit_radius]; q_consts; lra.
Qed.

Lemma blob_size_min (t : Q) :
  (0 <= t)%Q -> (0 <= Boot.blob_size (Boot.phase t))%Q.
Proof.
  intros H. apply phase_cases; intros; cbn [Boot.blob_size]; q_consts; lra.
Qed.

Lemma orbit_radius_final_phase (t : Q) :
  (7 # 10 <= t)%Q ->
  (Boot.orbit_radius (Boot.phase t) == 25 * (1 - (t - (7 # 10)) / (3 # 10) * (8 # 10)))%Q.
Proof.
  intros H. apply phase_cases; intros; cbn [Boot.orbit_radius]; q_consts; lra.
Qed.

Lemma orbit_radius_shrinks (t t' : Q) :
  (7 # 10 <= t)%Q -> (t <= t')%Q ->
  (Boot.orbit_radius (Boot.phase t') <= Boot.orbit_radius (Boot.phase t))%Q /\
  (Boot.orbit_radius (Boot.phase t) <= 25)%Q.
Proof.
  intros H H'.
  rewrite (orbit_radius_final_phase t H).
  rewrite (orbit_radius_final_phase t') by lra.
  q_consts. split; lra.
Qed.

Lemma boot_progress_lt (frame : Z) (c : Q) :
  (c < Boot.progress frame)%Q <-> (c * 90 < inject_Z frame)%Q.
Proof.
  unfold Boot.progress, Boot.frames. change (inject_Z 90) with (90 # 1)%Q. split.
  - intros H. apply (Qmult_lt_compat_r _ _ (90 # 1)) in H; [|reflexivity].
    setoid_replace (inject_Z frame / (90 # 1) * (90 # 1))%Q with (inject_Z frame) in H
      by (field; discriminate).
    exact H.
  - intros H. apply Qlt_shift_div_l; [reflexivity | exact H].
Qed.

Lemma inject_Z_lt_const (a frame : Z) : (inject_Z a < inject_Z frame)%Q <-> a < frame.
Proof. rewrite <- Zlt_Qlt. reflexivity. Qed.

(** [t * 90] is the frame number *)
Lemma boot_progress_frame (frame : Z) : (Boot.progress frame * (90 # 1) == inject_Z frame)%Q.
Proof.
  unfold Boot.progress, Boot.frames. change (inject_Z 90) with (90 # 1)%Q. field.
Qed.

(** the values of [t] over the frames: from 0, growing with the frame,
    never 1 *)
Lemma boot_progress_range (frame : Z) :
  0 <= frame < Boot.frames ->
  (0 <= Boot.progress frame)%Q /\ (Boot.progress frame <= Boot.progress 89)%Q /\
  (Boot.progress frame < 1)%Q.
Proof.
  intros [F0 F1]. unfold Boot.frames in F1.
  pose proof (boot_progress_frame frame) as E.
  pose proof (boot_progress_frame 89) as E89.
  change (inject_Z 89) with (89 # 1)%Q in E89.
  assert (Q0 : (0 <= inject_Z frame)%Q).
  { change 0%Q with (inject_Z 0). now rewrite <- Zle_Qle. }
  assert (Q1 : (inject_Z frame <= 89 # 1)%Q).
  { change (89 # 1)%Q with (inject_Z 89). rewrite <- Zle_Qle. lia. }
  repeat split; lra.
Qed.

Lemma boot_progress_mono (frame frame' : Z) :
  frame <= frame' -> (Boot.progress frame <= Boot.progress frame')%Q.
Proof.
  intros H. pose proof (boot_progress_frame frame) as E.
  pose proof (boot_progress_frame frame') as E'.
  assert (Q1 : (inject_Z frame <= inject_Z frame')%Q) by now rewrite <- Zle_Qle.
  lra.
Qed.

(** C8, as stated, fails at its far end: the sequence has no frame with
    [t = 1]. Its last frame, [t = 89/90], draws the label in
    (176, 97, 249), not in the full label colour (180, 100, 255), at an
    intensity below 1, with the orbit radius still above the 5 that the
    formula gives at [t = 1]. *)
Lemma boot_last_frame_short_of_full :
  Forall (fun t => (t < 1)%Q) Boot.progress_values /\
  nth_error (rev Boot.progress_values) 0 = Some (Boot.progress 89) /\
  (exists alpha,
      Boot.text_alpha (Boot.progress 89) = Some alpha /\
      (alpha < 1)%Q /\
      Boot.text_color alpha = (176, 97, 249) /\
      Boot.text_color alpha <> snd GRADIENT_PRIMARY) /\
  (5 < Boot.orbit_radius (Boot.phase (Boot.progress 89)))%Q /\
  (Boot.orbit_radius (Boot.phase 1) == 5)%Q.
Proof.
  split; [|split; [|split; [|split]]].
  - apply Forall_forall. intros t Ht. unfold Boot.progress_values in Ht.
    apply in_map_iff in Ht. destruct Ht as (frame & <- & Hf).
    unfold range in Hf. apply in_map_iff in Hf. destruct Hf as (k & <- & Hk).
    apply in_seq in Hk. change (Z.to_nat Boot.frames) with 90%nat in Hk.
    apply boot_progress_range. unfold Boot.frames. lia.
  - reflexivity.
  - eexists. split; [reflexivity|]. split; [reflexivity|].
    split; [reflexivity | discriminate].
  - reflexivity.
  - reflexivity.
Qed.

(** C8. In the boot sequence, at progress [t = 0] (the first frame) the
    orbit radius is at its maximum, 80, every blob is placed at that radius
    around the centre (80, 60) and has size 0, the minimum. The sequence
    stops short of [t = 1]: its frames have [t = frame / 90 <= 89/90]. On
    the last frame the label is at its most intense, above 97 percent but
    below full intensity, drawn in (176, 97, 249); and the orbit radius,
    which only shrinks over the last phase (from frame 63, where it is 25),
    is at the smallest value of that phase, between 5.74 and 5.75. *)
Theorem boot_sequence_endpoints :
  forall (cos sin : Q -> Q) (pi : Q),
    (Boot.progress 0 == 0)%Q /\
    ((Boot.orbit_radius (Boot.phase 0) == 80)%Q /\
     forall t : Q, (0 <= t)%Q -> (Boot.orbit_radius (Boot.phase t) <= 80)%Q) /\
    ((Boot.blob_size (Boot.phase 0) == 0)%Q /\
     (forall t : Q, (0 <= t)%Q -> (0 <= Boot.blob_size (Boot.phase t))%Q) /\
     forall b, In b (Boot.blobs cos sin pi 0) ->
       Boot.current_size b = 0 /\
       exists theta R : Q,
         (R == 80)%Q /\
         Boot.bx b = Py.int (inject_Z 80 + cos theta * R) /\
         Boot.by_ b = Py.int (inject_Z 60 + sin theta * R)) /\
    (forall frame : Z,
        0 <= frame < Boot.frames ->
        (0 <= Boot.progress frame)%Q /\
        (Boot.progress frame <= Boot.progress 89)%Q /\
        (Boot.progress frame < 1)%Q) /\
    (exists alpha : Q,
        Boot.text_alpha (Boot.progress 89) = Some alpha /\
        (97 # 100 < alpha)%Q /\ (alpha < 1)%Q /\
        Boot.text_color alpha = (176, 97, 249) /\
        forall (frame : Z) (alpha' : Q),
          0 <= frame < Boot.frames ->
          Boot.text_alpha (Boot.progress frame) = Some alpha' ->
          (0 < alpha')%Q /\ (alpha' <= alpha)%Q) /\
    (((574 # 100 < Boot.orbit_radius (Boot.phase (Boot.progress 89)))%Q /\
      (Boot.orbit_radius (Boot.phase (Boot.progress 89)) < 575 # 100)%Q) /\
     (Boot.orbit_radius (Boot.phase (Boot.progress 63)) == 25)%Q /\
     forall frame frame' : Z,
       63 <= frame -> frame <= frame' -> frame' < Boot.frames ->
       (Boot.orbit_radius (Boot.phase (Boot.progress 89))
        <= Boot.orbit_radius (Boot.phase (Boot.progress frame')))%Q /\
       (Boot.orbit_radius (Boot.phase (Boot.progress frame'))
        <= Boot.orbit_radius (Boot.phase (Boot.progress frame)))%Q /\
       (Boot.orbit_radius (Boot.phase (Boot.progress frame)) <= 25)%Q).
Proof.
  intros cos sin pi.
  split; [reflexivity|].
  split; [split; [reflexivity | apply orbit_radius_max]|].
  split; [split; [reflexivity | split; [apply blob_size_min|]]|].
  { intros b Hb. unfold Boot.blobs in Hb. apply in_map_iff in Hb.
    destruct Hb as (i & <- & _). split.
    - cbn [Boot.blob Boot.current_size].
      apply int_of_integer.
      assert (E : (Boot.blob_size (Boot.phase 0) == 0)%Q) by reflexivity.
      rewrite E. unfold inject_Z. lra.
    - exists (0 * pi * 6 + i * pi * 2 / Boot.num_blobs)%Q,
             (Boot.orbit_radius (Boot.phase 0)).
      repeat split. }
  split; [exact boot_progress_range|].
  split.
  { eexists. split; [reflexivity|]. split; [reflexivity|]. split; [reflexivity|].
    split; [reflexivity|].
    intros frame alpha' F. destruct (boot_progress_range frame F) as (_ & T89 & _).
    unfold Boot.text_alpha. destruct (Py.gtb (Boot.progress frame) (5 # 10)) eqn:G;
      [|discriminate].
    apply gtb_true_iff in G. intros E. injection E as <-.
    set (t := Boot.progress frame) in *. set (t89 := Boot.progress 89) in *.
    q_consts. split; lra. }
  split; [split; reflexivity|]. split; [reflexivity|].
  intros frame frame' H63 Hle Hlt.
  assert (T63 : (7 # 10 <= Boot.progress frame)%Q).
  { pose proof (boot_progress_frame frame) as E.
    assert (Q1 : (63 # 1 <= inject_Z frame)%Q).
    { change (63 # 1)%Q with (inject_Z 63). now rewrite <- Zle_Qle. }
    lra. }
  pose proof (boot_progress_mono frame frame' Hle) as M1.
  assert (M2 : (Boot.progress frame' <= Boot.progress 89)%Q).
  { apply boot_progress_mono. unfold Boot.frames in Hlt. lia. }
  split; [|now apply orbit_radius_shrinks].
  apply (orbit_radius_shrinks (Boot.progress frame') (Boot.progress 89)); lra.
Qed.

Lemma boot_sequence_endpoints_witness :
  63 <= 70 /\ 70 <= 80 /\ 80 < Boot.frames /\
  (Boot.orbit_radius (Boot.phase (Boot.progress 80))
   <= Boot.orbit_radius (Boot.phase (Boot.progress 70)))%Q /\
  (Boot.orbit_radius (Boot.phase (Boot.progress 70)) <= 25)%Q.
Proof.
  assert (H1 : 63 <= 70) by lia.
  assert (H2 : 70 <= 80) by lia.
  assert (H3 : 80 < Boot.frames) by (unfold Boot.frames; lia).
  split; [exact H1|]. split; [exact H2|]. split; [exact H3|].
  exact (proj2
           (proj2 (proj2 (proj2 (proj2 (proj2 (proj2 (proj2
              (boot_sequence_endpoints (fun _ => 0%Q) (fun _ => 0%Q) 3)))))))
              70 80 H1 H2 H3)).
Defined.

(** ** The network series *)

(** C9, as stated, fails in docs/new-dashboard.py, whose poll appends the
    rate unscaled: after a first poll and a second one at which the byte
    counters sum to 102400, the series holds 200. *)
Lemma new_dashboard_network_unscaled :
  let series := NewDashboard.poll_ticks [Py.Ok (0, 0); Py.Ok (51200, 51200)]
                                        (Deque.new NewDashboard.HISTORY_SIZE) in
  exists v, In v (Deque.snapshot series) /\ (v == 200)%Q /\ ~ (v <= 100)%Q.
Proof.
  cbv zeta. exists (1024000 # 5120)%Q. split; [right; left; reflexivity|].
  split; [reflexivity|]. intros H. vm_compute in H. now apply H.
Qed.

Lemma scaled_rate_le_100 (rate : Q) : (Py.min 100 (rate / 10) <= 100)%Q.
Proof.
  unfold Py.min. destruct (Py.ltb (rate / 10) 100) eqn:E.
  - apply ltb_true_iff in E. lra.
  - lra.
Qed.

Lemma scaled_rate_nonneg (rate : Q) : (0 <= rate)%Q -> (0 <= Py.min 100 (rate / 10))%Q.
Proof.
  intros H. unfold Py.min. destruct (Py.ltb (rate / 10) 100).
  - unfold Qdiv. change (/ 10)%Q with (1 # 10)%Q. lra.
  - lra.
Qed.

(** one poll tick keeps a bound that holds of the series and of the newly
    scaled rate *)
Lemma update_histories_network (P : Q -> Prop) (stats : Stats) (h : Histories) :
  (forall v, In v (Deque.snapshot (network_history h)) -> P v) ->
  P (Py.min 100 (net_speed_kb stats / 10)) ->
  forall v, In v (Deque.snapshot (network_history (update_histories stats h))) -> P v.
Proof.
  intros Hh Hnew v Hv. cbn [update_histories network_history] in Hv.
  apply in_append in Hv. destruct Hv as [Hv| ->]; auto.
Qed.

Lemma poll_ticks_network (P : Q -> Prop) (samples : list Stats) :
  (forall s, In s samples -> P (Py.min 100 (net_speed_kb s / 10))) ->
  forall h : Histories,
    (forall v, In v (Deque.snapshot (network_history h)) -> P v) ->
    forall v, In v (Deque.snapshot (network_history (poll_ticks samples h))) -> P v.
Proof.
  unfold poll_ticks.
  induction samples as [|s samples IH]; intros Hs h Hh; [exact Hh|].
  cbn [fold_left]. apply IH.
  - intros s' Hs'. apply Hs. now right.
  - apply update_histories_network; [exact Hh|]. apply Hs. now left.
Qed.

(** C9, amended. In the masterpiece and redesigned dashboards every poll
    tick appends [min(100, rate / 10)] to the network series, so every value
    of the series is at most 100, and at least 0 as long as the sampled
    rates are not negative: after every poll tick the series lies in
    [0, 100]. *)
Theorem network_series_in_chart_domain :
  forall (samples : list Stats) (v : Q),
    In v (Deque.snapshot (network_history (poll_ticks samples initial_histories))) ->
    (v <= 100)%Q /\
    ((forall s, In s samples -> (0 <= net_speed_kb s)%Q) -> (0 <= v)%Q) /\
    forall (s : Stats) (series : Deque.t Q),
      (forall u, In u (Deque.snapshot series) -> (0 <= u <= 100)%Q) ->
      (0 <= net_speed_kb s)%Q ->
      forall u, In u (Deque.snapshot (Redesigned.update_network s series)) ->
                (0 <= u <= 100)%Q.
Proof.
  intros samples v Hv. split; [|split].
  - revert v Hv. apply (poll_ticks_network (fun v => v <= 100)%Q).
    + intros s _. apply scaled_rate_le_100.
    + intros v [].
  - intros Hs. revert v Hv. apply (poll_ticks_network (fun v => 0 <= v)%Q).
    + intros s Hin. apply scaled_rate_nonneg, Hs, Hin.
    + intros v [].
  - intros s series Hseries Hs u Hu. unfold Redesigned.update_network in Hu.
    apply in_append in Hu. destruct Hu as [Hu| ->]; [now apply Hseries|].
    split; [now apply scaled_rate_nonneg | apply scaled_rate_le_100].
Qed.

Lemma network_series_in_chart_domain_witness :
  let samples := [Sample.stats 2000; Sample.stats 50] in
  In (Py.min 100 (50 / 10))
     (Deque.snapshot (network_history (poll_ticks samples initial_histories))) /\
  (forall s, In s samples -> (0 <= net_speed_kb s)%Q) /\
  (0 <= Py.min 100 (50 / 10))%Q.
Proof.
  intros samples.
  assert (Hin : In (Py.min 100 (50 / 10))
                   (Deque.snapshot (network_history (poll_ticks samples initial_histories))))
    by (right; left; reflexivity).
  assert (Hs : forall s, In s samples -> (0 <= net_speed_kb s)%Q).
  { intros s [<-|[<-|[]]]; vm_compute; discriminate. }
  split; [exact Hin|]. split; [exact Hs|].
  exact (proj1 (proj2 (network_series_in_chart_domain samples _ Hin)) Hs).
Defined.

(** The cap is an upper one only: a negative rate (the byte counters went
    back between two samples) is stored as it is. *)
Example network_series_negative_rate :
  Deque.snapshot (network_history (poll_ticks [Sample.stats (-30)] initial_histories))
  = [Py.min 100 (-30 / 10)] /\
  (Py.min 100 (-30 / 10) == -3)%Q.
Proof. split; reflexivity. Qed.

(** ** Frame composition *)



Section FrameFacts.
Variable Font : Type.
Variable getbbox : Font -> string -> Z * Z * Z * Z.
Variable format_float : nat -> Q -> string.
Variable sin : Q -> Q.





(** the drives and stats screens ignore the animation phase *)
Lemma phase_ignored (w : World) (ui : UIState) (fonts : Fonts Font)
(stats : Stats) (drives : list USBDrive) (phase phase' : Q) :
draw_drives_screen Font getbbox format_float w ui fonts drives phase
= draw_drives_screen Font getbbox format_float w ui fonts drives phase' /\
draw_stats_screen Font format_float ui fonts stats phase
= draw_stats_screen Font format_float ui fonts stats phase'.
Proof. split; reflexivity. Qed.
End FrameFacts.



(* ================================================================== *)
(** * Further properties of the code *)

(** ** Calibration *)

Lemma clamp_range (hi v : Z) : 0 <= hi -> 0 <= Py.maxZ 0 (Py.minZ hi v) <= hi.
Proof.
  intros H. unfold Py.maxZ, Py.minZ.
  destruct (v <? hi) eqn:E1; [apply Z.ltb_lt in E1 | apply Z.ltb_ge in E1].
  - destruct (v >? 0) eqn:E2; rewrite Z.gtb_ltb in E2;
      [apply Z.ltb_lt in E2 | apply Z.ltb_ge in E2]; lia.
  - destruct (hi >? 0) eqn:E2; rewrite Z.gtb_ltb in E2;
      [apply Z.ltb_lt in E2 | apply Z.ltb_ge in E2]; lia.
Qed.

Lemma clamp_value (hi v : Z) :
  0 <= hi -> Py.maxZ 0 (Py.minZ hi v) = Z.max 0 (Z.min hi v).
Proof.
  intros H. unfold Py.maxZ, Py.minZ.
  destruct (v <? hi) eqn:E1; [apply Z.ltb_lt in E1 | apply Z.ltb_ge in E1].
  - destruct (v >? 0) eqn:E2; rewrite Z.gtb_ltb in E2;
      [apply Z.ltb_lt in E2 | apply Z.ltb_ge in E2]; lia.
  - destruct (hi >? 0) eqn:E2; rewrite Z.gtb_ltb in E2;
      [apply Z.ltb_lt in E2 | apply Z.ltb_ge in E2]; lia.
Qed.

(** X1. Whatever the sensor reports and whichever driver is in use, a point
    returned by [map_touch] lies on the screen: [0 <= x <= WIDTH - 1] and
    [0 <= y <= HEIGHT - 1]. *)
Theorem map_touch_on_screen :
  forall (touch : TouchDevice) (driver : option string) (x y : Z),
    map_touch touch driver = Some (x, y) ->
    0 <= x <= WIDTH - 1 /\ 0 <= y <= HEIGHT - 1.
Proof.
  intros touch driver x y H.
  assert (Hc : forall a b, Some (Py.maxZ 0 (Py.minZ (WIDTH - 1) a),
                                 Py.maxZ 0 (Py.minZ (HEIGHT - 1) b)) = Some (x, y) ->
                           0 <= x <= WIDTH - 1 /\ 0 <= y <= HEIGHT - 1).
  { intros a b E. injection E as <- <-.
    split; apply clamp_range; unfold WIDTH, HEIGHT; lia. }
  destruct (driver_is driver "STMPE610") eqn:E1.
  { apply driver_is_true in E1; subst driver. rewrite map_touch_stmpe610 in H.
    destruct (touched touch) as [[|]|]; try discriminate.
    destruct (read_data touch) as [[|a [|b [|c [|? ?]]]]|]; try discriminate.
    cbv zeta in H. eapply Hc, H. }
  destruct (driver_is driver "XPT2046") eqn:E2.
  { apply driver_is_true in E2; subst driver. rewrite map_touch_xpt2046 in H.
    destruct (touch_point touch 0%nat) as [p|]; try discriminate.
    destruct (truthy p); try discriminate.
    destruct (touch_point touch 1%nat) as [[[|a [|b [|? ?]]]|]|]; try discriminate.
    cbv zeta in H. eapply Hc, H. }
  apply driver_is_false in E1, E2.
  unfold map_touch in H. rewrite (map_touch_body_other _ _ E1 E2) in H. discriminate.
Qed.

Lemma map_touch_on_screen_witness :
  let touch := {| touched := Py.Ok true;
                  read_data := Py.Ok [100%Q; 9000%Q; 1%Q];
                  touch_point := fun _ => Py.Ok None |} in
  map_touch touch (Some "STMPE610"%string) = Some (319, 239) /\
  0 <= 319 <= WIDTH - 1 /\ 0 <= 239 <= HEIGHT - 1.
Proof.
  intros touch.
  assert (H : map_touch touch (Some "STMPE610"%string) = Some (319, 239)) by reflexivity.
  split; [exact H|].
  exact (map_touch_on_screen touch (Some "STMPE610"%string) 319 239 H).
Defined.

Lemma int_mono_nonneg (a b : Q) : (0 <= a)%Q -> (a <= b)%Q -> Py.int a <= Py.int b.
Proof.
  intros Ha Hab. rewrite (int_nonneg_floor a Ha), (int_nonneg_floor b) by lra.
  now apply Qfloor_resp_le.
Qed.

Lemma norm_low (v : Q) : (v <= 0)%Q -> Py.max 0 (Py.min 1 v) = 0%Q.
Proof.
  intros H. unfold Py.max, Py.min.
  assert (E : Py.ltb v 1 = true) by (apply ltb_true_iff; lra). rewrite E.
  assert (E' : Py.gtb v 0 = false) by (now apply gtb_false_iff). now rewrite E'.
Qed.

Lemma norm_high (v : Q) : (1 <= v)%Q -> Py.max 0 (Py.min 1 v) = 1%Q.
Proof.
  intros H. unfold Py.max, Py.min.
  assert (E : Py.ltb v 1 = false) by (now apply ltb_false_iff). rewrite E.
  reflexivity.
Qed.

Lemma norm_range (v : Q) : (0 <= Py.max 0 (Py.min 1 v) <= 1)%Q.
Proof.
  unfold Py.max, Py.min.
  destruct (Py.ltb v 1) eqn:E1.
  - apply ltb_true_iff in E1. destruct (Py.gtb v 0) eqn:E2.
    + apply gtb_true_iff in E2. lra.
    + lra.
  - change (Py.gtb 1 0) with true. cbv iota. lra.
Qed.

Lemma norm_mono (v v' : Q) :
  (v <= v')%Q -> (Py.max 0 (Py.min 1 v) <= Py.max 0 (Py.min 1 v'))%Q.
Proof.
  intros H.
  destruct (Qlt_le_dec v 0) as [L|L].
  { rewrite (norm_low v) by lra. apply norm_range. }
  destruct (Qlt_le_dec v' 1) as [U|U].
  - unfold Py.max, Py.min.
    assert (E1 : Py.ltb v 1 = true) by (apply ltb_true_iff; lra).
    assert (E2 : Py.ltb v' 1 = true) by (now apply ltb_true_iff).
    rewrite E1, E2.
    destruct (Py.gtb v 0) eqn:G1; destruct (Py.gtb v' 0) eqn:G2;
      try apply gtb_true_iff in G1; try apply gtb_true_iff in G2;
      try apply gtb_false_iff in G1; try apply gtb_false_iff in G2; lra.
  - rewrite (norm_high v' U). apply norm_range.
Qed.

Lemma clamp_mono (hi a b : Z) :
  0 <= hi -> a <= b -> Py.maxZ 0 (Py.minZ hi a) <= Py.maxZ 0 (Py.minZ hi b).
Proof. intros H Hab. rewrite !clamp_value by exact H. lia. Qed.

Section Axes.
Variables lo hi : Z.
Hypothesis lo_lt_hi : lo < hi.

Lemma span_pos : (0 < inject_Z hi - inject_Z lo)%Q.
Proof.
assert (H : (inject_Z lo < inject_Z hi)%Q) by (now rewrite <- Zlt_Qlt). lra.
Qed.

Lemma ratio_low (v : Q) : (v <= lo)%Q -> ((v - lo) / (hi - lo) <= 0)%Q.
Proof.
intros H. pose proof span_pos as S.
apply Qle_shift_div_r; [exact S | lra].
Qed.

Lemma ratio_high (v : Q) : (hi <= v)%Q -> (1 <= (v - lo) / (hi - lo))%Q.
Proof.
intros H. pose proof span_pos as S.
apply Qle_shift_div_l; [exact S | lra].
Qed.

Lemma ratio_mono (v v' : Q) :
(v <= v')%Q -> ((v - lo) / (hi - lo) <= (v' - lo) / (hi - lo))%Q.
Proof.
intros H. pose proof span_pos as S. unfold Qdiv.
apply Qmult_le_compat_r; [lra|]. apply Qlt_le_weak, Qinv_lt_0_compat, S.
Qed.

Lemma column_facts (y_raw y_raw' : Q) :
((y_raw <= lo)%Q -> touch_column lo hi y_raw = 0) /\
((hi <= y_raw)%Q -> touch_column lo hi y_raw = WIDTH - 1) /\
((y_raw <= y_raw')%Q -> touch_column lo hi y_raw <= touch_column lo hi y_raw').
Proof.
unfold touch_column. split; [|split].
- intros H. now rewrite (norm_low _ (ratio_low _ H)).
- intros H. now rewrite (norm_high _ (ratio_high _ H)).
- intros H. apply clamp_mono; [unfold WIDTH; lia|].
  pose proof (norm_range ((y_raw - lo) / (hi - lo))) as R.
  pose proof (norm_mono _ _ (ratio_mono _ _ H)) as M.
  apply int_mono_nonneg.
  + apply Qmult_le_0_compat; [lra | unfold WIDTH; vm_compute; discriminate].
  + apply Qmult_le_compat_r; [exact M | unfold WIDTH; vm_compute; discriminate].
Qed.

Lemma row_facts (x_raw x_raw' : Q) :
((x_raw <= lo)%Q -> touch_row lo hi x_raw = HEIGHT - 1) /\
((hi <= x_raw)%Q -> touch_row lo hi x_raw = 0) /\
((x_raw <= x_raw')%Q -> touch_row lo hi x_raw' <= touch_row lo hi x_raw).
Proof.
unfold touch_row. split; [|split].
- intros H. now rewrite (norm_low _ (ratio_low _ H)).
- intros H. now rewrite (norm_high _ (ratio_high _ H)).
- intros H. apply clamp_mono; [unfold HEIGHT; lia|].
  pose proof (norm_range ((x_raw' - lo) / (hi - lo))) as R.
  pose proof (norm_mono _ _ (ratio_mono _ _ H)) as M.
  apply int_mono_nonneg.
  + apply Qmult_le_0_compat; [lra | unfold HEIGHT; vm_compute; discriminate].
  + apply Qmult_le_compat_r; [lra | unfold HEIGHT; vm_compute; discriminate].
Qed.
End Axes.

(** a pressed panel always yields a point, the column computed from
    [y_raw] alone and the row from [x_raw] alone *)
Lemma map_touch_pressed (x_raw y_raw z : Q) :
  map_touch (stmpe610_reading x_raw y_raw z) (Some "STMPE610"%string)
  = Some (touch_column 200 3800 y_raw, touch_row 200 3800 x_raw) /\
  map_touch (xpt2046_reading x_raw y_raw) (Some "XPT2046"%string)
  = Some (touch_column 300 3800 y_raw, touch_row 300 3800 x_raw).
Proof. split; reflexivity. Qed.

(** X2. Calibration saturates at the bounds of the calibration range and
    maps its corners to screen corners: a raw [y] at or below the minimum
    gives column 0, at or above the maximum column [WIDTH - 1]; a raw [x] at
    or below the minimum gives row [HEIGHT - 1], at or above the maximum row
    0 (the axes are swapped and the row inverted). So the raw corner
    (MIN, MIN) is the screen corner (0, HEIGHT - 1) and (MAX, MAX) is
    (WIDTH - 1, 0), under both driver profiles. *)
Theorem calibration_saturates_at_bounds :
  forall x_raw y_raw z : Q,
    (((y_raw <= 200)%Q ->
      exists row, map_touch (stmpe610_reading x_raw y_raw z) (Some "STMPE610"%string)
                  = Some (0, row)) /\
     ((3800 <= y_raw)%Q ->
      exists row, map_touch (stmpe610_reading x_raw y_raw z) (Some "STMPE610"%string)
                  = Some (WIDTH - 1, row)) /\
     ((x_raw <= 200)%Q ->
      exists col, map_touch (stmpe610_reading x_raw y_raw z) (Some "STMPE610"%string)
                  = Some (col, HEIGHT - 1)) /\
     ((3800 <= x_raw)%Q ->
      exists col, map_touch (stmpe610_reading x_raw y_raw z) (Some "STMPE610"%string)
                  = Some (col, 0))) /\
    (((y_raw <= 300)%Q ->
      exists row, map_touch (xpt2046_reading x_raw y_raw) (Some "XPT2046"%string)
                  = Some (0, row)) /\
     ((3800 <= y_raw)%Q ->
      exists row, map_touch (xpt2046_reading x_raw y_raw) (Some "XPT2046"%string)
                  = Some (WIDTH - 1, row)) /\
     ((x_raw <= 300)%Q ->
      exists col, map_touch (xpt2046_reading x_raw y_raw) (Some "XPT2046"%string)
                  = Some (col, HEIGHT - 1)) /\
     ((3800 <= x_raw)%Q ->
      exists col, map_touch (xpt2046_reading x_raw y_raw) (Some "XPT2046"%string)
                  = Some (col, 0))) /\
    map_touch (stmpe610_reading 200 200 z) (Some "STMPE610"%string)
    = Some (0, HEIGHT - 1) /\
    map_touch (stmpe610_reading 3800 3800 z) (Some "STMPE610"%string)
    = Some (WIDTH - 1, 0).
Proof.
  intros x_raw y_raw z.
  destruct (map_touch_pressed x_raw y_raw z) as [Es Ex]. rewrite Es, Ex.
  assert (L2 : 200 < 3800) by lia. assert (L3 : 300 < 3800) by lia.
  pose proof (column_facts 200 3800 L2 y_raw y_raw) as (C1 & C2 & _).
  pose proof (row_facts 200 3800 L2 x_raw x_raw) as (R1 & R2 & _).
  pose proof (column_facts 300 3800 L3 y_raw y_raw) as (C1' & C2' & _).
  pose proof (row_facts 300 3800 L3 x_raw x_raw) as (R1' & R2' & _).
  repeat split; try reflexivity; intros H; eexists;
    repeat f_equal; auto.
Qed.

Lemma calibration_saturates_at_bounds_witness :
  (150 <= 200)%Q /\
  exists row, map_touch (stmpe610_reading 1000 150 9) (Some "STMPE610"%string)
              = Some (0, row).
Proof.
  assert (H : (150 <= 200)%Q) by (vm_compute; discriminate).
  split; [exact H|].
  exact (proj1 (proj1 (calibration_saturates_at_bounds 1000 150 9)) H).
Defined.

(** X3. The axes are swapped and monotone: the screen column depends on the
    raw [y] only and never decreases when raw [y] grows; the screen row
    depends on the raw [x] only and never increases when raw [x] grows; the
    pressure reading plays no part. *)
Theorem calibration_axes_monotone :
  forall (x_raw y_raw z x_raw' y_raw' z' : Q) (col row col' row' : Z),
    map_touch (stmpe610_reading x_raw y_raw z) (Some "STMPE610"%string)
    = Some (col, row) ->
    map_touch (stmpe610_reading x_raw' y_raw' z') (Some "STMPE610"%string)
    = Some (col', row') ->
    (y_raw = y_raw' -> col = col') /\
    (x_raw = x_raw' -> row = row') /\
    ((y_raw <= y_raw')%Q -> col <= col') /\
    ((x_raw <= x_raw')%Q -> row' <= row).
Proof.
  intros x_raw y_raw z x_raw' y_raw' z' col row col' row' H H'.
  rewrite (proj1 (map_touch_pressed x_raw y_raw z)) in H.
  rewrite (proj1 (map_touch_pressed x_raw' y_raw' z')) in H'.
  injection H as <- <-. injection H' as <- <-.
  assert (L2 : 200 < 3800) by lia.
  split; [now intros ->|]. split; [now intros ->|]. split.
  - apply (column_facts 200 3800 L2 y_raw y_raw').
  - apply (row_facts 200 3800 L2 x_raw x_raw').
Qed.

Lemma calibration_axes_monotone_witness :
  (1000 <= 2000)%Q /\
  map_touch (stmpe610_reading 500 1000 1) (Some "STMPE610"%string) = Some (71, 220) /\
  map_touch (stmpe610_reading 3000 2000 7) (Some "STMPE610"%string) = Some (160, 53) /\
  71 <= 160.
Proof.
  assert (H : (1000 <= 2000)%Q) by (vm_compute; discriminate).
  assert (E : map_touch (stmpe610_reading 500 1000 1) (Some "STMPE610"%string)
              = Some (71, 220)) by reflexivity.
  assert (E' : map_touch (stmpe610_reading 3000 2000 7) (Some "STMPE610"%string)
               = Some (160, 53)) by reflexivity.
  split; [exact H|]. split; [exact E|]. split; [exact E'|].
  exact (proj1 (proj2 (proj2 (calibration_axes_monotone _ _ _ _ _ _ _ _ _ _ E E'))) H).
Defined.

(** ** Navigation state *)

Lemma handle_touch_keeps {D} (t : Q) (x y : Z) (drives : list D) (s : UIState) :
  screen_in_range s ->
  let s' := handle_touch t x y drives s in
  screen_in_range s' /\
  max_screens s' = max_screens s /\
  touch_debounce s' = touch_debounce s /\
  animation_phase s' = animation_phase s /\
  (last_touch_time s' = last_touch_time s \/ last_touch_time s' = t).
Proof.
  intros R s'. subst s'. unfold handle_touch, screen_in_range in *.
  destruct (Py.ltb _ _); cbn [current_screen max_screens touch_debounce
                                animation_phase last_touch_time].
  - repeat split; try tauto; now left.
  - repeat split; try (apply Z.mod_pos_bound; lia); now right.
Qed.

(** X4. Whatever touches arrive and whenever, the touch handler keeps the
    screen index within [0 .. max_screens - 1] (so the dispatch in the main
    loop always finds its screen), never changes [max_screens],
    [touch_debounce] or the animation phase, and leaves [last_touch_time]
    either as it was or at the time of one of the touches. *)
Theorem touch_handler_invariants :
  forall (D : Type) (events : list (Q * Z * Z)) (drives : list D) (s : UIState),
    screen_in_range s ->
    let s' := handle_touches events drives s in
    screen_in_range s' /\
    max_screens s' = max_screens s /\
    touch_debounce s' = touch_debounce s /\
    animation_phase s' = animation_phase s /\
    (last_touch_time s' = last_touch_time s \/
     exists x y, In (last_touch_time s', x, y) events).
Proof.
  intros D events drives.
  induction events as [|[[t x] y] rest IH]; intros s R; cbn [handle_touches].
  - repeat split; try apply R. now left.
  - destruct (handle_touch_keeps t x y drives s R) as (R1 & M1 & B1 & A1 & L1).
    destruct (IH _ R1) as (R2 & M2 & B2 & A2 & L2).
    cbv zeta. repeat split; try apply R2; try congruence.
    destruct L2 as [L2|(x' & y' & L2)].
    + rewrite L2. destruct L1 as [L1|L1].
      * now left.
      * right. exists x, y. rewrite L1. now left.
    + right. exists x', y'. now right.
Qed.

Lemma touch_handler_invariants_witness :
  screen_in_range initial_ui /\
  screen_in_range
    (handle_touches (D := unit) [(1%Q, 10, 10); ((11 # 10)%Q, 5, 5); (2%Q, 300, 200)] []
                    initial_ui).
Proof.
  assert (H : screen_in_range initial_ui) by (unfold screen_in_range; cbn; lia).
  split; [exact H|].
  exact (proj1 (touch_handler_invariants unit
                  [(1%Q, 10, 10); ((11 # 10)%Q, 5, 5); (2%Q, 300, 200)] [] initial_ui H)).
Defined.

Lemma mod_shift (c r m : Z) :
  0 <= c < m -> 0 <= r < m -> ((c + r) mod m = c <-> r = 0).
Proof.
  intros Hc Hr. destruct (Z_lt_le_dec (c + r) m) as [L|L].
  - rewrite Z.mod_small by lia. lia.
  - replace (c + r) with (c + r - m + 1 * m) by lia.
    rewrite Z.mod_add by lia. rewrite Z.mod_small by lia. lia.
Qed.

Lemma well_spaced_firstn (times : list Q) :
  forall (m : nat) (last debounce : Q),
    well_spaced last debounce times -> well_spaced last debounce (firstn m times).
Proof.
  induction times as [|t rest IH]; intros m last debounce H.
  - now rewrite firstn_nil.
  - destruct m as [|m]; [exact I|]. cbn [firstn well_spaced] in *.
    destruct H as [H1 H2]. split; [exact H1 | now apply IH].
Qed.

(** the screen after a run of accepted touches *)
Lemma touches_screen (s : UIState) (times : list Q) :
  screen_in_range s ->
  well_spaced (last_touch_time s) (touch_debounce s) times ->
  current_screen (touches times s)
  = (current_screen s + Z.of_nat (length times)) mod max_screens s.
Proof.
  intros R W. destruct (touches_advance times s W) as [E| ->]; [exact E|].
  cbn [touches length]. unfold screen_in_range in R.
  rewrite Z.add_0_r. symmetry. now apply Z.mod_small.
Qed.

(** X5. Navigation is a cycle of length [max_screens]. From any screen in
    range, [n] accepted touches lead to screen [(current + n) mod
    max_screens]: back to the same screen exactly when [n] is a multiple of
    [max_screens], so after [max_screens] touches and after no smaller
    positive number of them; and every screen is shown on the way: in a
    run of at least [max_screens - 1] accepted touches each screen index
    is the screen after some initial part of the run. *)
Theorem navigation_full_cycle :
  forall (s : UIState) (times : list Q),
    screen_in_range s ->
    well_spaced (last_touch_time s) (touch_debounce s) times ->
    let n := Z.of_nat (length times) in
    let after (k : nat) := current_screen (touches (firstn k times) s) in
    current_screen (touches times s) = (current_screen s + n) mod max_screens s /\
    (current_screen (touches times s) = current_screen s <-> n mod max_screens s = 0) /\
    (n = max_screens s -> current_screen (touches times s) = current_screen s) /\
    (0 < n < max_screens s -> current_screen (touches times s) <> current_screen s) /\
    (max_screens s - 1 <= n ->
     forall screen : Z, 0 <= screen < max_screens s ->
       exists k : nat, (k <= length times)%nat /\ after k = screen).
Proof.
  intros s times R W n after. subst n after.
  pose proof R as R'. unfold screen_in_range in R'.
  assert (E := touches_screen s times R W).
  assert (Iff : current_screen (touches times s) = current_screen s
                <-> Z.of_nat (length times) mod max_screens s = 0).
  { rewrite E, <- Zplus_mod_idemp_r.
    apply mod_shift; [exact R' | apply Z.mod_pos_bound; lia]. }
  split; [exact E|]. split; [exact Iff|]. split; [|split].
  - intros L. apply Iff. rewrite L. apply Z.mod_same. lia.
  - intros L H. apply Iff in H. rewrite Z.mod_small in H by lia. lia.
  - intros L screen Hs.
    set (k := Z.to_nat ((screen - current_screen s) mod max_screens s)).
    assert (Hk : 0 <= (screen - current_screen s) mod max_screens s < max_screens s)
      by (apply Z.mod_pos_bound; lia).
    assert (Kn : (k <= length times)%nat) by (subst k; lia).
    exists k. split; [exact Kn|].
    rewrite (touches_screen s (firstn k times) R (well_spaced_firstn _ _ _ _ W)).
    rewrite length_firstn, Nat.min_l by exact Kn.
    subst k. rewrite Z2Nat.id by lia.
    rewrite Zplus_mod_idemp_r.
    replace (current_screen s + (screen - current_screen s)) with screen by lia.
    now apply Z.mod_small.
Qed.

Lemma navigation_full_cycle_witness :
  let s := handle_touch (D := unit) 1 0 0 [] initial_ui in
  current_screen s = 1 /\
  current_screen (touches [2; 3; 4]%Q s) = 1 /\
  current_screen (touches [2]%Q s) = 2 /\
  current_screen (touches [2; 3]%Q s) = 0.
Proof.
  intros s. split; [reflexivity|].
  assert (R : screen_in_range s) by (unfold screen_in_range; cbn; lia).
  assert (W : well_spaced (last_touch_time s) (touch_debounce s) [2; 3; 4]%Q).
  { cbn. repeat split; vm_compute; discriminate. }
  split; [|split; reflexivity].
  exact (proj1 (proj2 (proj2 (navigation_full_cycle s [2; 3; 4]%Q R W))) eq_refl).
Defined.

(** ** Drawing primitives *)

Lemma ibox_ok (x0 y0 x1 y1 : Z) : x0 <= x1 -> y0 <= y1 -> box_ok (ibox x0 y0 x1 y1).
Proof. intros H1 H2. unfold box_ok, ibox. now rewrite <- !Zle_Qle. Qed.

Lemma ipt_inside (a b c d x y : Z) :
  a <= x <= c -> b <= y <= d -> point_inside (ibox a b c d) (ipt x y).
Proof.
  intros H1 H2. unfold point_inside, ibox, ipt. rewrite <- !Zle_Qle. lia.
Qed.

Lemma ibox_inside (a b c d x0 y0 x1 y1 : Z) :
  a <= x0 <= c -> b <= y0 <= d -> a <= x1 <= c -> b <= y1 <= d ->
  box_inside (ibox a b c d) (ibox x0 y0 x1 y1).
Proof.
  intros. unfold box_inside. change (ibox x0 y0 x1 y1)
    with (inject_Z x0, inject_Z y0, inject_Z x1, inject_Z y1).
  split; [apply (ipt_inside a b c d x0 y0) | apply (ipt_inside a b c d x1 y1)];
    assumption.
Qed.

(** one goal per draw call of a literal list, and per point of its lines *)
Ltac each_call :=
  repeat first [apply Forall_nil | apply Forall_cons]; cbn [call_inside];
  repeat first [apply Forall_nil | apply Forall_cons].

(** X6. [draw_rounded_rect] clamps the radius so that, for a width, height
    and radius that are not negative, every box it draws is well formed
    (never inverted) and every box and line stays inside the rectangle
    [(x, y) .. (x + width, y + height)], however large the radius asked
    for. *)
Theorem rounded_rect_stays_inside :
  forall (Font : Type) (x y width height radius : Z) (fill : Color)
         (outline : option Color) (width_outline : Z),
    0 <= width -> 0 <= height -> 0 <= radius ->
    Forall (call_inside (ibox x y (x + width) (y + height)))
           (draw_rounded_rect Font x y width height radius fill outline width_outline).
Proof.
  intros Font x y width height radius fill outline width_outline Hw Hh Hr.
  unfold draw_rounded_rect.
  set (r := Z.min (Z.min radius (width / 2)) (height / 2)).
  assert (Hr0 : 0 <= r /\ 2 * r <= width /\ 2 * r <= height).
  { subst r. pose proof (Z.div_mod width 2 ltac:(lia)).
    pose proof (Z.mod_pos_bound width 2 ltac:(lia)).
    pose proof (Z.div_mod height 2 ltac:(lia)).
    pose proof (Z.mod_pos_bound height 2 ltac:(lia)). lia. }
  destruct Hr0 as (R0 & Rw & Rh).
  assert (B : forall x0 y0 x1 y1,
             x <= x0 <= x1 -> x1 <= x + width -> y <= y0 <= y1 -> y1 <= y + height ->
             box_ok (ibox x0 y0 x1 y1) /\
             box_inside (ibox x y (x + width) (y + height)) (ibox x0 y0 x1 y1)).
  { intros. split; [apply ibox_ok | apply ibox_inside]; lia. }
  assert (P : forall px py, x <= px <= x + width -> y <= py <= y + height ->
                            point_inside (ibox x y (x + width) (y + height)) (ipt px py)).
  { intros. now apply ipt_inside. }
  repeat (apply Forall_app; split).
  - destruct (width >? r * 2); each_call; apply B; lia.
  - destruct (height >? r * 2); each_call; apply B; lia.
  - destruct (r >? 0); each_call; apply B; lia.
  - destruct outline as [o|]; each_call; first [apply B; lia | apply P; lia].
Qed.

Lemma rounded_rect_stays_inside_witness :
  0 <= 10 /\ 0 <= 3 /\ 0 <= 8 /\
  Forall (call_inside (ibox 140 235 150 238))
         (draw_rounded_rect unit 140 235 10 3 8 TEXT_PRIMARY (Some TEXT_MUTED) 1).
Proof.
  split; [lia|]. split; [lia|]. split; [lia|].
  exact (rounded_rect_stays_inside unit 140 235 10 3 8 TEXT_PRIMARY (Some TEXT_MUTED) 1
           ltac:(lia) ltac:(lia) ltac:(lia)).
Defined.

Lemma nth_error_combine_seq {A} (l : list A) :
  forall (s k : nat) (v : A),
    nth_error l k = Some v ->
    nth_error (combine (map Z.of_nat (seq s (length l))) l) k
    = Some (Z.of_nat (s + k), v).
Proof.
  induction l as [|a l IH]; intros s k v H; [now destruct k|].
  destruct k as [|k]; cbn in *.
  - injection H as ->. now rewrite Nat.add_0_r.
  - rewrite (IH (S s) k v H). do 3 f_equal. lia.
Qed.

Lemma nth_error_enumerate {A} (l : list A) (k : nat) (v : A) :
  nth_error l k = Some v -> nth_error (enumerate l) k = Some (Z.of_nat k, v).
Proof.
  intros H. unfold enumerate, range. rewrite Nat2Z.id.
  apply (nth_error_combine_seq l 0 k v H).
Qed.

Lemma length_enumerate {A} (l : list A) : length (enumerate l) = length l.
Proof.
  unfold enumerate, range. rewrite Nat2Z.id, length_combine, length_map, length_seq.
  apply Nat.min_id.
Qed.

(** the point of the sparkline for the sample at index [k] *)
Lemma sparkline_point_at (x y width height : Z) (data : list Q) (k : nat) (v : Q) :
  nth_error data k = Some v ->
  nth_error (sparkline_points x y width height data) k
  = Some ((x + Z.of_nat k * (width / (Z.of_nat (length data) - 1)%Z))%Q,
          (y + height - v / 100 * height)%Q).
Proof.
  intros H. unfold sparkline_points. cbv zeta.
  rewrite nth_error_map, (nth_error_enumerate data k v H). reflexivity.
Qed.

Lemma segments_nth {A} (l : list A) :
  forall (k : nat) (a b : A),
    nth_error l k = Some a -> nth_error l (S k) = Some b -> In (a, b) (segments l).
Proof.
  induction l as [|x l IH]; intros k a b Ha Hb; [now destruct k|].
  destruct l as [|y l]; [destruct k as [|[|k]]; discriminate|].
  destruct k as [|k].
  - cbn in Ha, Hb. injection Ha as <-. injection Hb as <-. now left.
  - right. apply (IH k a b); assumption.
Qed.

Lemma length_segments {A} (l : list A) : length (segments l) = (length l - 1)%nat.
Proof.
  induction l as [|x l IH]; [reflexivity|].
  destruct l as [|y l]; [reflexivity|].
  change (segments (x :: y :: l)) with ((x, y) :: segments (y :: l)).
  cbn [length] in *. rewrite IH. lia.
Qed.

Lemma rev_head_last {A} (l : list A) (p : A) :
  nth_error l (length l - 1) = Some p -> exists rest, rev l = p :: rest.
Proof.
  intros H. destruct (rev l) as [|q rest] eqn:E.
  - apply (f_equal (@length A)) in E. rewrite length_rev in E.
    destruct l; [discriminate | discriminate].
  - exists rest. f_equal.
    assert (L : l = rev rest ++ [q]).
    { rewrite <- (rev_involutive l), E. reflexivity. }
    rewrite L in H. rewrite length_app, nth_error_app2 in H by (cbn; lia).
    cbn [length] in H.
    replace (length (rev rest) + 1 - 1 - length (rev rest))%nat with 0%nat in H by lia.
    cbn in H. congruence.
Qed.

(** X7. A sparkline over fewer than two samples draws nothing. Over
    [n >= 2] samples it has one point per sample and draws from those
    points: a line of width 2 between every two neighbouring points (and
    under it one of width 3 in the glow colour, if one is given), the
    filled polygon through all the points down to the base line (if asked
    for) in the colour dimmed to three tenths, and a dot of radius 2 on the
    last point, [2 (n - 1) + 2] draw calls when all are made. The points
    are evenly spaced from the left edge: the first is at [x], the point of
    sample [k] within a pixel of [x + k * width / (n - 1)], so the last
    within a pixel of the right edge. A sample of 0 lies on the base line
    [y + height], one of 100 on the top line [y], and every sample in
    [0, 100] between the two. *)
Theorem sparkline_geometry :
  forall (Font : Type) (x y width height : Z) (data : list Q) (color : Color)
         (glow_color : option Color4) (fill : bool),
    let drawn := draw_sparkline Font x y width height data color glow_color fill in
    let points := sparkline_points x y width height data in
    let n := Z.of_nat (length data) in
    ((length data < 2)%nat -> drawn = []) /\
    ((2 <= length data)%nat ->
     length points = length data /\
     (forall (k : nat) (p q : Point),
         nth_error points k = Some p -> nth_error points (S k) = Some q ->
         In (Line [p; q] color 2) drawn /\
         (forall glow, glow_color = Some glow -> In (Line [p; q] (rgb_of glow) 3) drawn)) /\
     (fill = true ->
      In (Polygon ([ipt x (y + height)] ++ points ++ [ipt (x + width) (y + height)])
                  (scale_color (3 # 10) color)) drawn) /\
     (forall px py : Q,
         nth_error points (length data - 1) = Some (px, py) ->
         In (Ellipse (qbox (px - 2) (py - 2) (px + 2) (py + 2)) (Some color) None) drawn) /\
     Z.of_nat (length drawn)
     = (match glow_color with Some _ => n - 1 | None => 0 end)
       + (if fill then 1 else 0) + (n - 1) + 1 /\
     (0 <= width -> 0 <= height ->
      forall (k : nat) (v : Q),
        nth_error data k = Some v ->
        exists px py,
          nth_error points k = Some (px, py) /\
          (Z.of_nat k = 0 -> (px == x)%Q) /\
          (x + Z.of_nat k * width / (n - 1)%Z - 1 < px)%Q /\
          (px < x + Z.of_nat k * width / (n - 1)%Z + 1)%Q /\
          (Z.of_nat k = n - 1 -> (x + width - 1 < px)%Q /\ (px < x + width + 1)%Q) /\
          ((v == 0)%Q -> (py == y + height)%Q) /\
          ((v == 100)%Q -> (py == y)%Q) /\
          ((0 <= v)%Q -> (v <= 100)%Q -> (y <= py)%Q /\ (py <= y + height)%Q))).
Proof.
  intros Font x y width height data color glow_color fill drawn points n.
  subst drawn n. split.
  - intros H. unfold draw_sparkline. apply Nat.ltb_lt in H. now rewrite H.
  - intros Hn.
    assert (Lp : length points = length data).
    { subst points. unfold sparkline_points. cbv zeta.
      now rewrite length_map, length_enumerate. }
    assert (D : draw_sparkline Font x y width height data color glow_color fill
                = (match glow_color with
                   | Some glow =>
                       map (fun s => Line [fst s; snd s] (rgb_of glow) 3) (segments points)
                   | None => []
                   end) ++
                  (if fill
                   then [Polygon ([ipt x (y + height)] ++ points ++
                                  [ipt (x + width) (y + height)])
                                 (scale_color (3 # 10) color)]
                   else []) ++
                  map (fun s => Line [fst s; snd s] color 2) (segments points) ++
                  match rev points with
                  | (px, py) :: _ =>
                      [Ellipse (qbox (px - 2) (py - 2) (px + 2) (py + 2)) (Some color) None]
                  | [] => []
                  end).
    { unfold draw_sparkline.
      assert (E1 : (length data <? 2)%nat = false) by (apply Nat.ltb_ge; lia).
      rewrite E1. cbv zeta. fold points.
      assert (E2 : (1 <? length points)%nat = true) by (apply Nat.ltb_lt; lia).
      rewrite E2, andb_true_r. reflexivity. }
    rewrite D. clear D.
    split; [exact Lp|]. split; [|split; [|split; [|split]]].
    + intros k p q Hp Hq. pose proof (segments_nth points k p q Hp Hq) as S. split.
      * apply in_or_app. right. apply in_or_app. right. apply in_or_app. left.
        apply in_map_iff. exists (p, q). split; [reflexivity | exact S].
      * intros glow ->. apply in_or_app. left.
        apply in_map_iff. exists (p, q). split; [reflexivity | exact S].
    + intros ->. apply in_or_app. right. apply in_or_app. left. now left.
    + intros px py H. rewrite <- Lp in H. apply rev_head_last in H.
      destruct H as [rest ->].
      apply in_or_app. right. apply in_or_app. right. apply in_or_app. right. now left.
    + assert (Ls : Z.of_nat (length (segments points)) = Z.of_nat (length data) - 1).
      { rewrite length_segments, Lp. lia. }
      assert (Ld : length (match rev points with
                           | (px, py) :: _ =>
                               [@Ellipse Font (qbox (px - 2) (py - 2) (px + 2) (py + 2))
                                         (Some color) None]
                           | [] => []
                           end) = 1%nat).
      { destruct (rev points) as [|[px py] rest] eqn:E; [|reflexivity].
        apply (f_equal (@length Point)) in E. rewrite length_rev, Lp in E.
        cbn in E. lia. }
      rewrite !length_app, !length_map, Ld.
      destruct glow_color, fill; cbn [length]; rewrite ?length_map; lia.
    + intros Hw Hh k v Hk.
      eexists _, _. split; [apply (sparkline_point_at x y width height data k v Hk)|].
      assert (Hlt : (k < length data)%nat) by (apply nth_error_Some; congruence).
      set (N := (Z.of_nat (length data) - 1)%Z) in *.
      assert (HN : (0 < inject_Z N)%Q).
      { change 0%Q with (inject_Z 0). rewrite <- Zlt_Qlt. subst N. lia. }
      assert (Hh' : (0 <= inject_Z height)%Q).
      { change 0%Q with (inject_Z 0). now rewrite <- Zle_Qle. }
      assert (Hne : ~ (inject_Z N == 0)%Q) by lra.
      assert (Pk : (inject_Z x + inject_Z (Z.of_nat k) * (inject_Z width / inject_Z N)
                    == inject_Z x + inject_Z (Z.of_nat k) * inject_Z width / inject_Z N)%Q)
        by (field; exact Hne).
      split; [intros E; rewrite E; field; exact Hne|].
      split; [rewrite Pk; lra|]. split; [rewrite Pk; lra|].
      split.
      { intros E. rewrite E.
        assert (Pl : (inject_Z x + inject_Z N * (inject_Z width / inject_Z N)
                      == inject_Z x + inject_Z width)%Q) by (field; exact Hne).
        rewrite Pl. split; lra. }
      split; [intros E; rewrite E; field|].
      split; [intros E; rewrite E; field|].
      intros V0 V100.
      assert (V1 : (0 <= v / 100 * inject_Z height)%Q).
      { apply Qmult_le_0_compat; [|exact Hh'].
        unfold Qdiv. change (/ 100)%Q with (1 # 100)%Q. lra. }
      assert (V2 : (v / 100 * inject_Z height <= inject_Z height)%Q).
      { setoid_replace (inject_Z height) with (1 * inject_Z height)%Q at 2 by ring.
        apply Qmult_le_compat_r; [|exact Hh'].
        unfold Qdiv. change (/ 100)%Q with (1 # 100)%Q. lra. }
      split; lra.
Qed.

Lemma sparkline_geometry_witness :
  let drawn := draw_sparkline unit 70 67 80 40 [0; 50; 100]%Q COLOR_CPU
                 (Some COLOR_CPU_GLOW) true in
  let px := (300 # 2)%Q in
  let py := (6700 # 100)%Q in
  (2 <= length [0; 50; 100]%Q)%nat /\
  nth_error (sparkline_points 70 67 80 40 [0; 50; 100]%Q) 2 = Some (px, py) /\
  (px == 150)%Q /\ (py == 67)%Q /\
  In (Ellipse (qbox (px - 2) (py - 2) (px + 2) (py + 2)) (Some COLOR_CPU) None) drawn /\
  length drawn = 6%nat.
Proof.
  intros drawn px py.
  assert (L : (2 <= length [0; 50; 100]%Q)%nat) by (cbn; lia).
  assert (P : nth_error (sparkline_points 70 67 80 40 [0; 50; 100]%Q) 2
              = Some (px, py)) by (vm_compute; reflexivity).
  split; [exact L|]. split; [exact P|].
  split; [reflexivity|]. split; [reflexivity|]. split; [|reflexivity].
  exact (proj1 (proj2 (proj2 (proj2
           (proj2 (sparkline_geometry unit 70 67 80 40 [0; 50; 100]%Q COLOR_CPU
                     (Some COLOR_CPU_GLOW) true) L))))
           px py P).
Defined.

(** ** Colour interpolation *)

Lemma int_between (lo hi : Z) (q : Q) :
  0 <= lo -> (inject_Z lo <= q)%Q -> (q <= inject_Z hi)%Q -> lo <= Py.int q <= hi.
Proof.
  intros H0 Hlo Hhi.
  assert (Hq : (0 <= q)%Q).
  { assert (H : (inject_Z 0 <= inject_Z lo)%Q) by (now rewrite <- Zle_Qle).
    change (inject_Z 0) with 0%Q in H. lra. }
  rewrite (int_nonneg_floor q Hq). split.
  - rewrite <- (Qfloor_Z lo). now apply Qfloor_resp_le.
  - rewrite <- (Qfloor_Z hi). now apply Qfloor_resp_le.
Qed.

Lemma channel_between (lo hi c1 c2 : Z) (f : Q) :
  0 <= lo -> lo <= c1 <= hi -> lo <= c2 <= hi -> (0 <= f)%Q -> (f <= 1)%Q ->
  lo <= Py.int (c1 + (c2 - c1) * f) <= hi.
Proof.
  intros H0 H1 H2 F0 F1.
  assert (L1 : (inject_Z lo <= inject_Z c1)%Q) by (rewrite <- Zle_Qle; lia).
  assert (L2 : (inject_Z lo <= inject_Z c2)%Q) by (rewrite <- Zle_Qle; lia).
  assert (U1 : (inject_Z c1 <= inject_Z hi)%Q) by (rewrite <- Zle_Qle; lia).
  assert (U2 : (inject_Z c2 <= inject_Z hi)%Q) by (rewrite <- Zle_Qle; lia).
  apply int_between; [exact H0 | nra | nra].
Qed.

(** X8. [interpolate_color] returns the first colour at factor 0 and the
    second at factor 1, and for a factor in [0, 1] every channel of the
    result lies within whatever range [lo .. hi] (with [lo >= 0]) holds the
    channels of both colours: blending two valid colours gives a valid
    colour. In particular every line of the background of the drives and
    stats screens has its channels between those of the two gradient ends. *)
Theorem interpolate_color_in_range :
  forall (color1 color2 : Color),
    interpolate_color color1 color2 0 = color1 /\
    interpolate_color color1 color2 1 = color2 /\
    (forall (lo hi : Z) (factor : Q),
        0 <= lo -> channels_within lo hi color1 -> channels_within lo hi color2 ->
        (0 <= factor)%Q -> (factor <= 1)%Q ->
        channels_within lo hi (interpolate_color color1 color2 factor)) /\
    (forall (Font : Type) (xy : list Point) (fill : Color) (width : Z),
        In (Line xy fill width) (plain_background Font) ->
        channels_within 5 25 fill).
Proof.
  intros [[r1 g1] b1] [[r2 g2] b2]. split; [|split; [|split]].
  - unfold interpolate_color. repeat f_equal; apply int_of_integer; ring.
  - unfold interpolate_color. repeat f_equal; apply int_of_integer; ring.
  - intros lo hi f H0 (R1 & G1 & B1) (R2 & G2 & B2) F0 F1.
    unfold interpolate_color, channels_within.
    split; [|split]; apply channel_between; assumption || lia.
  - intros Font xy fill width H. unfold plain_background in H.
    apply in_map_iff in H. destruct H as (row & E & Hrow).
    injection E as _ <- _.
    unfold range in Hrow. apply in_map_iff in Hrow. destruct Hrow as (k & <- & Hk).
    apply in_seq in Hk. change (Z.to_nat HEIGHT) with 240%nat in Hk.
    assert (K0 : (0 <= inject_Z (Z.of_nat k))%Q).
    { change 0%Q with (inject_Z 0). rewrite <- Zle_Qle. lia. }
    assert (K1 : (inject_Z (Z.of_nat k) <= 240 # 1)%Q).
    { change (240 # 1)%Q with (inject_Z 240). rewrite <- Zle_Qle. lia. }
    assert (F0 : (0 <= inject_Z (Z.of_nat k) / HEIGHT)%Q).
    { apply Qle_shift_div_l; [reflexivity|].
      change (inject_Z HEIGHT) with (240 # 1)%Q. lra. }
    assert (F1 : (inject_Z (Z.of_nat k) / HEIGHT <= 1)%Q).
    { apply Qle_shift_div_r; [reflexivity|].
      change (inject_Z HEIGHT) with (240 # 1)%Q. lra. }
    unfold interpolate_color, channels_within.
    split; [|split]; apply channel_between; (assumption || lia).
Qed.

Lemma interpolate_color_in_range_witness :
  0 <= 0 /\ channels_within 0 255 (0, 200, 100) /\ channels_within 0 255 (0, 255, 150) /\
  (0 <= 1 # 4)%Q /\ (1 # 4 <= 1)%Q /\
  channels_within 0 255 (interpolate_color (0, 200, 100) (0, 255, 150) (1 # 4)).
Proof.
  assert (C1 : channels_within 0 255 (0, 200, 100)) by (cbn; lia).
  assert (C2 : channels_within 0 255 (0, 255, 150)) by (cbn; lia).
  assert (F0 : (0 <= 1 # 4)%Q) by (vm_compute; discriminate).
  assert (F1 : (1 # 4 <= 1)%Q) by (vm_compute; discriminate).
  split; [lia|]. split; [exact C1|]. split; [exact C2|].
  split; [exact F0|]. split; [exact F1|].
  exact (proj1 (proj2 (proj2 (interpolate_color_in_range (0, 200, 100) (0, 255, 150))))
           0 255 (1 # 4) ltac:(lia) C1 C2 F0 F1).
Defined.

(** ** Drive sizes, share status and filesystem type *)

Lemma format_size_units_spec (fmt1 : Q -> string) (units : list string) :
  forall bytes_val : Q,
    exists (k : nat) (v : Q),
      (k <= length units)%nat /\
      (v == bytes_val / inject_Z (1024 ^ Z.of_nat k))%Q /\
      format_size_units fmt1 units bytes_val
      = (fmt1 v ++ nth k (units ++ ["PB"%string]) "")%string /\
      ((k < length units)%nat -> (v < 1024)%Q) /\
      ((0 < k)%nat -> (1 <= v)%Q).
Proof.
  assert (D1 : forall b : Q, (b == b / inject_Z (1024 ^ Z.of_nat 0))%Q).
  { intros b. change (inject_Z (1024 ^ Z.of_nat 0)) with 1%Q. field. }
  induction units as [|u rest IH]; intros b.
  - exists 0%nat, b. split; [cbn; lia|]. split; [apply D1|].
    split; [reflexivity|]. split; [cbn; lia | lia].
  - cbn [format_size_units]. destruct (Py.ltb b 1024) eqn:E.
    + apply ltb_true_iff in E. exists 0%nat, b.
      split; [cbn; lia|]. split; [apply D1|].
      split; [reflexivity|]. split; [intros _; exact E | lia].
    + apply ltb_false_iff in E.
      destruct (IH (b / 1024)%Q) as (k & v & Hk & Hv & Hr & Hlt & Hge).
      exists (S k), v. cbn [length]. split; [lia|]. split; [|split; [|split]].
      * rewrite Hv, Nat2Z.inj_succ, Z.pow_succ_r by lia.
        rewrite inject_Z_mult.
        assert (P : (0 < inject_Z (1024 ^ Z.of_nat k))%Q).
        { change 0%Q with (inject_Z 0). rewrite <- Zlt_Qlt. apply Z.pow_pos_nonneg; lia. }
        field. lra.
      * rewrite Hr. reflexivity.
      * intros H. apply Hlt. lia.
      * intros _. destruct k as [|k].
        -- rewrite Hv. change (inject_Z (1024 ^ Z.of_nat 0)) with 1%Q.
           unfold Qdiv at 1. change (/ 1)%Q with 1%Q. rewrite Qmult_1_r.
           apply Qle_shift_div_l; [reflexivity | lra].
        -- apply Hge. lia.
Qed.

(** X9. [format_size] divides by 1024 until the value is below 1024 or the
    units run out: the result is the formatted value [bytes / 1024^k]
    followed by the [k]-th unit of B, KB, MB, GB, TB, PB, where the value
    printed is below 1024 unless the unit is PB and at least 1 unless the
    unit is B. *)
Theorem format_size_picks_unit :
  forall (format_float : nat -> Q -> string) (bytes_val : Z),
    exists (k : nat) (v : Q),
      (k <= 5)%nat /\
      (v == inject_Z bytes_val / inject_Z (1024 ^ Z.of_nat k))%Q /\
      format_size format_float bytes_val
      = (format_float 1%nat v ++ nth k size_units "")%string /\
      ((k < 5)%nat -> (v < 1024)%Q) /\
      ((0 < k)%nat -> (1 <= v)%Q).
Proof.
  intros ff b. unfold format_size.
  destruct (format_size_units_spec (ff 1%nat) ["B"; "KB"; "MB"; "GB"; "TB"]%string b)
    as (k & v & Hk & Hv & Hr & Hlt & Hge).
  exists k, v. split; [exact Hk|]. split; [exact Hv|].
  split; [exact Hr|]. split; assumption.
Qed.

(** for instance 3072000 bytes are shown in MB, 2.9296875 of them *)
Example format_size_megabytes :
  format_size Sample.format_float 3072000 = "2MB"%string /\
  format_size Sample.format_float 1023 = "1023B"%string /\
  format_size Sample.format_float 1024 = "1KB"%string.
Proof. split; [|split]; reflexivity. Qed.

Lemma prefix_iff (s1 s2 : string) :
  String.prefix s1 s2 = true <-> exists post, s2 = (s1 ++ post)%string.
Proof.
  revert s2; induction s1 as [|a s1 IH]; intros s2.
  - destruct s2; cbn; split; eauto.
  - destruct s2 as [|b s2]; cbn.
    + split; [discriminate | intros [post H]; discriminate].
    + destruct (Ascii.ascii_dec a b) as [->|N].
      * rewrite IH. split; intros [post H]; exists post; congruence.
      * split; [discriminate | intros [post H]; congruence].
Qed.

Lemma contains_iff (needle hay : string) :
  contains needle hay = true
  <-> exists pre post, hay = (pre ++ needle ++ post)%string.
Proof.
  unfold contains.
  assert (H : (exists n, String.index 0 needle hay = Some n)
              <-> exists pre post, hay = (pre ++ needle ++ post)%string).
  { induction hay as [|b hay IH].
    - cbn. destruct needle as [|a needle]; split.
      + intros _. exists ""%string, ""%string. reflexivity.
      + eauto.
      + intros [n H]; discriminate.
      + intros ([|c pre] & post & H); discriminate.
    - cbn [String.index].
      destruct (String.prefix needle (String b hay)) eqn:P.
      + split; [intros _ | eauto].
        apply prefix_iff in P. destruct P as [post P].
        exists ""%string, post. exact P.
      + split.
        * intros [n H]. destruct (String.index 0 needle hay) as [m|]; [|discriminate].
          destruct (proj1 IH (ex_intro _ m eq_refl)) as (pre & post & E).
          exists (String b pre), post. cbn. now rewrite E.
        * intros ([|c pre] & post & E).
          -- cbn in E. assert (P' : String.prefix needle (String b hay) = true)
               by (apply prefix_iff; eauto). congruence.
          -- cbn in E. injection E as -> E.
             destruct (proj2 IH (ex_intro _ pre (ex_intro _ post E))) as [m Hm].
             rewrite Hm. eauto. }
  destruct (String.index 0 needle hay) as [n|].
  - split; [intros _; apply H; eauto | reflexivity].
  - split; [discriminate|]. intros E. apply H in E. destruct E; discriminate.
Qed.

(** X10. [is_shared] is a substring test on what [smbstatus -S] prints: a
    drive counts as shared exactly when the command succeeded and the
    drive's name occurs somewhere in its output; when the command fails the
    drive counts as not shared. So a drive is also reported shared when its
    name is only part of a longer name in the output. *)
Theorem is_shared_substring :
  forall (w : World) (k : nat) (d : USBDrive),
    (is_shared w k d = true
     <-> exists pre post, smbstatus w k = Py.Ok (pre ++ name d ++ post)%string) /\
    (Py.raises (smbstatus w k) -> is_shared w k d = false) /\
    (forall (longer_pre longer_post pre post : string),
        smbstatus w k
        = Py.Ok (pre ++ (longer_pre ++ name d ++ longer_post) ++ post)%string ->
        is_shared w k d = true).
Proof.
  intros w k d.
  assert (I : is_shared w k d = true
              <-> exists pre post, smbstatus w k = Py.Ok (pre ++ name d ++ post)%string).
  { unfold is_shared. destruct (smbstatus w k) as [out|e]; cbn.
    - rewrite contains_iff. split; intros (pre & post & E); exists pre, post; congruence.
    - split; [discriminate | intros (pre & post & E); discriminate]. }
  split; [exact I|]. split.
  - intros [e E]. unfold is_shared. now rewrite E.
  - intros lpre lpost pre post E. apply I.
    exists (pre ++ lpre)%string, (lpost ++ post)%string. rewrite E. f_equal.
    clear. induction pre as [|c pre IH]; cbn.
    + induction lpre as [|c lpre IH]; cbn; [|now rewrite IH].
      induction (name d) as [|c n IH]; cbn; [reflexivity | now rewrite IH].
    + now rewrite IH.
Qed.

Lemma is_shared_substring_witness :
  let w := Sample.world (Sample.at_time 9 7 0) "Service usb10 1234" in
  smbstatus w 0 = Py.Ok ("Service " ++ ("" ++ name Sample.drive ++ "0") ++ " 1234")%string /\
  is_shared w 0 Sample.drive = true.
Proof.
  intros w.
  assert (E : smbstatus w 0
              = Py.Ok ("Service " ++ ("" ++ name Sample.drive ++ "0") ++ " 1234")%string)
    by reflexivity.
  split; [exact E|].
  exact (proj2 (proj2 (is_shared_substring w 0 Sample.drive))
           ""%string "0"%string "Service "%string " 1234"%string E).
Defined.

Lemma append_nil_r (s : string) : (s ++ "")%string = s.
Proof. induction s as [|c s IH]; cbn; [reflexivity | now rewrite IH]. Qed.

Lemma append_assoc (s t u : string) : ((s ++ t) ++ u)%string = (s ++ t ++ u)%string.
Proof. induction s as [|c s IH]; cbn; [reflexivity | now rewrite IH]. Qed.

Lemma string_rev_onto_spec (s acc : string) :
  string_rev_onto s acc = (string_rev s ++ acc)%string.
Proof.
  unfold string_rev. revert acc. induction s as [|c s IH]; intros acc; cbn.
  - reflexivity.
  - rewrite (IH (String c acc)), (IH (String c "")), append_assoc. reflexivity.
Qed.

Lemma string_rev_cons (c : ascii) (s : string) :
  string_rev (String c s) = (string_rev s ++ String c "")%string.
Proof. unfold string_rev at 1. cbn. apply string_rev_onto_spec. Qed.

Lemma string_rev_app (s t : string) :
  string_rev (s ++ t) = (string_rev t ++ string_rev s)%string.
Proof.
  induction s as [|c s IH]; cbn [append].
  - change (string_rev "") with ""%string. now rewrite append_nil_r.
  - now rewrite !string_rev_cons, IH, append_assoc.
Qed.

Lemma string_rev_involutive (s : string) : string_rev (string_rev s) = s.
Proof.
  induction s as [|c s IH]; [reflexivity|].
  rewrite string_rev_cons, string_rev_app, IH. reflexivity.
Qed.

Lemma all_space_app (s t : string) :
  all_space (s ++ t) = all_space s && all_space t.
Proof. induction s as [|c s IH]; cbn; [reflexivity | now rewrite IH, andb_assoc]. Qed.

Lemma all_space_rev (s : string) : all_space (string_rev s) = all_space s.
Proof.
  induction s as [|c s IH]; [reflexivity|].
  rewrite string_rev_cons, all_space_app, IH. cbn.
  now rewrite andb_true_r, andb_comm.
Qed.

Lemma lstrip_spaces (ws s : string) :
  all_space ws = true -> lstrip (ws ++ s) = lstrip s.
Proof.
  induction ws as [|c ws IH]; cbn; [reflexivity|].
  intros H. apply andb_true_iff in H. destruct H as [Hc Hws].
  rewrite Hc. now apply IH.
Qed.

Lemma lstrip_nonspace (s : string) :
  (exists a, first_char s = Some a /\ is_space a = false) -> lstrip s = s.
Proof.
  intros (a & Ha & Hs). destruct s as [|c s]; [discriminate|].
  cbn in Ha. injection Ha as ->. cbn. now rewrite Hs.
Qed.

Lemma first_char_app (s t : string) (a : ascii) :
  first_char s = Some a -> first_char (s ++ t) = Some a.
Proof. destruct s; [discriminate | exact (fun H => H)]. Qed.

Lemma last_char_some (c : ascii) (s : string) : exists b, last_char (String c s) = Some b.
Proof.
  revert c. induction s as [|c' s IH]; intros c; [now exists c|].
  destruct (IH c') as [b E]. exists b. exact E.
Qed.

Lemma first_char_rev (s : string) : first_char (string_rev s) = last_char s.
Proof.
  induction s as [|c s IH]; [reflexivity|].
  rewrite string_rev_cons. destruct s as [|c' s]; [reflexivity|].
  change (last_char (String c (String c' s))) with (last_char (String c' s)).
  destruct (last_char_some c' s) as [b E]. rewrite E in IH |- *.
  now apply first_char_app.
Qed.

Lemma strip_trims (pre core post : string) :
  all_space pre = true -> all_space post = true -> trimmed core ->
  strip (pre ++ core ++ post) = core.
Proof.
  intros Hpre Hpost [Hfirst Hlast]. unfold strip.
  rewrite (lstrip_spaces pre _ Hpre).
  rewrite (lstrip_nonspace (core ++ post)).
  2:{ destruct Hfirst as (a & Ha & Hs). exists a. split; [|exact Hs].
      now apply first_char_app. }
  rewrite string_rev_app, lstrip_spaces by (now rewrite all_space_rev).
  rewrite lstrip_nonspace by (now rewrite first_char_rev).
  apply string_rev_involutive.
Qed.

Lemma strip_spaces (s : string) : all_space s = true -> strip s = ""%string.
Proof.
  intros H. unfold strip.
  rewrite <- (append_nil_r s), (lstrip_spaces s "" H). reflexivity.
Qed.

(** White space is what [str.strip] takes it to be: besides the blank and
    the characters 9 to 13 also the separators 28 to 31, next line and the
    no-break space. *)
Example strip_separators :
  strip (String "028" "") = ""%string /\
  strip ("ext4" ++ String "031" "") = "ext4"%string /\
  strip (String "160" "vfat" ++ String "133" (String "010" "")) = "vfat"%string /\
  strip "ex t4" = "ex t4"%string.
Proof. repeat split. Qed.

(** X11. [get_filesystem_type] never returns an empty string: it is
    "unknown" when [findmnt] fails and when it prints nothing but white
    space, and otherwise what [findmnt] printed with the white space around
    it (such as the final newline) removed. White space is every character
    for which [is_space] holds. *)
Theorem filesystem_type_trimmed_or_unknown :
  forall (w : World) (k : nat) (d : USBDrive),
    get_filesystem_type w k d <> ""%string /\
    (Py.raises (findmnt w k (mount_path d)) ->
     get_filesystem_type w k d = "unknown"%string) /\
    (forall stdout,
        findmnt w k (mount_path d) = Py.Ok stdout -> all_space stdout = true ->
        get_filesystem_type w k d = "unknown"%string) /\
    (forall pre core post,
        findmnt w k (mount_path d) = Py.Ok (pre ++ core ++ post)%string ->
        all_space pre = true -> all_space post = true -> trimmed core ->
        get_filesystem_type w k d = core).
Proof.
  intros w k d. unfold get_filesystem_type. split; [|split; [|split]].
  - destruct (findmnt w k (mount_path d)) as [out|e]; cbn; [|discriminate].
    destruct (strip out); discriminate.
  - intros [e E]. now rewrite E.
  - intros out E H. rewrite E. cbn. now rewrite (strip_spaces out H).
  - intros pre core post E Hpre Hpost Hcore. rewrite E. cbn.
    rewrite (strip_trims pre core post Hpre Hpost Hcore).
    destruct Hcore as [(a & Ha & _) _]. destruct core; [discriminate | reflexivity].
Qed.

Lemma filesystem_type_trimmed_or_unknown_witness :
  let w := Sample.world (Sample.at_time 9 7 0) "" in
  findmnt w 0 (mount_path Sample.drive)
  = Py.Ok ("" ++ "ext4" ++ String "010" "")%string /\
  trimmed "ext4" /\
  get_filesystem_type w 0 Sample.drive = "ext4"%string.
Proof.
  intros w.
  assert (E : findmnt w 0 (mount_path Sample.drive)
              = Py.Ok ("" ++ "ext4" ++ String "010" "")%string) by reflexivity.
  assert (T : trimmed "ext4").
  { split; [exists "e"%char | exists "4"%char]; split; reflexivity. }
  split; [exact E|]. split; [exact T|].
  exact (proj2 (proj2 (proj2 (filesystem_type_trimmed_or_unknown w 0 Sample.drive)))
           ""%string "ext4"%string (String "010" "") E eq_refl eq_refl T).
Defined.

(** ** The drives screen *)

Section DriveCards.
Variable Font : Type.
Variable getbbox : Font -> string -> Z * Z * Z * Z.
Variable format_float : nat -> Q -> string.

Lemma drive_cards_no_break (w : World) (fonts : Fonts Font) (shown : list USBDrive) :
forall i : nat,
  (i + length shown <= 3)%nat ->
  drive_cards Font getbbox format_float w fonts i (42 + 56 * Z.of_nat i) shown
  = (flat_map (fun jd : nat * USBDrive =>
                 drive_card Font getbbox format_float w fonts (fst jd)
                            (42 + 56 * Z.of_nat (fst jd)) (snd jd))
              (combine (seq i (length shown)) shown),
     42 + 56 * Z.of_nat (i + length shown)).
Proof.
induction shown as [|d rest IH]; intros i Hi.
- cbn. now rewrite Nat.add_0_r.
- cbn [drive_cards length seq combine flat_map fst snd].
  cbn [length] in Hi.
  assert (E : (42 + 56 * Z.of_nat i >? HEIGHT - 60) = false).
  { rewrite Z.gtb_ltb. apply Z.ltb_ge. unfold HEIGHT. lia. }
  rewrite E.
  replace (42 + 56 * Z.of_nat i + (50 + 6)) with (42 + 56 * Z.of_nat (S i)) by lia.
  rewrite (IH (S i)) by lia. cbn [fst snd]. do 2 f_equal. lia.
Qed.
End DriveCards.

(** X12. The drives screen draws a card for each of the first three drives
    and no more: card [i] is drawn at [y = 42 + 56 * i], the [break] of the
    loop is never taken, and a fourth and further drives are only counted
    in the "more drives" line drawn at [y = 210]. *)
Theorem drives_screen_shows_first_three :
  forall (Font : Type) (getbbox : Font -> string -> Z * Z * Z * Z)
         (format_float : nat -> Q -> string) (w : World) (ui : UIState)
         (fonts : Fonts Font) (drives : list USBDrive) (phase : Q),
    let shown := firstn 3 drives in
    length shown = Nat.min 3 (length drives) /\
    drive_cards Font getbbox format_float w fonts 0 42 shown
    = (flat_map (fun jd : nat * USBDrive =>
                   drive_card Font getbbox format_float w fonts (fst jd)
                              (42 + 56 * Z.of_nat (fst jd)) (snd jd))
                (combine (seq 0 (length shown)) shown),
       42 + 56 * Z.of_nat (length shown)) /\
    ((3 < length drives)%nat ->
     In (Text (ipt 12 210) ("+ " ++ str_nat (length drives - 3) ++ " more drives")
              (font_small Font fonts) TEXT_MUTED)
        (draw_drives_screen Font getbbox format_float w ui fonts drives phase)).
Proof.
  intros Font getbbox ff w ui fonts drives phase shown.
  assert (L : length shown = Nat.min 3 (length drives)) by apply length_firstn.
  assert (C := drive_cards_no_break Font getbbox ff w fonts shown 0 ltac:(lia)).
  change (42 + 56 * Z.of_nat 0) with 42 in C. change (0 + length shown)%nat
    with (length shown) in C.
  split; [exact L|]. split; [exact C|].
  intros H. unfold draw_drives_screen.
  destruct drives as [|d rest]; [cbn in H; lia|].
  cbv zeta. fold shown. rewrite C. cbn [snd fst].
  replace (length shown) with 3%nat by lia.
  apply Nat.ltb_lt in H. rewrite H.
  apply in_or_app; right. apply in_or_app; right. apply in_or_app; right.
  apply in_or_app; right. apply in_or_app; left. now left.
Qed.

Lemma drives_screen_shows_first_three_witness :
  let drives := [Sample.drive; Sample.drive; Sample.drive; Sample.drive; Sample.drive] in
  (3 < length drives)%nat /\
  In (Text (ipt 12 210) "+ 2 more drives" tt TEXT_MUTED)
     (draw_drives_screen unit Sample.getbbox Sample.format_float
        (Sample.world (Sample.at_time 9 7 0) "") initial_ui Sample.fonts drives 0).
Proof.
  intros drives. assert (H : (3 < length drives)%nat) by (cbn; lia).
  split; [exact H|].
  exact (proj2 (proj2 (drives_screen_shows_first_three unit Sample.getbbox
                         Sample.format_float (Sample.world (Sample.at_time 9 7 0) "")
                         initial_ui Sample.fonts drives 0)) H).
Defined.

(** ** Drive discovery *)

Lemma used_percent_range (blocks bavail frsize : Z) :
  0 < blocks -> 0 <= bavail <= blocks -> 0 < frsize ->
  let total := blocks * frsize in
  let used := total - bavail * frsize in
  (0 <= inject_Z used / inject_Z total * 100 <= 100)%Q.
Proof.
  intros Hb Ha Hf total used.
  assert (Ht : 0 < total) by (subst total; nia).
  assert (Hu : 0 <= used <= total) by (subst used total; nia).
  assert (Qt : (0 < inject_Z total)%Q).
  { change 0%Q with (inject_Z 0). now rewrite <- Zlt_Qlt. }
  assert (Qu0 : (0 <= inject_Z used)%Q).
  { change 0%Q with (inject_Z 0). rewrite <- Zle_Qle. lia. }
  assert (Qu1 : (inject_Z used <= inject_Z total)%Q) by (rewrite <- Zle_Qle; lia).
  assert (R0 : (0 <= inject_Z used / inject_Z total)%Q).
  { apply Qle_shift_div_l; [exact Qt | lra]. }
  assert (R1 : (inject_Z used / inject_Z total <= 1)%Q).
  { apply Qle_shift_div_r; [exact Qt | lra]. }
  lra.
Qed.

(** X13. A drive object is consistent however [os.statvfs] answers: the
    total is [f_blocks * f_frsize], the free bytes [f_bavail * f_frsize],
    and used plus free bytes always make the total. When [statvfs] fails,
    all sizes and the used percentage are 0. When the total is not positive
    (no blocks reported, say) the used percentage is 0 and nothing is
    divided by zero; with no blocks the total is 0 and the used bytes are
    minus the free bytes, so the sizes are all 0 only if nothing is
    reported available either. When [0 <= f_bavail <= f_blocks] with a
    positive block size the used percentage lies in [0, 100]. *)
Theorem usb_drive_consistent :
  forall (mount_path : string) (stat : Py.result statvfs_result),
    let d := USBDrive_init mount_path stat in
    used_bytes d + free_bytes d = total_bytes d /\
    (Py.raises stat ->
     total_bytes d = 0 /\ free_bytes d = 0 /\ used_bytes d = 0 /\ used_percent d = 0%Q) /\
    (total_bytes d <= 0 -> used_percent d = 0%Q) /\
    (forall st, stat = Py.Ok st ->
                total_bytes d = f_blocks st * f_frsize st /\
                free_bytes d = f_bavail st * f_frsize st /\
                (f_blocks st = 0 ->
                 total_bytes d = 0 /\ used_bytes d = - free_bytes d /\
                 used_percent d = 0%Q /\
                 (f_bavail st = 0 -> free_bytes d = 0 /\ used_bytes d = 0)) /\
                (0 < f_blocks st -> 0 <= f_bavail st <= f_blocks st -> 0 < f_frsize st ->
                 (0 <= used_percent d <= 100)%Q)).
Proof.
  intros mount_path stat d. subst d. unfold USBDrive_init.
  destruct stat as [st|e]; cbn.
  - split; [lia|]. split; [intros [e E]; discriminate|]. split.
    + intros H. destruct (f_blocks st * f_frsize st >? 0) eqn:E; [|reflexivity].
      rewrite Z.gtb_ltb in E. apply Z.ltb_lt in E. lia.
    + intros st' E. injection E as <-.
      split; [reflexivity|]. split; [reflexivity|]. split.
      * intros B. rewrite B. cbn [Z.mul Z.gtb Z.compare].
        split; [reflexivity|]. split; [lia|]. split; [reflexivity|].
        intros A. rewrite A. split; reflexivity.
      * intros Hb Ha Hf.
        assert (T : (f_blocks st * f_frsize st >? 0) = true).
        { rewrite Z.gtb_ltb. apply Z.ltb_lt. nia. }
        rewrite T. apply (used_percent_range _ _ _ Hb Ha Hf).
  - split; [reflexivity|]. split; [intros _; repeat split|].
    split; [reflexivity | intros st E; discriminate].
Qed.

Lemma usb_drive_consistent_witness :
  let st := {| f_blocks := 1000; f_bavail := 250; f_frsize := 4096 |} in
  let d := USBDrive_init "/srv/usb-shares/usb1" (Py.Ok st) in
  0 < f_blocks st /\ 0 <= f_bavail st <= f_blocks st /\ 0 < f_frsize st /\
  (0 <= used_percent d <= 100)%Q /\ (used_percent d == 75)%Q.
Proof.
  intros st d.
  assert (H1 : 0 < f_blocks st) by (cbn; lia).
  assert (H2 : 0 <= f_bavail st <= f_blocks st) by (cbn; lia).
  assert (H3 : 0 < f_frsize st) by (cbn; lia).
  split; [exact H1|]. split; [exact H2|]. split; [exact H3|].
  split; [|reflexivity].
  exact (proj2 (proj2 (proj2 (proj2 (proj2 (proj2
           (usb_drive_consistent "/srv/usb-shares/usb1" (Py.Ok st)))) st eq_refl)))
           H1 H2 H3).
Defined.

(** With no blocks but blocks reported available the drive shows free
    space and a negative amount used. *)
Example usb_drive_no_blocks :
  let d := USBDrive_init "/srv/usb-shares/usb1"
             (Py.Ok {| f_blocks := 0; f_bavail := 10; f_frsize := 4096 |}) in
  total_bytes d = 0 /\ free_bytes d = 40960 /\ used_bytes d = -40960 /\
  used_percent d = 0%Q.
Proof. repeat split. Qed.

Lemma basename_no_slash (s : string) : has_slash s = false -> basename s = s.
Proof.
  destruct s as [|c s]; [reflexivity|]. cbn. intros H.
  apply orb_false_iff in H. destruct H as [Hc Hs]. now rewrite Hs, Hc.
Qed.

Lemma basename_after_slash (pre s : string) :
  has_slash s = false -> basename (pre ++ "/" ++ s) = s.
Proof.
  intros H. induction pre as [|c pre IH]; cbn.
  - now rewrite H.
  - assert (E : has_slash (pre ++ String "/" s) = true).
    { clear. induction pre as [|c' pre IH]; cbn; [reflexivity|].
      rewrite IH. apply orb_true_r. }
    rewrite E. exact IH.
Qed.

Lemma path_join_mount_root (entry : string) :
  has_slash entry = false ->
  path_join MOUNT_ROOT entry = (MOUNT_ROOT ++ "/" ++ entry)%string.
Proof.
  intros H. unfold path_join.
  destruct entry as [|c entry]; [reflexivity|].
  cbn in H. apply orb_false_iff in H. destruct H as [Hc _].
  cbn [first_char].
  destruct c as [[] [] [] [] [] [] [] []]; try reflexivity. discriminate Hc.
Qed.

(** X14. Every drive [get_usb_drives] returns is named after its directory
    entry: for entries of the mount root (which hold no slash) the result
    has, in listing order, exactly one drive per entry that is a mount
    point, with [mount_path = MOUNT_ROOT/entry] and [name = entry]. When
    the mount root does not exist the result is the empty list. *)
Theorem usb_drives_named_after_entries :
  forall (fs : FileSystem),
    (path_exists fs MOUNT_ROOT = false -> get_usb_drives fs = Py.Ok []) /\
    (forall entries,
        path_exists fs MOUNT_ROOT = true ->
        listdir fs MOUNT_ROOT = Py.Ok entries ->
        Forall (fun e => has_slash e = false) entries ->
        exists drives,
          get_usb_drives fs = Py.Ok drives /\
          map name drives
          = filter (fun e => ismount fs (MOUNT_ROOT ++ "/" ++ e)) entries /\
          map mount_path drives
          = map (fun e => (MOUNT_ROOT ++ "/" ++ e)%string)
                (filter (fun e => ismount fs (MOUNT_ROOT ++ "/" ++ e)) entries)).
Proof.
  intros fs. split.
  - intros H. unfold get_usb_drives. now rewrite H.
  - intros entries He Hl Hs. unfold get_usb_drives. rewrite He, Hl. cbn [Py.bind].
    eexists. split; [reflexivity|]. clear Hl He.
    induction Hs as [|e rest He' Hrest IH]; [split; reflexivity|].
    cbn [flat_map filter]. rewrite (path_join_mount_root e He').
    destruct (ismount fs (MOUNT_ROOT ++ "/" ++ e)) eqn:M.
    + cbn [app map]. destruct IH as [IH1 IH2]. rewrite IH1, IH2. split; f_equal.
      * unfold USBDrive_init.
        destruct (statvfs fs (MOUNT_ROOT ++ "/" ++ e)); cbn;
          apply (basename_after_slash MOUNT_ROOT e He').
      * unfold USBDrive_init.
        destruct (statvfs fs (MOUNT_ROOT ++ "/" ++ e)); reflexivity.
    + exact IH.
Qed.

Lemma usb_drives_named_after_entries_witness :
  let fs := {| path_exists := fun _ => true;
               listdir := fun _ => Py.Ok ["usb1"; "lost+found"; "usb2"]%string;
               ismount := fun p => negb (String.eqb p "/srv/usb-shares/lost+found");
               statvfs := fun _ => Py.Raise Py.OSError |} in
  exists drives,
    get_usb_drives fs = Py.Ok drives /\ map name drives = ["usb1"; "usb2"]%string.
Proof.
  intros fs.
  destruct (proj2 (usb_drives_named_after_entries fs)
              ["usb1"; "lost+found"; "usb2"]%string eq_refl eq_refl
              ltac:(repeat constructor))
    as (drives & E & N & _).
  exists drives. split; [exact E | exact N].
Defined.

(** ** Network speed *)

Lemma net_speed_nonneg (net : Z * Z) (time : nat -> Q) (last_net : NetState) :
  match last_net with
  | None => True
  | Some (last_sent, last_recv, _) => last_sent <= fst net /\ last_recv <= snd net
  end ->
  (0 <= fst (net_speed net time last_net))%Q.
Proof.
  destruct net as [sent recv]. destruct last_net as [[[ls lr] lt]|]; cbn [net_speed fst snd].
  - intros [Hs Hr]. destruct (Py.gtb (time 0%nat - lt) 0) eqn:E; [|lra].
    apply gtb_true_iff in E.
    assert (D : (0 <= inject_Z (sent - ls + (recv - lr)))%Q).
    { change 0%Q with (inject_Z 0). rewrite <- Zle_Qle. lia. }
    apply Qle_shift_div_l; [reflexivity|]. rewrite Qmult_0_l.
    apply Qle_shift_div_l; [exact E|]. now rewrite Qmult_0_l.
  - intros _. lra.
Qed.

(** X15. The network speed of [get_system_stats] is 0 on the first call
    and whenever no time has passed since the previous call (no division by
    zero); it is never negative as long as the byte counters have not gone
    back since the previous call; and every call records the current
    counters for the next one. *)
Theorem net_speed_defined_and_nonnegative :
  forall (r : Readings) (last_net : NetState),
    let result := get_system_stats r last_net in
    (last_net = None -> net_speed_kb (fst result) = 0%Q) /\
    (forall last_sent last_recv last_time,
        last_net = Some (last_sent, last_recv, last_time) ->
        ((clock_time r 0%nat - last_time <= 0)%Q -> net_speed_kb (fst result) = 0%Q) /\
        (last_sent <= fst (psutil_net r) -> last_recv <= snd (psutil_net r) ->
         (0 <= net_speed_kb (fst result))%Q)) /\
    (exists time, snd result = Some (fst (psutil_net r), snd (psutil_net r), time)).
Proof.
  intros r last_net result. subst result. unfold get_system_stats.
  destruct (psutil_mem r) as [[mp mu] mt]. destruct (psutil_disk r) as [[dp du] dt].
  cbn [fst snd net_speed_kb]. split; [|split].
  - intros ->. now destruct (psutil_net r).
  - intros ls lr lt ->. split.
    + intros H. destruct (psutil_net r) as [sent recv]. cbn [net_speed fst].
      apply gtb_false_iff in H. now rewrite H.
    + intros Hs Hr.
      apply (net_speed_nonneg (psutil_net r) (clock_time r) (Some (ls, lr, lt))).
      split; assumption.
  - destruct (psutil_net r) as [sent recv].
    destruct last_net as [[[ls lr] lt]|]; cbn [net_speed snd fst]; eauto.
Qed.

Lemma net_speed_defined_and_nonnegative_witness :
  let r := {| psutil_cpu_percent := 12;
              psutil_temps := Py.Raise Py.OSError;
              psutil_mem := (40%Q, 1000, 4000);
              psutil_disk := (50%Q, 10, 20);
              psutil_net := (5000, 7000);
              clock_time := fun k => (100 + inject_Z (Z.of_nat k))%Q;
              socket_ip := Py.Raise Py.OSError |} in
  1000 <= fst (psutil_net r) /\ 2000 <= snd (psutil_net r) /\
  (0 <= net_speed_kb (fst (get_system_stats r (Some (1000%Z, 2000%Z, 98%Q)))))%Q.
Proof.
  intros r.
  assert (H1 : 1000 <= fst (psutil_net r)) by (cbn; lia).
  assert (H2 : 2000 <= snd (psutil_net r)) by (cbn; lia).
  split; [exact H1|]. split; [exact H2|].
  exact (proj2 (proj1 (proj2 (net_speed_defined_and_nonnegative r
                                (Some (1000%Z, 2000%Z, 98%Q))))
                  1000 2000 98%Q eq_refl) H1 H2).
Defined.

Lemma sample_run_nonneg (rs : list Readings) :
  forall last_net : NetState,
    counters_monotone rs last_net ->
    forall s, In s (sample_run rs last_net) -> (0 <= net_speed_kb s)%Q.
Proof.
  induction rs as [|r rest IH]; intros last_net H s Hs; [destruct Hs|].
  cbn [sample_run counters_monotone] in *. destruct H as [H0 Hrest].
  destruct (get_system_stats r last_net) as [stats last'] eqn:E.
  cbn [snd] in Hrest. destruct Hs as [<-|Hs].
  - assert (F : stats = fst (get_system_stats r last_net)) by now rewrite E.
    rewrite F. unfold get_system_stats.
    destruct (psutil_mem r) as [[mp mu] mt]. destruct (psutil_disk r) as [[dp du] dt].
    cbn [fst net_speed_kb]. apply net_speed_nonneg. exact H0.
  - exact (IH last' Hrest s Hs).
Qed.

(** X16. Sampling and history compose: when the byte counters never go
    back from one call of [get_system_stats] to the next, every value the
    main loop appends to the network series from those samples, and so
    every value of the series, lies in [0, 100]. *)
Theorem network_series_bounded_on_monotone_counters :
  forall (rs : list Readings) (v : Q),
    counters_monotone rs None ->
    In v (Deque.snapshot
            (network_history (poll_ticks (sample_run rs None) initial_histories))) ->
    (0 <= v <= 100)%Q.
Proof.
  intros rs v H Hv. split.
  - revert v Hv. apply (poll_ticks_network (fun v => 0 <= v)%Q).
    + intros s Hs. apply scaled_rate_nonneg. exact (sample_run_nonneg rs None H s Hs).
    + intros v [].
  - revert v Hv. apply (poll_ticks_network (fun v => v <= 100)%Q).
    + intros s _. apply scaled_rate_le_100.
    + intros v [].
Qed.

Lemma network_series_bounded_on_monotone_counters_witness :
  let rs := [sample_readings 1000 2000 10; sample_readings 9000000 2000 11;
             sample_readings 9000000 2300 12] in
  counters_monotone rs None /\
  map net_speed_kb (sample_run rs None) = [0; 8999000 / 1 / 1024; 300 / 1 / 1024]%Q /\
  forall v,
    In v (Deque.snapshot
            (network_history (poll_ticks (sample_run rs None) initial_histories))) ->
    (0 <= v <= 100)%Q.
Proof.
  intros rs.
  assert (H : counters_monotone rs None) by (cbn; lia).
  split; [exact H|]. split; [reflexivity|].
  intros v Hv.
  exact (network_series_bounded_on_monotone_counters rs v H Hv).
Defined.

(** ** The main loop *)

Lemma append_length {A} (d : Deque.t A) (v : A) :
  (length (Deque.items d) <= Deque.maxlen d)%nat ->
  length (Deque.items (Deque.append d v))
  = Nat.min (Deque.maxlen d) (S (length (Deque.items d))).
Proof.
  intros H. unfold Deque.append; cbn [Deque.items Deque.maxlen].
  rewrite length_app. cbn [length].
  destruct (Nat.ltb_spec (Deque.maxlen d) (length (Deque.items d) + 1)) as [L|L].
  - destruct (Deque.items d ++ [v]) as [|x l] eqn:E.
    + apply (f_equal (@length A)) in E. rewrite length_app in E. cbn in E. lia.
    + apply (f_equal (@length A)) in E. rewrite length_app in E. cbn in E.
      cbn [tl]. lia.
  - rewrite length_app. cbn [length]. lia.
Qed.

Lemma update_histories_hold (k : nat) (stats : Stats) (h : Histories) :
  histories_hold (Nat.min HISTORY_SIZE k) h ->
  histories_hold (Nat.min HISTORY_SIZE (S k)) (update_histories stats h).
Proof.
  unfold histories_hold. intros H.
  repeat match goal with
         | H : Forall _ (_ :: _) |- _ => inversion_clear H
         end.
  unfold update_histories; cbn [cpu_history memory_history disk_history network_history].
  repeat (apply Forall_cons || apply Forall_nil);
    match goal with
    | H : Deque.maxlen ?d = _ /\ length (Deque.snapshot ?d) = _
      |- Deque.maxlen (Deque.append ?d _) = _ /\ _ =>
        destruct H as [M L]; unfold Deque.snapshot in *; split; [exact M|];
        rewrite append_length by (rewrite M, L; lia); rewrite M, L; lia
    end.
Qed.

Section MainLoopFacts.
Variable Font : Type.
Variable getbbox : Font -> string -> Z * Z * Z * Z.
Variable format_float : nat -> Q -> string.
Variable sin : Q -> Q.
Variable fonts : Fonts Font.
Variable driver : option string.

Let iteration := main_iteration Font getbbox format_float sin fonts driver.
Let loop := main_loop Font getbbox format_float sin fonts driver.

Lemma touch_input_keeps (st st' : LoopState) (tick : Tick) :
touch_input driver st tick = Py.Ok st' ->
loop_histories st' = loop_histories st /\
last_update st' = last_update st /\
loop_last_net st' = loop_last_net st /\
animation_phase (loop_ui st') = animation_phase (loop_ui st) /\
(screen_in_range (loop_ui st) -> screen_in_range (loop_ui st')).
Proof.
assert (Same : Py.Ok st = Py.Ok st' ->
               loop_histories st' = loop_histories st /\
               last_update st' = last_update st /\
               loop_last_net st' = loop_last_net st /\
               animation_phase (loop_ui st') = animation_phase (loop_ui st) /\
               (screen_in_range (loop_ui st) -> screen_in_range (loop_ui st'))).
{ intros E. injection E as <-. tauto. }
unfold touch_input. destruct (tick_touch tick) as [touch|]; [|exact Same].
destruct (map_touch touch driver) as [[x y]|]; [|exact Same].
destruct (get_usb_drives (tick_touch_fs tick)) as [drives|e]; cbn; [|discriminate].
intros E. injection E as <-.
cbn [set_ui loop_histories last_update loop_last_net loop_ui].
split; [reflexivity|]. split; [reflexivity|]. split; [reflexivity|]. split.
- unfold handle_touch. now destruct (Py.ltb _ _).
- intros R. apply (handle_touch_keeps _ x y drives _ R).
Qed.

(** what one iteration does to the state *)
Lemma main_iteration_spec (st st' : LoopState) (tick : Tick)
  (shown : option (Frame Font)) :
iteration st tick = Py.Ok (st', shown) ->
animation_phase (loop_ui st')
= Float64.add (animation_phase (loop_ui st)) (Float64.lit (1 # 10)) /\
(screen_in_range (loop_ui st) -> screen_in_range (loop_ui st')) /\
match shown with
| Some frame =>
    (UPDATE_INTERVAL <= tick_time tick - last_update st)%Q /\
    last_update st' = tick_time tick /\
    (exists stats, loop_histories st' = update_histories stats (loop_histories st))
| None =>
    (tick_time tick - last_update st < UPDATE_INTERVAL)%Q /\
    last_update st' = last_update st /\
    loop_histories st' = loop_histories st
end.
Proof.
unfold iteration, main_iteration. cbv zeta.
destruct (touch_input driver (set_ui st (advance_phase (loop_ui st))) tick)
  as [st1|e] eqn:T; cbn [Py.bind]; [|discriminate].
apply touch_input_keeps in T. cbn [set_ui loop_histories last_update loop_last_net
                                     loop_ui advance_phase animation_phase] in T.
destruct T as (Th & Tu & Tn & Tp & Tr). rewrite Tu.
destruct (Py.geb (tick_time tick - last_update st) UPDATE_INTERVAL) eqn:G.
- unfold update_display.
  destruct (get_system_stats (tick_readings tick) (loop_last_net st1))
    as [stats last_net].
  destruct (get_version_info (tick_version_file tick) (tick_latest_tag tick))
    as [version is_latest].
  destruct (get_usb_drives (tick_fs tick)) as [drives|e]; cbn [Py.bind fst snd];
    [|discriminate].
  intros E. injection E as <- <-. cbn [loop_ui loop_histories last_update].
  split; [exact Tp|]. split; [exact Tr|]. split.
  + unfold Py.geb in G. apply negb_true_iff, ltb_false_iff in G. exact G.
  + split; [reflexivity|]. exists stats. now rewrite Th.
- intros E. injection E as <- <-.
  split; [exact Tp|]. split; [exact Tr|]. split.
  + unfold Py.geb in G. apply negb_false_iff, ltb_true_iff in G. exact G.
  + split; assumption.
Qed.

Lemma main_loop_spec (ticks : list Tick) :
forall (st st' : LoopState) (frames : list (Q * Frame Font)) (k : nat),
  loop st ticks = Py.Ok (st', frames) ->
  histories_hold (Nat.min HISTORY_SIZE k) (loop_histories st) ->
  histories_hold (Nat.min HISTORY_SIZE (k + length frames)) (loop_histories st') /\
  animation_phase (loop_ui st')
  = Nat.iter (length ticks) (fun phase => Float64.add phase (Float64.lit (1 # 10)))
             (animation_phase (loop_ui st)) /\
  well_spaced (last_update st) UPDATE_INTERVAL (map fst frames) /\
  (length frames <= length ticks)%nat /\
  (screen_in_range (loop_ui st) -> screen_in_range (loop_ui st')).
Proof.
induction ticks as [|tick rest IH]; intros st st' frames k E H.
- cbn in E. injection E as <- <-. cbn [length map well_spaced].
  rewrite Nat.add_0_r. split; [exact H|]. split; [reflexivity|].
  split; [exact I|]. split; [lia | tauto].
- unfold loop in E. cbn [main_loop] in E.
  fold iteration in E. fold loop in E.
  destruct (iteration st tick) as [[st1 shown]|e] eqn:I; cbn [Py.bind] in E;
    [|discriminate].
  cbn [fst snd] in E.
  destruct (loop st1 rest) as [[st2 frames2]|e] eqn:L; cbn [Py.bind] in E;
    [|discriminate].
  cbn [fst snd] in E. injection E as <- <-.
  apply main_iteration_spec in I. destruct I as (Ip & Ir & Is).
  assert (Pn : forall a : Q,
             Nat.iter (length rest)
                      (fun phase => Float64.add phase (Float64.lit (1 # 10)))
                      (Float64.add a (Float64.lit (1 # 10)))
             = Nat.iter (length (tick :: rest))
                        (fun phase => Float64.add phase (Float64.lit (1 # 10))) a).
  { intros a. cbn [length]. now rewrite Nat.iter_succ_r. }
  destruct shown as [frame|].
  + destruct Is as (Ig & Iu & (stats & Ih)).
    assert (H1 : histories_hold (Nat.min HISTORY_SIZE (S k)) (loop_histories st1)).
    { rewrite Ih. now apply update_histories_hold. }
    destruct (IH st1 st2 frames2 (S k) L H1) as (A & B & C & D & F).
    cbn [length map fst well_spaced].
    split; [now replace (k + S (length frames2))%nat with (S k + length frames2)%nat by lia|].
    split; [rewrite B, Ip; apply Pn|].
    split; [split; [exact Ig | now rewrite <- Iu]|].
    split; [lia | tauto].
  + destruct Is as (Ig & Iu & Ih).
    assert (H1 : histories_hold (Nat.min HISTORY_SIZE k) (loop_histories st1))
      by now rewrite Ih.
    destruct (IH st1 st2 frames2 k L H1) as (A & B & C & D & F).
    split; [exact A|].
    split; [rewrite B, Ip; apply Pn|].
    split; [now rewrite <- Iu|].
    split; [cbn [length]; lia | tauto].
Qed.
End MainLoopFacts.

Lemma round_half_even_nonneg (n d : Z) :
  0 <= n -> 0 < d -> 0 <= Float64.round_half_even n d.
Proof.
  intros Hn Hd. unfold Float64.round_half_even.
  assert (Hq : 0 <= n / d) by (apply Z.div_pos; lia).
  destruct (2 * (n mod d) ?= d); [destruct (Z.even (n / d))| |]; lia.
Qed.

Lemma pow2_pos (e : Z) : (0 < Float64.pow2 e)%Q.
Proof.
  unfold Float64.pow2. destruct (0 <=? e) eqn:E.
  - apply Z.leb_le in E. change 0%Q with (inject_Z 0). rewrite <- Zlt_Qlt.
    now apply Z.pow_pos_nonneg.
  - reflexivity.
Qed.

(** rounding gives no negative float for a value that is not negative *)
Lemma round_nonneg (q : Q) : (0 <= q)%Q -> (0 <= Float64.round q)%Q.
Proof.
  intros H. unfold Float64.round. destruct q as [n d]. cbn [Qnum Qden].
  destruct n as [|n|n].
  - apply Qle_refl.
  - unfold Float64.round_pos. rewrite Qred_correct.
    apply Qmult_le_0_compat; [|apply Qlt_le_weak, pow2_pos].
    change 0%Q with (inject_Z 0). rewrite <- Zle_Qle.
    apply round_half_even_nonneg.
    + apply Z.mul_nonneg_nonneg; [lia | apply Z.pow_nonneg; lia].
    + apply Z.mul_pos_pos; [lia | apply Z.pow_pos_nonneg; lia].
  - exfalso. unfold Qle in H. cbn in H. lia.
Qed.

(** adding 0.1 to 0 any number of times never gives a negative phase *)
Lemma phase_nonneg (n : nat) :
  (0 <= Nat.iter n (fun phase => Float64.add phase (Float64.lit (1 # 10))) 0)%Q.
Proof.
  induction n as [|n IH]; [apply Qle_refl|].
  rewrite Nat.iter_succ.
  set (phase := Nat.iter n _ _) in *.
  unfold Float64.add. apply round_nonneg.
  assert (L : (0 <= Float64.lit (1 # 10))%Q) by (vm_compute; discriminate).
  set (tenth := Float64.lit (1 # 10)) in *. lra.
Qed.

(** Three iterations leave the phase at 0.30000000000000004, the float
    above 3/10: the sum carries the rounding of each addition. *)
Example phase_after_three :
  Nat.iter 3 (fun phase => Float64.add phase (Float64.lit (1 # 10))) 0%Q
  = (1351079888211149 # 4503599627370496)%Q /\
  (3 # 10 < Nat.iter 3 (fun phase => Float64.add phase (Float64.lit (1 # 10))) 0)%Q.
Proof. split; vm_compute; reflexivity. Qed.

(** X17. Over any run of main-loop iterations that completes, starting
    from the initial state: the four history series always hold the same
    number of values, [min(HISTORY_SIZE, frames displayed)], one per frame;
    the animation phase is the float reached by adding 0.1 once per
    iteration to 0, each addition rounded (so it depends on the number of
    iterations alone, not on touches or on which iterations drew a frame,
    and it is never negative); frames are displayed no more often than
    once per [UPDATE_INTERVAL] (each at least 0.3 s after the one before,
    the first at least 0.3 s after time 0); and the screen index is still
    in range. *)
Theorem main_loop_invariants :
  forall (Font : Type) (getbbox : Font -> string -> Z * Z * Z * Z)
         (format_float : nat -> Q -> string) (sin : Q -> Q) (fonts : Fonts Font)
         (driver : option string) (ticks : list Tick)
         (st' : LoopState) (frames : list (Q * Frame Font)),
    main_loop Font getbbox format_float sin fonts driver initial_loop ticks
    = Py.Ok (st', frames) ->
    histories_hold (Nat.min HISTORY_SIZE (length frames)) (loop_histories st') /\
    (animation_phase (loop_ui st')
     = Nat.iter (length ticks)
                (fun phase => Float64.add phase (Float64.lit (1 # 10))) 0%Q /\
     (0 <= animation_phase (loop_ui st'))%Q) /\
    well_spaced 0 UPDATE_INTERVAL (map fst frames) /\
    (length frames <= length ticks)%nat /\
    screen_in_range (loop_ui st').
Proof.
  intros Font getbbox ff sin fonts driver ticks st' frames E.
  assert (H0 : histories_hold (Nat.min HISTORY_SIZE 0) (loop_histories initial_loop)).
  { unfold histories_hold. repeat constructor. }
  destruct (main_loop_spec Font getbbox ff sin fonts driver ticks initial_loop st'
              frames 0 E H0) as (A & B & C & D & F).
  split; [exact A|]. split.
  - assert (P : animation_phase (loop_ui st')
                = Nat.iter (length ticks)
                           (fun phase => Float64.add phase (Float64.lit (1 # 10))) 0%Q)
      by exact B.
    split; [exact P|]. rewrite P. apply phase_nonneg.
  - split; [exact C|]. split; [exact D|]. apply F.
    unfold screen_in_range. cbn. lia.
Qed.

Lemma main_loop_invariants_witness :
  let ticks := [sample_tick 1 None;
                sample_tick (105 # 100) (Some (stmpe610_reading 2000 2000 40));
                sample_tick (14 # 10) None] in
  match sample_loop ticks with
  | Py.Ok (st', frames) =>
      map fst frames = [1; 14 # 10]%Q /\
      current_screen (loop_ui st') = 1 /\
      animation_phase (loop_ui st') = (1351079888211149 # 4503599627370496)%Q /\
      histories_hold (Nat.min HISTORY_SIZE (length frames)) (loop_histories st')
  | Py.Raise _ => False
  end.
Proof.
  intros ticks.
  destruct (sample_loop ticks) as [[st' frames]|e] eqn:E.
  - split; [|split; [|split]].
    + apply (f_equal (fun r => match r with
                               | Py.Ok (_, fs) => map fst fs
                               | Py.Raise _ => []
                               end)) in E.
      rewrite <- E. vm_compute. reflexivity.
    + apply (f_equal (fun r => match r with
                               | Py.Ok (s, _) => current_screen (loop_ui s)
                               | Py.Raise _ => 0
                               end)) in E.
      rewrite <- E. vm_compute. reflexivity.
    + apply (f_equal (fun r => match r with
                               | Py.Ok (s, _) => animation_phase (loop_ui s)
                               | Py.Raise _ => 0%Q
                               end)) in E.
      rewrite <- E. vm_compute. reflexivity.
    + exact (proj1 (main_loop_invariants unit Sample.getbbox Sample.format_float
                      Sample.sin Sample.fonts (Some "STMPE610"%string) ticks st' frames E)).
  - apply (f_equal (fun r => match r with Py.Ok _ => true | Py.Raise _ => false end)) in E.
    vm_compute in E. discriminate E.
Defined.

(** ** Version check *)

Lemma str_geb_refl (s : string) : str_geb s s = true.
Proof.
  induction s as [|c s IH]; [reflexivity|]. cbn [str_geb].
  now rewrite Nat.ltb_irrefl.
Qed.

Lemma lstrip_v_fixed (s : string) :
  (forall rest, s <> String "v" rest) -> lstrip_v s = s.
Proof.
  intros H. destruct s as [|c s]; [reflexivity|]. cbn.
  destruct (Ascii.eqb c "v") eqn:E; [|reflexivity].
  apply Ascii.eqb_eq in E. subst c. now destruct (H s).
Qed.

(** X18. The update check fails safe and ignores the tag's leading "v":
    when the release lookup fails, or the release has no tag name, the
    installed version is reported as the latest; and a version that does not
    itself start with "v" is reported as the latest when the tag is that
    version, with or without a "v" in front. When the version file cannot
    be read the version shown is "unknown". *)
Theorem update_check_fails_safe :
  forall (current_version : string) (latest_tag : Py.result string),
    (Py.raises latest_tag -> check_for_updates current_version latest_tag = true) /\
    check_for_updates current_version (Py.Ok ""%string) = true /\
    ((forall rest, current_version <> String "v" rest) ->
     check_for_updates current_version (Py.Ok current_version) = true /\
     check_for_updates current_version (Py.Ok (String "v" current_version)) = true) /\
    (forall version_file,
        Py.raises version_file ->
        fst (get_version_info version_file latest_tag) = "unknown"%string).
Proof.
  intros cur tag. split; [|split; [|split]].
  - intros [e ->]. reflexivity.
  - unfold check_for_updates. cbn. now destruct cur.
  - intros H. unfold check_for_updates. cbn.
    rewrite (lstrip_v_fixed cur H), str_geb_refl. split; reflexivity.
  - intros f [e ->]. reflexivity.
Qed.

Lemma update_check_fails_safe_witness :
  (forall rest, "1.2.0"%string <> String "v" rest) /\
  check_for_updates "1.2.0" (Py.Ok "v1.2.0"%string) = true.
Proof.
  assert (H : forall rest, "1.2.0"%string <> String "v" rest) by (intros rest; discriminate).
  split; [exact H|].
  exact (proj2 (proj1 (proj2 (proj2 (update_check_fails_safe "1.2.0" (Py.Ok ""%string)))) H)).
Defined.

(** The comparison is by characters, not by version numbers: 1.10.0 is
    taken to be older than 1.9.0. *)
Example update_check_lexicographic :
  check_for_updates "1.10.0" (Py.Ok "v1.9.0"%string) = false.
Proof. reflexivity. Qed.

(** ** Boot animation: growth and timeline *)

(** the base size and the explosion intensity as functions of [t] *)
Lemma blob_size_mono (t t' : Q) :
  (0 <= t)%Q -> (t <= t')%Q ->
  (Boot.blob_size (Boot.phase t) <= Boot.blob_size (Boot.phase t'))%Q /\
  (Boot.explosion (Boot.phase t) <= Boot.explosion (Boot.phase t'))%Q /\
  (0 <= Boot.explosion (Boot.phase t))%Q /\
  ((t < 7 # 10)%Q -> (Boot.explosion (Boot.phase t) == 0)%Q) /\
  ((7 # 10 < t)%Q -> (0 < Boot.explosion (Boot.phase t))%Q) /\
  ((t < 1)%Q -> (Boot.explosion (Boot.phase t) < 1)%Q).
Proof.
  intros H0 H.
  apply (phase_cases t); intros; apply (phase_cases t'); intros;
    cbn [Boot.blob_size Boot.explosion]; q_consts; repeat split; intros; lra.
Qed.

(** X19. The base size of the blobs, [blob_size] (the size before the
    pulse factor is applied), never shrinks from one frame of the boot
    sequence to a later one and has no jump where the phases meet: it is 0
    on frame 0, 8 on frame 36 and 16 on frame 63, where the second and the
    third phase begin, and just under 44.9 on the last frame. The explosion
    intensity is 0 up to frame 63, positive after it, never shrinks and
    stays below 1. The size a blob is drawn with, [int(blob_size * pulse)],
    lies between 0 and 53 on every frame, whatever the pulse, as long as
    [sin] stays within [-1, 1]. *)
Theorem boot_base_size_grows :
  forall (cos sin : Q -> Q) (pi : Q) (frame frame' : Z),
    0 <= frame -> frame <= frame' -> frame' < Boot.frames ->
    let size (f : Z) := Boot.blob_size (Boot.phase (Boot.progress f)) in
    let explosion (f : Z) := Boot.explosion (Boot.phase (Boot.progress f)) in
    ((size frame <= size frame')%Q /\ (0 <= size frame)%Q /\
     (size frame' <= size 89%Z)%Q) /\
    ((size 0%Z == 0)%Q /\ (size 36%Z == 8)%Q /\ (size 63%Z == 16)%Q /\
     (4488 # 100 < size 89%Z)%Q /\ (size 89%Z < 4489 # 100)%Q) /\
    ((explosion frame <= explosion frame')%Q /\
     (0 <= explosion frame)%Q /\ (explosion frame' < 1)%Q /\
     (frame <= 63 -> (explosion frame == 0)%Q) /\
     (63 < frame -> (0 < explosion frame)%Q)) /\
    ((forall a : Q, (-1 <= sin a)%Q /\ (sin a <= 1)%Q) ->
     forall b, In b (Boot.blobs cos sin pi (Boot.progress frame)) ->
               0 <= Boot.current_size b <= 53).
Proof.
  intros cos sin pi frame frame' F0 Fle F1 size explosion. subst size explosion.
  cbv beta.
  assert (R : 0 <= frame < Boot.frames) by (unfold Boot.frames in *; lia).
  assert (R' : 0 <= frame' < Boot.frames) by (unfold Boot.frames in *; lia).
  destruct (boot_progress_range frame R) as (T0 & T89 & T1).
  destruct (boot_progress_range frame' R') as (T0' & T89' & T1').
  pose proof (boot_progress_mono frame frame' Fle) as M.
  pose proof (boot_progress_frame frame) as E.
  destruct (blob_size_mono _ _ T0 M) as (S1 & X1 & X2 & X3 & X4 & X5).
  destruct (blob_size_mono _ _ T0' T89') as (S2 & _).
  destruct (blob_size_mono _ _ T0' (Qle_refl _)) as (_ & _ & _ & _ & _ & X6).
  assert (P0 : (0 <= Boot.blob_size (Boot.phase (Boot.progress frame)))%Q)
    by (apply blob_size_min; exact T0).
  assert (P89 : (Boot.blob_size (Boot.phase (Boot.progress 89)) < 4489 # 100)%Q)
    by reflexivity.
  split; [split; [exact S1 | split; [exact P0 | exact S2]]|].
  split; [repeat split|]. split.
  - split; [exact X1|]. split; [exact X2|]. split; [exact (X6 T1')|]. split.
    + intros L. destruct (Z.eq_dec frame 63) as [->|N]; [reflexivity|].
      apply X3.
      assert (Q1 : (inject_Z frame < 63 # 1)%Q).
      { change (63 # 1)%Q with (inject_Z 63). rewrite <- Zlt_Qlt. lia. }
      lra.
    + intros L. apply X4.
      assert (Q1 : (63 # 1 < inject_Z frame)%Q).
      { change (63 # 1)%Q with (inject_Z 63). now rewrite <- Zlt_Qlt. }
      lra.
  - intros Hsin b Hb. unfold Boot.blobs in Hb. apply in_map_iff in Hb.
    destruct Hb as (i & <- & _). cbn [Boot.blob Boot.current_size].
    set (size := Boot.blob_size (Boot.phase (Boot.progress frame))) in *.
    match goal with |- context [sin ?a] => destruct (Hsin a) as [L U]; set (s := sin a) in * end.
    assert (S89 : (size <= Boot.blob_size (Boot.phase (Boot.progress 89)))%Q).
    { destruct (blob_size_mono _ _ T0 T89) as (S3 & _). exact S3. }
    assert (B0 : (0 <= size * (1 + (2 # 10) * s))%Q) by nra.
    assert (B1 : (size * (1 + (2 # 10) * s) < 54 # 1)%Q) by nra.
    pose proof (int_nonneg_bounds _ B0) as [Lo _].
    assert (I0 : 0 <= Py.int (size * (1 + (2 # 10) * s))).
    { rewrite (int_nonneg_floor _ B0). rewrite <- (Qfloor_Z 0).
      apply Qfloor_resp_le. exact B0. }
    split; [exact I0|].
    assert (I1 : (inject_Z (Py.int (size * (1 + (2 # 10) * s))) < inject_Z 54)%Q).
    { change (inject_Z 54) with (54 # 1)%Q. lra. }
    rewrite <- Zlt_Qlt in I1. lia.
Qed.

Lemma boot_base_size_grows_witness :
  0 <= 30 /\ 30 <= 70 /\ 70 < Boot.frames /\
  (Boot.blob_size (Boot.phase (Boot.progress 30))
   <= Boot.blob_size (Boot.phase (Boot.progress 70)))%Q /\
  (Boot.explosion (Boot.phase (Boot.progress 30)) == 0)%Q.
Proof.
  assert (H0 : 0 <= 30) by lia.
  assert (H1 : 30 <= 70) by lia.
  assert (H2 : 70 < Boot.frames) by (unfold Boot.frames; lia).
  split; [exact H0|]. split; [exact H1|]. split; [exact H2|].
  pose proof (boot_base_size_grows (fun _ => 0%Q) (fun _ => 0%Q) 3 30 70 H0 H1 H2) as W.
  cbv zeta beta in W. split.
  - exact (proj1 (proj1 W)).
  - exact (proj1 (proj2 (proj2 (proj2 (proj1 (proj2 (proj2 W)))))) ltac:(lia)).
Defined.

Lemma range_down_nonempty (start step : Z) : range_down start step <> [] <-> 0 < start.
Proof.
  unfold range_down. split.
  - intros H. destruct (Z_lt_le_dec 0 start) as [L|L]; [exact L|].
    exfalso. apply H. destruct (Z.to_nat start) eqn:E; [reflexivity | lia].
  - intros H. destruct (Z.to_nat start) eqn:E; [lia|]. cbn [range_down_fuel].
    assert (G : (start >? 0) = true) by (rewrite Z.gtb_ltb; now apply Z.ltb_lt).
    rewrite G. discriminate.
Qed.

(** X20. The timeline of the 90 boot frames: the label is drawn exactly in
    frames 46 to 89; the tendril block is entered exactly in frames 55 to
    89 but its first four frames draw nothing, the loop over the line
    widths being empty while [int(8 * tendril_alpha)] is 0: tendril lines
    are drawn exactly in frames 59 to 89; explosion particles can only
    appear from frame 77 on, at most 39 of them; the label and tendril
    intensities lie strictly between 0 and 1 and the particle shade within
    [0, 1]. *)
Theorem boot_timeline :
  forall frame : Z,
    0 <= frame < Boot.frames ->
    let t := Boot.progress frame in
    let explosion := Boot.explosion (Boot.phase t) in
    ((exists alpha, Boot.text_alpha t = Some alpha) <-> 46 <= frame) /\
    (forall alpha, Boot.text_alpha t = Some alpha -> (0 < alpha < 1)%Q) /\
    ((exists alpha, BootEffects.tendril_alpha t = Some alpha) <-> 55 <= frame) /\
    (forall alpha, BootEffects.tendril_alpha t = Some alpha -> (0 < alpha < 1)%Q) /\
    ((exists alpha, BootEffects.tendril_alpha t = Some alpha /\
                    forall color1 color2,
                      BootEffects.tendril_lines alpha color1 color2 <> [])
     <-> 59 <= frame) /\
    (forall alpha color1 color2,
        BootEffects.tendril_alpha t = Some alpha -> frame < 59 ->
        BootEffects.tendril_lines alpha color1 color2 = []) /\
    (0 < BootEffects.num_particles explosion -> 77 <= frame) /\
    0 <= BootEffects.num_particles explosion < 40 /\
    ((5 # 10 < explosion)%Q -> (0 <= BootEffects.particle_alpha explosion <= 1)%Q).
Proof.
  intros frame [F0 F1] t explosion. unfold Boot.frames in F1.
  assert (T0 : (0 <= inject_Z frame)%Q).
  { change 0%Q with (inject_Z 0). now rewrite <- Zle_Qle. }
  assert (T1 : (inject_Z frame < 90 # 1)%Q).
  { change (90 # 1)%Q with (inject_Z 90). now rewrite <- Zlt_Qlt. }
  assert (Tt : (t * (90 # 1) == inject_Z frame)%Q) by apply boot_progress_frame.
  assert (Cmp : forall a : Z, (inject_Z a < t * (90 # 1))%Q <-> a < frame).
  { intros a. rewrite Tt. apply inject_Z_lt_const. }
  assert (E01 : (0 <= explosion <= 1)%Q /\ ((5 # 10 < explosion)%Q -> 76 < frame)).
  { subst explosion. apply (phase_cases t); intros; cbn [Boot.explosion]; q_consts.
    - split; [lra|]. intros; lra.
    - split; [lra|]. intros; lra.
    - split; [lra|]. intros He. apply (Cmp 76).
      change (inject_Z 76) with (76 # 1)%Q. lra. }
  destruct E01 as [[E0 E1] E5].
  (* the tendril lines of a frame in the block: drawn from frame 59 on *)
  assert (Lines : forall alpha color1 color2,
             BootEffects.tendril_alpha t = Some alpha ->
             (BootEffects.tendril_lines alpha color1 color2 <> [] <-> 59 <= frame)).
  { intros alpha c1 c2. unfold BootEffects.tendril_alpha.
    destruct (Py.gtb t (6 # 10)) eqn:G; [|discriminate].
    apply gtb_true_iff in G. intros E. injection E as <-.
    unfold BootEffects.tendril_lines.
    set (a8 := (8 * ((t - (6 # 10)) / (4 # 10)))%Q).
    assert (A0 : (0 <= a8)%Q) by (subst a8; q_consts; lra).
    assert (A : (a8 * (9 # 2) == inject_Z frame - 54)%Q).
    { subst a8. rewrite <- Tt. q_consts. ring. }
    pose proof (int_nonneg_bounds a8 A0) as [Lo Hi].
    assert (N : 0 < Py.int a8 <-> 59 <= frame).
    { split.
      - intros P. assert (P1 : (inject_Z 1 <= inject_Z (Py.int a8))%Q)
          by (rewrite <- Zle_Qle; lia).
        change (inject_Z 1) with 1%Q in P1.
        assert (P2 : (inject_Z 58 < inject_Z frame)%Q).
        { change (inject_Z 58) with (58 # 1)%Q. lra. }
        rewrite <- Zlt_Qlt in P2. lia.
      - intros P. assert (P1 : (inject_Z 59 <= inject_Z frame)%Q)
          by now rewrite <- Zle_Qle.
        change (inject_Z 59) with (59 # 1)%Q in P1.
        assert (P3 : (inject_Z 1 < inject_Z (Py.int a8 + 1))%Q).
        { rewrite inject_Z_plus. change (inject_Z 1) with 1%Q. lra. }
        rewrite <- Zlt_Qlt in P3. lia. }
    rewrite <- N, <- (range_down_nonempty (Py.int a8) 2).
    split; intros H C.
    - apply H. now rewrite C.
    - apply H. destruct (range_down (Py.int a8) 2); [reflexivity | discriminate C]. }
  assert (Block : (exists alpha, BootEffects.tendril_alpha t = Some alpha) <-> 55 <= frame).
  { unfold BootEffects.tendril_alpha. destruct (Py.gtb t (6 # 10)) eqn:G.
    + apply gtb_true_iff in G. split; [intros _|eauto].
      assert (54 < frame); [|lia]. apply Cmp. change (inject_Z 54) with (54 # 1)%Q. lra.
    + apply gtb_false_iff in G. split; [intros [a Ha]; discriminate|].
      intros H. exfalso. assert (L : 54 < frame) by lia. apply Cmp in L.
      change (inject_Z 54) with (54 # 1)%Q in L. lra. }
  split; [|split; [|split; [|split; [|split; [|split; [|split; [|split]]]]]]].
  - unfold Boot.text_alpha. destruct (Py.gtb t (5 # 10)) eqn:G.
    + apply gtb_true_iff in G. split; [intros _|eauto].
      assert (45 < frame); [|lia]. apply Cmp. change (inject_Z 45) with (45 # 1)%Q. lra.
    + apply gtb_false_iff in G. split; [intros [a Ha]; discriminate|].
      intros H. exfalso. assert (L : 45 < frame) by lia. apply Cmp in L.
      change (inject_Z 45) with (45 # 1)%Q in L. lra.
  - intros alpha. unfold Boot.text_alpha. destruct (Py.gtb t (5 # 10)) eqn:G;
      [|discriminate]. apply gtb_true_iff in G. intros E. injection E as <-.
    q_consts. lra.
  - exact Block.
  - intros alpha. unfold BootEffects.tendril_alpha.
    destruct (Py.gtb t (6 # 10)) eqn:G; [|discriminate].
    apply gtb_true_iff in G. intros E. injection E as <-. q_consts. lra.
  - split.
    + intros (alpha & Ha & Hl). apply (Lines alpha (0, 0, 0) (0, 0, 0) Ha), Hl.
    + intros H. destruct (proj2 Block ltac:(lia)) as [alpha Ha].
      exists alpha. split; [exact Ha|]. intros c1 c2. now apply (Lines alpha c1 c2 Ha).
  - intros alpha c1 c2 Ha L.
    destruct (BootEffects.tendril_lines alpha c1 c2) eqn:E; [reflexivity|].
    assert (NE : BootEffects.tendril_lines alpha c1 c2 <> []) by (rewrite E; discriminate).
    apply (Lines alpha c1 c2 Ha) in NE. lia.
  - unfold BootEffects.num_particles. destruct (Py.gtb explosion (5 # 10)) eqn:G;
      [|lia]. apply gtb_true_iff in G. intros _. specialize (E5 G). lia.
  - unfold BootEffects.num_particles. destruct (Py.gtb explosion (5 # 10)) eqn:G;
      [|lia]. apply gtb_true_iff in G.
    assert (B : 0 <= Py.int ((explosion - (5 # 10)) * 80) <= 40).
    { apply int_between; [lia | |].
      - change (inject_Z 0) with 0%Q. lra.
      - change (inject_Z 40) with (40 # 1)%Q. lra. }
    assert (S1 : (explosion < 1)%Q).
    { subst explosion. revert G. apply (phase_cases t); intros; cbn [Boot.explosion] in *;
        q_consts; lra. }
    assert (N : Py.int ((explosion - (5 # 10)) * 80) <> 40).
    { intros N.
      pose proof (int_nonneg_bounds ((explosion - (5 # 10)) * 80) ltac:(lra)) as [Lo _].
      rewrite N in Lo. change (inject_Z 40) with (40 # 1)%Q in Lo. lra. }
    lia.
  - intros G. unfold BootEffects.particle_alpha. lra.
Qed.

Lemma boot_timeline_witness :
  0 <= 80 < Boot.frames /\
  BootEffects.num_particles (Boot.explosion (Boot.phase (Boot.progress 80))) = 10 /\
  0 <= BootEffects.num_particles (Boot.explosion (Boot.phase (Boot.progress 80))) < 40.
Proof.
  assert (H : 0 <= 80 < Boot.frames) by (unfold Boot.frames; lia).
  split; [exact H|]. split; [reflexivity|].
  exact (proj1 (proj2 (proj2 (proj2 (proj2 (proj2 (proj2 (proj2 (boot_timeline 80 H))))))))).
Defined.

(** On frame 58 the tendril block is entered and draws nothing; on frame
    59 each tendril is one line of width 1. *)
Example boot_first_tendril :
  (exists alpha, BootEffects.tendril_alpha (Boot.progress 58) = Some alpha /\
                 BootEffects.tendril_lines alpha COLOR_CPU COLOR_NET = []) /\
  (exists alpha, BootEffects.tendril_alpha (Boot.progress 59) = Some alpha /\
                 map fst (BootEffects.tendril_lines alpha COLOR_CPU COLOR_NET) = [1]).
Proof. split; eexists; split; reflexivity. Qed.

Lemma range_down_fuel_in (fuel : nat) :
  forall (start step w : Z),
    0 <= step -> In w (range_down_fuel fuel start step) -> 0 < w <= start.
Proof.
  induction fuel as [|fuel IH]; intros start step w Hs H; [destruct H|].
  cbn [range_down_fuel] in H. destruct (start >? 0) eqn:E; [|destruct H].
  rewrite Z.gtb_ltb in E. apply Z.ltb_lt in E.
  destruct H as [<-|H]; [lia|]. specialize (IH _ _ _ Hs H). lia.
Qed.

Lemma scaled_channel (v : Z) (alpha : Q) :
  0 <= v <= 255 -> (0 <= alpha)%Q -> (alpha <= 1)%Q -> 0 <= Py.int (v * alpha) <= 255.
Proof.
  intros Hv A0 A1.
  assert (V0 : (0 <= inject_Z v)%Q).
  { change 0%Q with (inject_Z 0). rewrite <- Zle_Qle. lia. }
  assert (V1 : (inject_Z v <= 255 # 1)%Q).
  { change (255 # 1)%Q with (inject_Z 255). rewrite <- Zle_Qle. lia. }
  apply int_between; [lia | |].
  - change (inject_Z 0) with 0%Q. nra.
  - change (inject_Z 255) with (255 # 1)%Q. nra.
Qed.

Lemma scale_color_within (alpha : Q) (c : Color) :
  (0 <= alpha)%Q -> (alpha <= 1)%Q -> channels_within 0 255 c ->
  channels_within 0 255 (scale_color alpha c).
Proof.
  intros A0 A1. destruct c as [[r g] b]. intros (R & G & B).
  unfold scale_color, map_color, channels_within.
  split; [|split]; apply scaled_channel; assumption.
Qed.

(** X21. The tendrils of the boot animation are always drawable: for a
    tendril intensity in (0, 1] (which is never 0 where the code divides by
    it) and two valid blob colours, every line has a width between 1 and 8
    and a colour whose channels lie in [0, 255]. *)
Theorem tendril_lines_valid :
  forall (tendril_alpha : Q) (color1 color2 : Color) (w : Z) (c : Color),
    (0 < tendril_alpha)%Q -> (tendril_alpha <= 1)%Q ->
    channels_within 0 255 color1 -> channels_within 0 255 color2 ->
    In (w, c) (BootEffects.tendril_lines tendril_alpha color1 color2) ->
    0 < w <= 8 /\ channels_within 0 255 c.
Proof.
  intros ta [[r1 g1] b1] [[r2 g2] b2] w c T0 T1 (R1 & G1 & B1) (R2 & G2 & B2) H.
  unfold BootEffects.tendril_lines in H. apply in_map_iff in H.
  destruct H as (w' & E & Hw). injection E as -> <-.
  apply range_down_fuel_in in Hw; [|lia].
  pose proof (int_nonneg_bounds (8 * ta) ltac:(lra)) as [Lo Hi].
  assert (W8 : Py.int (8 * ta) <= 8).
  { apply (int_between 0 8); [lia | |].
    - change (inject_Z 0) with 0%Q. lra.
    - change (inject_Z 8) with (8 # 1)%Q. lra. }
  split; [lia|].
  assert (Wq : (0 < inject_Z w)%Q).
  { change 0%Q with (inject_Z 0). rewrite <- Zlt_Qlt. lia. }
  assert (Wle : (inject_Z w <= 8 * ta)%Q).
  { assert (L : (inject_Z w <= inject_Z (Py.int (8 * ta)))%Q) by (rewrite <- Zle_Qle; lia).
    lra. }
  assert (A0 : (0 <= inject_Z w / (8 * ta))%Q).
  { apply Qle_shift_div_l; lra. }
  assert (A1 : (inject_Z w / (8 * ta) <= 1)%Q).
  { apply Qle_shift_div_r; lra. }
  assert (M : forall a b : Z, 0 <= a <= 255 -> 0 <= b <= 255 ->
                0 <= Py.int (inject_Z (a + b) / 2 * (inject_Z w / (8 * ta))) <= 255).
  { intros a b Ha Hb.
    assert (S0 : (0 <= inject_Z (a + b))%Q).
    { change 0%Q with (inject_Z 0). rewrite <- Zle_Qle. lia. }
    assert (S1 : (inject_Z (a + b) <= 510 # 1)%Q).
    { change (510 # 1)%Q with (inject_Z 510). rewrite <- Zle_Qle. lia. }
    set (al := (inject_Z w / (8 * ta))%Q) in *.
    assert (H2 : (0 <= inject_Z (a + b) / 2 <= 255 # 1)%Q).
    { unfold Qdiv. change (/ 2)%Q with (1 # 2)%Q. lra. }
    set (m := (inject_Z (a + b) / 2)%Q) in *.
    apply int_between; [lia | |].
    - change (inject_Z 0) with 0%Q. nra.
    - change (inject_Z 255) with (255 # 1)%Q. nra. }
  unfold channels_within. split; [|split]; apply M; assumption.
Qed.

Lemma tendril_lines_valid_witness :
  (0 < 1 # 2)%Q /\ (1 # 2 <= 1)%Q /\
  In (4, (255, 145, 100)) (BootEffects.tendril_lines (1 # 2) COLOR_CPU COLOR_NET) /\
  channels_within 0 255 (255, 145, 100).
Proof.
  assert (H0 : (0 < 1 # 2)%Q) by reflexivity.
  assert (H1 : (1 # 2 <= 1)%Q) by (vm_compute; discriminate).
  assert (I : In (4, (255, 145, 100))
                 (BootEffects.tendril_lines (1 # 2) COLOR_CPU COLOR_NET))
    by (left; reflexivity).
  split; [exact H0|]. split; [exact H1|]. split; [exact I|].
  exact (proj2 (tendril_lines_valid (1 # 2) COLOR_CPU COLOR_NET 4 (255, 145, 100)
                  H0 H1 ltac:(cbn; lia) ltac:(cbn; lia) I)).
Defined.

(** ** Shutdown animation *)

Lemma in_range (n z : Z) : 0 <= z < n -> In z (range n).
Proof.
  intros H. unfold range. apply in_map_iff. exists (Z.to_nat z).
  split; [lia|]. apply in_seq. lia.
Qed.

Lemma channels_withinb_spec (lo hi : Z) (c : Color) :
  channels_withinb lo hi c = true -> channels_within lo hi c.
Proof.
  destruct c as [[r g] b]. unfold channels_withinb, channels_within.
  rewrite !andb_true_iff, !Z.leb_le. tauto.
Qed.

(** every ring of every frame passes [shutdown_ring_check], and every
    frame [shutdown_text_check] *)
Lemma shutdown_frames_checked :
  forallb (fun frame => shutdown_text_check frame &&
                        forallb (shutdown_ring_check frame) (range Shutdown.num_rings))
          (range Shutdown.frames) = true.
Proof. vm_compute. reflexivity. Qed.

Lemma shutdown_checks (frame i : Z) :
  0 <= frame < Shutdown.frames -> 0 <= i < Shutdown.num_rings ->
  shutdown_text_check frame = true /\ shutdown_ring_check frame i = true.
Proof.
  intros F I. pose proof shutdown_frames_checked as H.
  rewrite forallb_forall in H. specialize (H frame (in_range _ _ F)).
  apply andb_true_iff in H. destruct H as [T R]. split; [exact T|].
  rewrite forallb_forall in R. apply R, in_range, I.
Qed.

(** X22. The rings of the shutdown animation collapse one after the other:
    in frame [f] of the 60, ring [i] of the 15 is drawn exactly when
    [4 * i + f < 60], so ring 0 is drawn in every frame and an outer ring
    disappears every four frames; a ring that is drawn has a radius in
    [0, 160] and a colour with channels in [0, 255]; and the label is drawn
    exactly in frames 0 to 35, in a grey no brighter than (150, 150, 150).
    All of it holds with the rounding of binary64, under which the frame
    and ring fractions are computed. *)
Theorem shutdown_rings_staggered :
  forall frame i : Z,
    0 <= frame < Shutdown.frames -> 0 <= i < Shutdown.num_rings ->
    let t := Shutdown.progress frame in
    ((exists r, Shutdown.ring t i = Some r) <-> 4 * i + frame < 60) /\
    (forall r, Shutdown.ring t i = Some r ->
               0 <= Shutdown.radius r <= 160 /\
               channels_within 0 255 (Shutdown.color r)) /\
    (exists r, Shutdown.ring t 0 = Some r) /\
    ((exists c, Shutdown.text_color t = Some c) <-> frame < 36) /\
    (forall c, Shutdown.text_color t = Some c -> channels_within 0 150 c).
Proof.
  intros frame i F I t. subst t.
  destruct (shutdown_checks frame i F I) as [T R].
  assert (R0 : shutdown_ring_check frame 0 = true).
  { apply (shutdown_checks frame 0 F). unfold Shutdown.num_rings. lia. }
  unfold shutdown_ring_check in R, R0. unfold shutdown_text_check in T.
  split; [|split; [|split; [|split]]].
  - destruct (Shutdown.ring (Shutdown.progress frame) i) as [r|].
    + rewrite !andb_true_iff in R. destruct R as [[[R1 _] _] _].
      apply Z.ltb_lt in R1. split; [intros _; exact R1 | intros _; now exists r].
    + apply negb_true_iff, Z.ltb_ge in R.
      split; [intros [r Hr]; discriminate | lia].
  - intros r Hr. rewrite Hr in R. rewrite !andb_true_iff in R.
    destruct R as [[[_ R2] R3] R4]. apply Z.leb_le in R2, R3.
    split; [lia | now apply channels_withinb_spec].
  - destruct (Shutdown.ring (Shutdown.progress frame) 0) as [r|]; [now exists r|].
    apply negb_true_iff, Z.ltb_ge in R0. unfold Shutdown.frames in F. lia.
  - destruct (Shutdown.text_color (Shutdown.progress frame)) as [c|].
    + apply andb_true_iff in T. destruct T as [T _]. apply Z.ltb_lt in T.
      split; [intros _; exact T | intros _; now exists c].
    + apply negb_true_iff, Z.ltb_ge in T.
      split; [intros [c Hc]; discriminate | lia].
  - intros c Hc. rewrite Hc in T. apply andb_true_iff in T.
    now apply channels_withinb_spec.
Qed.

Lemma shutdown_rings_staggered_witness :
  0 <= 30 < Shutdown.frames /\ 0 <= 7 < Shutdown.num_rings /\
  Shutdown.ring (Shutdown.progress 30) 7
  = Some {| Shutdown.radius := 5; Shutdown.color := (8, 2, 3) |} /\
  Shutdown.ring (Shutdown.progress 30) 8 = None /\
  4 * 7 + 30 < 60.
Proof.
  assert (F : 0 <= 30 < Shutdown.frames) by (unfold Shutdown.frames; lia).
  assert (I : 0 <= 7 < Shutdown.num_rings) by (unfold Shutdown.num_rings; lia).
  split; [exact F|]. split; [exact I|].
  split; [vm_compute; reflexivity|]. split; [vm_compute; reflexivity|].
  apply (proj1 (shutdown_rings_staggered 30 7 F I)). eexists. vm_compute. reflexivity.
Defined.

(** ** docs/redesigned-dashboard.py: navigation *)

(** X23. Navigation of the redesigned dashboard: a touch within the
    debounce interval of the last accepted one changes nothing; an accepted
    touch on the overview opens the drives screen wherever it lands; on the
    drives screen an accepted touch on the left half ([x < 160]) returns to
    the overview, and one on the right half keeps the drives screen but
    still restarts the debounce interval. The screen never leaves
    [{0, 1}]. *)
Theorem redesigned_navigation :
  forall (D : Type) (t : Q) (x y : Z) (drives : list D) (s : RedesignedNav.State),
    let s' := RedesignedNav.handle_touch t x y drives s in
    ((t - RedesignedNav.last_touch_time s < RedesignedNav.touch_debounce s)%Q ->
     s' = s) /\
    ((RedesignedNav.touch_debounce s <= t - RedesignedNav.last_touch_time s)%Q ->
     RedesignedNav.last_touch_time s' = t /\
     (RedesignedNav.current_screen s = 0 -> RedesignedNav.current_screen s' = 1) /\
     (RedesignedNav.current_screen s = 1 -> x < 160 ->
      RedesignedNav.current_screen s' = 0) /\
     (RedesignedNav.current_screen s = 1 -> 160 <= x ->
      RedesignedNav.current_screen s' = 1)) /\
    (0 <= RedesignedNav.current_screen s <= 1 ->
     0 <= RedesignedNav.current_screen s' <= 1).
Proof.
  intros D t x y drives s s'. subst s'. unfold RedesignedNav.handle_touch.
  split; [|split].
  - intros H. apply ltb_true_iff in H. now rewrite H.
  - intros H. apply ltb_false_iff in H. rewrite H. cbv zeta.
    cbn [RedesignedNav.current_screen RedesignedNav.last_touch_time
         RedesignedNav.touch_debounce].
    split; [|split; [|split]].
    + destruct (RedesignedNav.current_screen s =? 0); [reflexivity|].
      destruct (RedesignedNav.current_screen s =? 1); [|reflexivity].
      destruct (x <? 160); reflexivity.
    + intros ->. reflexivity.
    + intros -> Hx. apply Z.ltb_lt in Hx. cbn. now rewrite Hx.
    + intros -> Hx. apply Z.ltb_ge in Hx. cbn. now rewrite Hx.
  - intros R. destruct (Py.ltb _ _); [exact R|]. cbv zeta.
    cbn [RedesignedNav.current_screen RedesignedNav.last_touch_time
         RedesignedNav.touch_debounce].
    destruct (RedesignedNav.current_screen s =? 0); [cbn; lia|].
    destruct (RedesignedNav.current_screen s =? 1); [|exact R].
    destruct (x <? 160); cbn; lia.
Qed.

Lemma redesigned_navigation_witness :
  let s := RedesignedNav.handle_touch (D := unit) 1 10 10 [] RedesignedNav.initial in
  (RedesignedNav.touch_debounce s <= 2 - RedesignedNav.last_touch_time s)%Q /\
  RedesignedNav.current_screen s = 1 /\ 200 >= 160 /\
  RedesignedNav.current_screen (RedesignedNav.handle_touch (D := unit) 2 200 10 [] s) = 1 /\
  RedesignedNav.last_touch_time (RedesignedNav.handle_touch (D := unit) 2 200 10 [] s) = 2%Q.
Proof.
  intros s.
  assert (H : (RedesignedNav.touch_debounce s <= 2 - RedesignedNav.last_touch_time s)%Q)
    by (vm_compute; discriminate).
  assert (C : RedesignedNav.current_screen s = 1) by reflexivity.
  split; [exact H|]. split; [exact C|]. split; [lia|].
  pose proof (proj1 (proj2 (redesigned_navigation unit 2 200 10 [] s)) H) as (L & _ & _ & R).
  split; [exact (R C ltac:(lia)) | exact L].
Defined.

(** ** docs/new-dashboard.py *)

(** X24. In new-dashboard.py too, [map_touch] returns a point only for a
    pressed panel with a readable point: it returns nothing when there is
    no touch controller; when the controller's [touched] attribute (or,
    for a controller without one, its [tirq_touched()] method) says no or
    raises; when [touch_point] is [None], raises or has fewer than two
    coordinates. In every other case it returns a point, and a point it
    returns always lies on the screen, although the xpt2046 calibration
    does not normalise the raw values first. *)
Theorem new_dashboard_map_touch_on_screen :
  forall (touch : NewDashboardUI.Touch) (driver : option string),
    let pressed :=
      if NewDashboardUI.has_touched touch
      then NewDashboardUI.touched touch = Py.Ok true
      else if NewDashboardUI.has_tirq_touched touch
           then NewDashboardUI.tirq_touched touch = Py.Ok true
           else True in
    let readable :=
      exists x_raw y_raw rest,
        NewDashboardUI.touch_point touch = Py.Ok (Some (x_raw :: y_raw :: rest)) in
    NewDashboardUI.map_touch None driver = None /\
    (NewDashboardUI.has_touched touch = true ->
     NewDashboardUI.touched touch <> Py.Ok true ->
     NewDashboardUI.map_touch (Some touch) driver = None) /\
    (NewDashboardUI.has_touched touch = false ->
     NewDashboardUI.has_tirq_touched touch = true ->
     NewDashboardUI.tirq_touched touch <> Py.Ok true ->
     NewDashboardUI.map_touch (Some touch) driver = None) /\
    (NewDashboardUI.touch_point touch = Py.Ok None ->
     NewDashboardUI.map_touch (Some touch) driver = None) /\
    (Py.raises (NewDashboardUI.touch_point touch) ->
     NewDashboardUI.map_touch (Some touch) driver = None) /\
    (forall p, NewDashboardUI.touch_point touch = Py.Ok (Some p) ->
               (length p < 2)%nat ->
               NewDashboardUI.map_touch (Some touch) driver = None) /\
    (pressed -> readable ->
     exists x y, NewDashboardUI.map_touch (Some touch) driver = Some (x, y)) /\
    (forall x y, NewDashboardUI.map_touch (Some touch) driver = Some (x, y) ->
                 pressed /\ readable /\
                 0 <= x <= WIDTH - 1 /\ 0 <= y <= HEIGHT - 1).
Proof.
  intros touch driver pressed readable. subst pressed readable.
  unfold NewDashboardUI.map_touch, NewDashboardUI.map_touch_body.
  assert (C : forall a b x y,
             Py.try_except
               (Py.Ok (Some (Py.maxZ 0 (Py.minZ (WIDTH - 1) a),
                             Py.maxZ 0 (Py.minZ (HEIGHT - 1) b)))) None = Some (x, y) ->
             0 <= x <= WIDTH - 1 /\ 0 <= y <= HEIGHT - 1).
  { intros a b x y E. cbn in E. injection E as <- <-.
    split; apply clamp_range; unfold WIDTH, HEIGHT; lia. }
  destruct touch as [ht t htq tq tp]. cbn [NewDashboardUI.has_touched
    NewDashboardUI.touched NewDashboardUI.has_tirq_touched
    NewDashboardUI.tirq_touched NewDashboardUI.touch_point].
  split; [reflexivity|].
  split; [|split; [|split; [|split; [|split; [|split]]]]].
  - intros -> H. destruct t as [[|]|]; cbn; congruence.
  - intros -> -> H. destruct tq as [[|]|]; cbn; congruence.
  - intros ->. destruct ht; [destruct t as [[|]|]
                           |destruct htq; [destruct tq as [[|]|]|]]; reflexivity.
  - intros [e ->]. destruct ht; [destruct t as [[|]|]
                                |destruct htq; [destruct tq as [[|]|]|]]; reflexivity.
  - intros p -> L.
    assert (U : NewDashboardUI.unpack_first_two p = Py.Raise Py.ValueError).
    { destruct p as [|a [|b rest]]; cbn in *; [reflexivity | reflexivity | lia]. }
    destruct ht; [destruct t as [[|]|]
                 |destruct htq; [destruct tq as [[|]|]|]]; cbn; try reflexivity;
      now rewrite U.
  - intros P (x_raw & y_raw & rest & ->).
    destruct ht; [rewrite P | destruct htq; [rewrite P|]]; cbn;
      destruct (driver_is driver "xpt2046");
      try destruct (calibrate 200 3800 200 3800 x_raw y_raw); cbn;
      do 2 eexists; reflexivity.
  - intros x y.
    destruct ht; [destruct t as [[|]|]
                 |destruct htq; [destruct tq as [[|]|]|]]; cbn; try discriminate;
      (destruct tp as [[[|a [|b rest]]|]|]; cbn; try discriminate;
       intros E; split; [reflexivity|]; split; [now exists a, b, rest|];
       revert E; destruct (driver_is driver "xpt2046"); apply C).
Qed.

Lemma new_dashboard_map_touch_on_screen_witness :
  let touch := {| NewDashboardUI.has_touched := false;
                  NewDashboardUI.touched := Py.Raise Py.OSError;
                  NewDashboardUI.has_tirq_touched := true;
                  NewDashboardUI.tirq_touched := Py.Ok true;
                  NewDashboardUI.touch_point := Py.Ok (Some [5000%Q; 10%Q; 3%Q]) |} in
  let released := {| NewDashboardUI.has_touched := false;
                     NewDashboardUI.touched := Py.Raise Py.OSError;
                     NewDashboardUI.has_tirq_touched := true;
                     NewDashboardUI.tirq_touched := Py.Ok false;
                     NewDashboardUI.touch_point := Py.Ok (Some [5000%Q; 10%Q; 3%Q]) |} in
  NewDashboardUI.map_touch (Some touch) (Some "xpt2046"%string) = Some (0, 0) /\
  (0 <= 0 <= WIDTH - 1 /\ 0 <= 0 <= HEIGHT - 1) /\
  NewDashboardUI.map_touch (Some released) (Some "xpt2046"%string) = None.
Proof.
  intros touch released.
  assert (E : NewDashboardUI.map_touch (Some touch) (Some "xpt2046"%string) = Some (0, 0))
    by reflexivity.
  split; [exact E|]. split.
  - exact (proj2 (proj2
             (proj2 (proj2 (proj2 (proj2 (proj2 (proj2 (proj2
                (new_dashboard_map_touch_on_screen touch (Some "xpt2046"%string))))))))
                0 0 E))).
  - refine (proj1 (proj2 (proj2 (new_dashboard_map_touch_on_screen released
                                   (Some "xpt2046"%string))))
              eq_refl eq_refl _).
    discriminate.
Defined.

Lemma py_max_ge (a b : Q) : (a <= Py.max a b)%Q /\ (b <= Py.max a b)%Q.
Proof.
  unfold Py.max. destruct (Py.gtb b a) eqn:E.
  - apply gtb_true_iff in E. split; lra.
  - apply gtb_false_iff in E. split; lra.
Qed.

Lemma py_min_le (a b : Q) : (Py.min a b <= a)%Q /\ (Py.min a b <= b)%Q.
Proof.
  unfold Py.min. destruct (Py.ltb b a) eqn:E.
  - apply ltb_true_iff in E. split; lra.
  - apply ltb_false_iff in E. split; lra.
Qed.

Lemma list_max_bound (rest : list Q) :
  forall first : Q,
    (first <= NewDashboardUI.list_max first rest)%Q /\
    forall v, In v rest -> (v <= NewDashboardUI.list_max first rest)%Q.
Proof.
  unfold NewDashboardUI.list_max.
  induction rest as [|a rest IH]; intros first; cbn [fold_left].
  - split; [lra | intros v []].
  - destruct (IH (Py.max first a)) as [H1 H2]. destruct (py_max_ge first a) as [M1 M2].
    split; [lra|]. intros v [<-|Hv]; [lra | now apply H2].
Qed.

Lemma list_min_bound (rest : list Q) :
  forall first : Q,
    (NewDashboardUI.list_min first rest <= first)%Q /\
    forall v, In v rest -> (NewDashboardUI.list_min first rest <= v)%Q.
Proof.
  unfold NewDashboardUI.list_min.
  induction rest as [|a rest IH]; intros first; cbn [fold_left].
  - split; [lra | intros v []].
  - destruct (IH (Py.min first a)) as [H1 H2]. destruct (py_min_le first a) as [M1 M2].
    split; [lra|]. intros v [<-|Hv]; [lra | now apply H2].
Qed.

Lemma chart_scale_spec (data : list Q) :
  let '(min_val, max_val) := NewDashboardUI.chart_scale data in
  (min_val < max_val)%Q /\ forall v, In v data -> (min_val <= v <= max_val)%Q.
Proof.
  destruct data as [|first rest]; cbn [NewDashboardUI.chart_scale].
  - split; [reflexivity | intros v []].
  - destruct (list_max_bound rest first) as [X1 X2].
    destruct (list_min_bound rest first) as [N1 N2].
    assert (B : forall v, In v (first :: rest) ->
                          (NewDashboardUI.list_min first rest <= v
                           <= NewDashboardUI.list_max first rest)%Q).
    { intros v [<-|Hv]; [lra|]. split; [now apply N2 | now apply X2]. }
    destruct (Qeq_bool _ _) eqn:E.
    + apply Qeq_bool_iff in E. split; [lra|]. intros v Hv. specialize (B v Hv). lra.
    + apply Qeq_bool_neq in E. split; [|exact B].
      destruct (Qlt_le_dec (NewDashboardUI.list_min first rest)
                           (NewDashboardUI.list_max first rest)) as [L|L]; [exact L|].
      exfalso. apply E. lra.
Qed.

(** X25. The chart of new-dashboard.py scales to the data it is given and
    stays in its box: the scale never has [max_val <= min_val] (a constant
    series gets [max_val = min_val + 1], so nothing is divided by zero),
    every sample lies within the scale, and for a width and height that are
    not negative every point of the chart lies inside
    [(x, y) .. (x + width, y + height)], whatever the values. *)
Theorem new_dashboard_chart_inside :
  forall (x y width height : Z) (data : list Q),
    (let '(min_val, max_val) := NewDashboardUI.chart_scale data in
     (min_val < max_val)%Q /\ forall v, In v data -> (min_val <= v <= max_val)%Q) /\
    (0 <= width -> 0 <= height ->
     forall cx cy,
       In (cx, cy) (NewDashboardUI.chart_points x y width height data) ->
       x <= cx <= x + width /\ y <= cy <= y + height).
Proof.
  intros x y width height data. split; [apply chart_scale_spec|].
  intros Hw Hh cx cy H. unfold NewDashboardUI.chart_points in H.
  pose proof (chart_scale_spec data) as S.
  destruct (NewDashboardUI.chart_scale data) as [mn mx]. destruct S as [Slt Sin].
  apply in_map_iff in H. destruct H as ([i v] & E & Hiv). injection E as <- <-.
  assert (Hv : In v data) by (unfold enumerate in Hiv; eapply in_combine_r, Hiv).
  assert (Hi : 0 <= i < Z.of_nat (length data)).
  { unfold enumerate, range in Hiv. apply in_combine_l in Hiv.
    rewrite Nat2Z.id in Hiv. apply in_map_iff in Hiv. destruct Hiv as (k & <- & Hk).
    apply in_seq in Hk. lia. }
  split.
  - assert (D0 : 0 <= i * width / Z.of_nat (length data)) by (apply Z.div_pos; nia).
    assert (D1 : i * width / Z.of_nat (length data) <= width).
    { apply Z.div_le_upper_bound; nia. }
    lia.
  - destruct (Sin v Hv) as [V0 V1].
    assert (Hq : (0 <= inject_Z height)%Q).
    { change 0%Q with (inject_Z 0). now rewrite <- Zle_Qle. }
    assert (R : 0 <= Py.int ((v - mn) * inject_Z height / (mx - mn)) <= height).
    { apply int_between; [lia | |].
      - change (inject_Z 0) with 0%Q. apply Qle_shift_div_l; [lra|].
        rewrite Qmult_0_l. apply Qmult_le_0_compat; lra.
      - apply Qle_shift_div_r; [lra|].
        rewrite (Qmult_comm (inject_Z height)). apply Qmult_le_compat_r; lra. }
    lia.
Qed.

Lemma new_dashboard_chart_inside_witness :
  0 <= 75 /\ 0 <= 40 /\
  In (30, 50) (NewDashboardUI.chart_points 5 50 75 40 [3; 120000; 7]%Q) /\
  5 <= 30 <= 5 + 75 /\ 50 <= 50 <= 50 + 40.
Proof.
  assert (I : In (30, 50) (NewDashboardUI.chart_points 5 50 75 40 [3; 120000; 7]%Q))
    by (right; left; reflexivity).
  split; [lia|]. split; [lia|]. split; [exact I|].
  exact (proj2 (new_dashboard_chart_inside 5 50 75 40 [3; 120000; 7]%Q)
           ltac:(lia) ltac:(lia) 30 50 I).
Defined.

Lemma hit_test_spec {D : Type} (x y : Z) (drives : list D) :
  forall (i : nat) (y_pos : Z) (a : NewDashboardUI.Action),
    NewDashboardUI.hit_test x y i y_pos drives = Some a <->
    exists k : nat,
      (k < length drives)%nat /\
      y_pos + 50 * Z.of_nat k <= HEIGHT - 60 /\
      y_pos + 25 + 50 * Z.of_nat k <= y <= y_pos + 40 + 50 * Z.of_nat k /\
      ((5 <= x <= 60 /\ a = NewDashboardUI.ToggleShare (i + k)) \/
       (70 <= x <= 125 /\ a = NewDashboardUI.FormatDrive (i + k) "exfat")).
Proof.
  unfold HEIGHT.
  induction drives as [|d rest IH]; intros i y_pos a; cbn [NewDashboardUI.hit_test length].
  - split; [discriminate | intros (k & Hk & _); lia].
  - unfold HEIGHT. destruct (Z.gtb_spec y_pos (240 - 60)) as [G|G].
    { split; [discriminate | intros (k & _ & Hy & _); lia]. }
    replace (y_pos + 25 + 15) with (y_pos + 40) by lia.
    destruct (Z.leb_spec 5 x), (Z.leb_spec x 60), (Z.leb_spec (y_pos + 25) y),
             (Z.leb_spec y (y_pos + 40)),
             (Z.leb_spec 70 x), (Z.leb_spec x 125); cbn [andb];
      lazymatch goal with
      | |- NewDashboardUI.hit_test _ _ _ _ _ = _ <-> _ =>
          rewrite IH; split;
          [ intros (k & Qk & Q1 & Q2 & Q3); exists (S k);
            rewrite Nat2Z.inj_succ; rewrite <- plus_n_Sm;
            (split; [lia|]); (split; [lia|]); (split; [lia|]); exact Q3
          | intros ([|k] & Qk & Q1 & Q2 & Q3);
            [ change (Z.of_nat 0) with 0 in Q2; lia
            | exists k; rewrite Nat2Z.inj_succ in Q1, Q2;
              rewrite <- plus_n_Sm in Q3;
              (split; [lia|]); (split; [lia|]); (split; [lia|]); exact Q3 ] ]
      | |- Some _ = _ <-> _ =>
          split;
          [ intros [= <-]; exists 0%nat; rewrite Nat.add_0_r;
            change (Z.of_nat 0) with 0;
            (split; [lia|]); (split; [lia|]); (split; [lia|]);
            first [ left; split; [lia | reflexivity]
                  | right; split; [lia | reflexivity] ]
          | intros ([|k] & Qk & Q1 & Q2 & Q3);
            [ rewrite Nat.add_0_r in Q3;
              destruct Q3 as [[Q3 ->]|[Q3 ->]]; first [reflexivity | lia]
            | rewrite Nat2Z.inj_succ in Q2; lia ] ]
      end.
Qed.

Lemma drives_loop_buttons {Font : Type} (format_float : nat -> Q -> string)
    (font_medium font_small : Font) (o : NewDashboardUI.Outside)
    (drives : list USBDrive) :
  forall (k i : nat) (y_pos : Z) (d : USBDrive),
    nth_error drives k = Some d ->
    y_pos + 68 * Z.of_nat k <= HEIGHT - 60 ->
    let button_y := y_pos + 43 + 68 * Z.of_nat k in
    let drawn := NewDashboardUI.drives_loop Font format_float font_medium font_small
                   o i y_pos drives in
    In (Rectangle (ibox 5 button_y 60 (button_y + 15)) None (Some (255, 255, 255))) drawn /\
    In (Rectangle (ibox 70 button_y 125 (button_y + 15)) None (Some (255, 100, 100))) drawn.
Proof.
  unfold HEIGHT.
  induction drives as [|d0 rest IH]; intros k i y_pos d Hn Hy; [now destruct k|].
  cbn [NewDashboardUI.drives_loop]. unfold HEIGHT.
  destruct (Z.gtb_spec y_pos (240 - 60)) as [G|G]; [lia|].
  destruct k as [|k]; cbn [nth_error] in Hn.
  - cbn zeta. change (Z.of_nat 0) with 0. rewrite Z.mul_0_r, Z.add_0_r.
    replace (y_pos + 43) with (y_pos + 18 + 25) by lia.
    split; apply in_or_app; left; unfold NewDashboardUI.drive_rows; cbn zeta;
      cbn [In]; tauto.
  - rewrite Nat2Z.inj_succ in *.
    destruct (IH k (S i) (y_pos + 18 + 50) d Hn ltac:(lia)) as [A B].
    cbn zeta in A, B |- *.
    replace (y_pos + 18 + 50 + 43 + 68 * Z.of_nat k)
      with (y_pos + 43 + 68 * Z.succ (Z.of_nat k)) in A, B by lia.
    split; apply in_or_app; right; assumption.
Qed.

Lemma new_dashboard_touch_elsewhere {D : Type} (drives : list D)
    (s : NewDashboardUI.State) (current_time : Q) (x y : Z) :
  NewDashboardUI.current_screen s = 1 ->
  Py.ltb (current_time - NewDashboardUI.last_touch_time s)
         (NewDashboardUI.touch_debounce s) = false ->
  (forall k : nat, (k < length drives)%nat -> (k < 3)%nat ->
                   73 + 50 * Z.of_nat k <= y <= 88 + 50 * Z.of_nat k ->
                   ~ (5 <= x <= 60 \/ 70 <= x <= 125)) ->
  NewDashboardUI.handle_touch current_time x y drives s
  = ({| NewDashboardUI.current_screen := 0;
        NewDashboardUI.last_touch_time := current_time;
        NewDashboardUI.touch_debounce := NewDashboardUI.touch_debounce s |}, None).
Proof.
  intros Hs Hd Hno. unfold NewDashboardUI.handle_touch. rewrite Hd.
  cbn [NewDashboardUI.current_screen NewDashboardUI.last_touch_time
       NewDashboardUI.touch_debounce]. rewrite Hs. cbn [Z.eqb Pos.eqb].
  destruct (NewDashboardUI.hit_test x y 0 48 drives) as [a|] eqn:E; [|reflexivity].
  exfalso. apply hit_test_spec in E. destruct E as (k & K1 & K2 & K3 & K4).
  unfold HEIGHT in K2. apply (Hno k); [lia | lia | lia |].
  destruct K4 as [[K4 _]|[K4 _]]; [left | right]; exact K4.
Qed.

(** ** The drive buttons of docs/new-dashboard.py *)

(** X26. On the drives screen of new-dashboard.py an accepted touch is
    tested against the buttons of the first three drives at most, at rows
    [73 + 50 k .. 88 + 50 k]: in columns 5..60 it toggles the share of drive
    [k], in columns 70..125 it formats drive [k] as exfat at once (one
    touch, no second tap and no confirmation), and the screen stays the
    drives screen; a touch on no button goes back to the overview and calls
    nothing.  The time of the touch is recorded in each case. *)
Theorem new_dashboard_drive_buttons :
  forall (D : Type) (drives : list D) (s : NewDashboardUI.State)
         (current_time : Q) (x y : Z),
    NewDashboardUI.current_screen s = 1 ->
    Py.ltb (current_time - NewDashboardUI.last_touch_time s)
           (NewDashboardUI.touch_debounce s) = false ->
    let hit (k : nat) :=
      (k < length drives)%nat /\ (k < 3)%nat /\
      73 + 50 * Z.of_nat k <= y <= 88 + 50 * Z.of_nat k in
    let after (screen : Z) :=
      {| NewDashboardUI.current_screen := screen;
         NewDashboardUI.last_touch_time := current_time;
         NewDashboardUI.touch_debounce := NewDashboardUI.touch_debounce s |} in
    (forall k, hit k -> 5 <= x <= 60 ->
       NewDashboardUI.handle_touch current_time x y drives s
       = (after 1, Some (NewDashboardUI.ToggleShare k))) /\
    (forall k, hit k -> 70 <= x <= 125 ->
       NewDashboardUI.handle_touch current_time x y drives s
       = (after 1, Some (NewDashboardUI.FormatDrive k "exfat"))) /\
    ((forall k, hit k -> ~ (5 <= x <= 60 \/ 70 <= x <= 125)) ->
       NewDashboardUI.handle_touch current_time x y drives s = (after 0, None)).
Proof.
  intros D drives s t x y Hs Hd hit after. subst hit after.
  split; [|split].
  - intros k (K1 & K2 & K3) Hx.
    unfold NewDashboardUI.handle_touch. rewrite Hd.
    cbn [NewDashboardUI.current_screen NewDashboardUI.last_touch_time
         NewDashboardUI.touch_debounce]. rewrite Hs. cbn [Z.eqb Pos.eqb].
    assert (E : NewDashboardUI.hit_test x y 0 48 drives
                = Some (NewDashboardUI.ToggleShare k)).
    { apply hit_test_spec. exists k. unfold HEIGHT.
      split; [lia|]. split; [lia|]. split; [lia|]. left. split; [lia|reflexivity]. }
    now rewrite E.
  - intros k (K1 & K2 & K3) Hx.
    unfold NewDashboardUI.handle_touch. rewrite Hd.
    cbn [NewDashboardUI.current_screen NewDashboardUI.last_touch_time
         NewDashboardUI.touch_debounce]. rewrite Hs. cbn [Z.eqb Pos.eqb].
    assert (E : NewDashboardUI.hit_test x y 0 48 drives
                = Some (NewDashboardUI.FormatDrive k "exfat")).
    { apply hit_test_spec. exists k. unfold HEIGHT.
      split; [lia|]. split; [lia|]. split; [lia|]. right. split; [lia|reflexivity]. }
    now rewrite E.
  - intros Hno. apply new_dashboard_touch_elsewhere; [exact Hs | exact Hd |].
    intros k K1 K2 K3. apply (Hno k). split; [exact K1|]. split; [exact K2 | exact K3].
Qed.

Lemma new_dashboard_drive_buttons_witness :
  NewDashboardUI.handle_touch 10 100 130 [tt; tt]
    {| NewDashboardUI.current_screen := 1;
       NewDashboardUI.last_touch_time := 2;
       NewDashboardUI.touch_debounce := 3 # 10 |}
  = ({| NewDashboardUI.current_screen := 1;
        NewDashboardUI.last_touch_time := 10;
        NewDashboardUI.touch_debounce := 3 # 10 |},
     Some (NewDashboardUI.FormatDrive 1 "exfat")).
Proof.
  refine (proj1 (proj2 (new_dashboard_drive_buttons unit [tt; tt]
            {| NewDashboardUI.current_screen := 1;
               NewDashboardUI.last_touch_time := 2;
               NewDashboardUI.touch_debounce := 3 # 10 |}
            10 100 130 eq_refl eq_refl)) 1%nat _ _).
  - cbn [length]. split; [lia|]. split; [lia|]. cbn. lia.
  - lia.
Defined.

(** X27. The drives screen of new-dashboard.py draws the buttons of the
    drive at index [k] (the first three drives at most) in rows
    [73 + 68 k .. 88 + 68 k], while [handle_touch] tests rows
    [73 + 50 k .. 88 + 50 k].  So for the second and the third drive an
    accepted touch anywhere in the rows of the drawn buttons calls no
    method of any drive and goes back to the overview. *)
Theorem new_dashboard_drawn_buttons_offset :
  forall (Font : Type) (format_float : nat -> Q -> string)
         (font_big font_medium font_small : Font) (o : NewDashboardUI.Outside)
         (drives : list USBDrive) (k : nat) (d : USBDrive),
    nth_error drives k = Some d ->
    (k < 3)%nat ->
    let button_y := 73 + 68 * Z.of_nat k in
    let drawn := NewDashboardUI.draw_drives_screen Font format_float
                   font_big font_medium font_small o drives in
    In (Rectangle (ibox 5 button_y 60 (button_y + 15)) None (Some (255, 255, 255))) drawn /\
    In (Rectangle (ibox 70 button_y 125 (button_y + 15)) None (Some (255, 100, 100))) drawn /\
    forall (s : NewDashboardUI.State) (current_time : Q) (x y : Z),
      (0 < k)%nat ->
      NewDashboardUI.current_screen s = 1 ->
      Py.ltb (current_time - NewDashboardUI.last_touch_time s)
             (NewDashboardUI.touch_debounce s) = false ->
      button_y <= y <= button_y + 15 ->
      NewDashboardUI.handle_touch current_time x y drives s
      = ({| NewDashboardUI.current_screen := 0;
            NewDashboardUI.last_touch_time := current_time;
            NewDashboardUI.touch_debounce := NewDashboardUI.touch_debounce s |}, None).
Proof.
  intros Font format_float font_big font_medium font_small o drives k d Hn Hk
         button_y drawn.
  assert (B := drives_loop_buttons format_float font_medium font_small o drives
                 k 0%nat 30 d Hn ltac:(unfold HEIGHT; lia)).
  cbn zeta in B. replace (30 + 43 + 68 * Z.of_nat k) with button_y in B
    by (subst button_y; lia).
  assert (Hd : drawn = Text (ipt 5 5) "USB Drive Manager" font_big (255, 255, 255)
                       :: NewDashboardUI.drives_loop Font format_float font_medium
                            font_small o 0 30 drives).
  { subst drawn. unfold NewDashboardUI.draw_drives_screen.
    destruct drives; [now destruct k | reflexivity]. }
  rewrite Hd. split; [right; apply B|]. split; [right; apply B|].
  intros s t x y Hpos Hs Hdeb Hy.
  apply (new_dashboard_touch_elsewhere drives s t x y Hs Hdeb).
  intros j J1 J2 J3. subst button_y. lia.
Qed.

Lemma new_dashboard_drawn_buttons_offset_witness :
  let o := {| NewDashboardUI.conf_read := fun _ _ => Py.Ok "[usb1]"%string;
              NewDashboardUI.findmnt_run := fun _ => Py.Ok "exfat"%string |} in
  let drives := [Sample.drive; Sample.drive] in
  In (Rectangle (ibox 70 141 125 156) None (Some (255, 100, 100)))
     (NewDashboardUI.draw_drives_screen unit Sample.format_float tt tt tt o drives) /\
  NewDashboardUI.handle_touch 10 100 150 drives
    {| NewDashboardUI.current_screen := 1;
       NewDashboardUI.last_touch_time := 2;
       NewDashboardUI.touch_debounce := 3 # 10 |}
  = ({| NewDashboardUI.current_screen := 0;
        NewDashboardUI.last_touch_time := 10;
        NewDashboardUI.touch_debounce := 3 # 10 |}, None).
Proof.
  intros o drives.
  pose proof (new_dashboard_drawn_buttons_offset unit Sample.format_float tt tt tt o
                drives 1%nat Sample.drive eq_refl ltac:(lia)) as W.
  cbn zeta in W. destruct W as (_ & W2 & W3). split; [exact W2|].
  refine (W3 {| NewDashboardUI.current_screen := 1;
                 NewDashboardUI.last_touch_time := 2;
                 NewDashboardUI.touch_debounce := 3 # 10 |}
             10%Q 100 150 ltac:(lia) eq_refl eq_refl _).
  cbn. lia.
Defined.
